(** * cloud-cli: detection, scaffolding and the wrangler.jsonc merge

    A shallow embedding of [lib/utils.js], [lib/detectors.js] and the
    command dispatcher [index.js].

    Conventions of the embedding.
    - JavaScript strings are [string] (sequences of 8-bit characters); the
      Unicode-only cases of [toUpperCase], [\s] and [.] are outside it.
    - The file system is a finite map from absolute paths to files.  A file
      that holds JSON is kept in parsed form: [JSON.stringify] followed by a
      later parse is the identity on the fields modelled here.
    - Confidences are the decimal literals of the source, as rationals.
      Where the code computes with them (the gap between two confidences,
      the percentage in a label) the computation is done on the doubles
      they denote, with the operations of IEEE 754.
    - An integer read by [parseInt] is a double as well: it is kept by its
      value, with NaN and the infinities beside the integers.
    - Logging through [console.log] is not modelled. *)

From Stdlib Require Import String Ascii ZArith QArith Qminmax Qround List Sorted Lia.
From Stdlib Require Import Floats.SpecFloat.
From stdpp Require Import base option list gmap strings pretty.
Import ListNotations.
Open Scope string_scope.
Open Scope list_scope.

(** ** JavaScript string methods *)

Module JsString.

Definition is_lower (c : ascii) : bool :=
  (97 <=? nat_of_ascii c)%nat && (nat_of_ascii c <=? 122)%nat.

Definition is_upper (c : ascii) : bool :=
  (65 <=? nat_of_ascii c)%nat && (nat_of_ascii c <=? 90)%nat.

Definition is_digit (c : ascii) : bool :=
  (48 <=? nat_of_ascii c)%nat && (nat_of_ascii c <=? 57)%nat.

(** [\w] *)
Definition is_word (c : ascii) : bool :=
  is_lower c || is_upper c || is_digit c || Ascii.eqb c "_".

(** JavaScript line terminators, as far as they are single characters. *)
Definition is_line_terminator (c : ascii) : bool :=
  Ascii.eqb c "010" || Ascii.eqb c "013".

(** [\s]: tab, line feed, vertical tab, form feed, carriage return, space. *)
Definition is_space (c : ascii) : bool :=
  ((9 <=? nat_of_ascii c)%nat && (nat_of_ascii c <=? 13)%nat)
  || Ascii.eqb c " ".

Definition upper_ascii (c : ascii) : ascii :=
  if is_lower c then ascii_of_nat (nat_of_ascii c - 32) else c.

Fixpoint toUpperCase (s : string) : string :=
  match s with
  | EmptyString => EmptyString
  | String c s' => String (upper_ascii c) (toUpperCase s')
  end.

Fixpoint drop (n : nat) (s : string) : string :=
  match n, s with
  | O, _ => s
  | S _, EmptyString => EmptyString
  | S n', String _ s' => drop n' s'
  end.

Definition startsWith (s p : string) : bool := String.prefix p s.

(** [s.includes(p)] *)
Fixpoint includes (s p : string) : bool :=
  String.prefix p s
  || match s with
     | EmptyString => false
     | String _ s' => includes s' p
     end.

(** [s.replace(p, r)] with a string pattern: only the first occurrence. *)
Fixpoint replace (s p r : string) : string :=
  if String.prefix p s then r +:+ drop (String.length p) s
  else match s with
       | EmptyString => EmptyString
       | String c s' => String c (replace s' p r)
       end.

(** [s.replace(/[...]/g, r)] for a one-character class. *)
Fixpoint replaceAll_class (cls : ascii -> bool) (r : string) (s : string)
  : string :=
  match s with
  | EmptyString => EmptyString
  | String c s' =>
      (if cls c then r else String c EmptyString)
        +:+ replaceAll_class cls r s'
  end.

(** [s.split(sep)] for a one-character separator; never empty. *)
Fixpoint split (sep : ascii) (s : string) : list string :=
  match s with
  | EmptyString => [EmptyString]
  | String c s' =>
      if Ascii.eqb c sep then EmptyString :: split sep s'
      else match split sep s' with
           | [] => [String c EmptyString]
           | x :: xs => String c x :: xs
           end
  end.

(** [parts.join(sep)] *)
Fixpoint join (sep : string) (parts : list string) : string :=
  match parts with
  | [] => EmptyString
  | [x] => x
  | x :: xs => x +:+ sep +:+ join sep xs
  end.

Fixpoint trimStart (s : string) : string :=
  match s with
  | EmptyString => EmptyString
  | String c s' => if is_space c then trimStart s' else s
  end.

Fixpoint trimEnd (s : string) : string :=
  match s with
  | EmptyString => EmptyString
  | String c s' =>
      match trimEnd s' with
      | EmptyString => if is_space c then EmptyString else String c EmptyString
      | t => String c t
      end
  end.

Definition trim (s : string) : string := trimEnd (trimStart s).

(** A string in a boolean context. *)
Definition truthy (o : option string) : bool :=
  match o with
  | Some (String _ _) => true
  | _ => false
  end.

End JsString.

(** ** Completions *)

Inductive exn : Type :=
| ReferenceError (ident : string)
| TypeError (msg : string)
| Error (msg : string).

Inductive completion (A : Type) : Type :=
| Ok (a : A)
| Throw (e : exn).

Arguments Ok {A} a.
Arguments Throw {A} e.

#[global] Instance completion_ret : MRet completion := fun _ a => Ok a.

#[global] Instance completion_bind : MBind completion := fun _ _ k c =>
  match c with
  | Ok a => k a
  | Throw e => Throw e
  end.

(** ** The deployment descriptor (wrangler.jsonc)

    Only the keys the tool reads or writes are kept.  A key that the source
    tests for absence is an [option].  Comments of the file and keys that
    are not listed here are not represented: the merge parses the file and
    writes the object back, so comments are lost, and a container entry or
    a binding that the merge replaces is replaced as a whole. *)

(** What an entry of the descriptor has under a key that the code compares
    with [===]: nothing when the key is absent, else null or a string.  The
    values the code itself writes are null or a string. *)
Inductive key (A : Type) : Type :=
| Absent
| Present (v : option A).

Arguments Absent {A}.
Arguments Present {A} v.

#[global] Instance key_eq_dec {A} `{EqDecision A} : EqDecision (key A).
Proof. solve_decision. Defined.

Coercion Present : option >-> key.

Record Container : Type := {
  c_class_name : string;
  c_image : key string;             (* null when no build file is known *)
  c_max_instances : option Z;       (* NaN is serialised as null *)
  c_instance_type : string
}.

Record Binding : Type := {
  b_class_name : string;
  b_name : string
}.

Record DurableObjects : Type := {
  bindings : option (list Binding)
}.

Record Migration : Type := {
  new_sqlite_classes : option (list string);
  tag : string
}.

Record WranglerConfig : Type := {
  w_name : option string;
  w_main : option string;
  compatibility_date : option string;
  compatibility_flags : option (list string);
  observability : option bool;
  containers : option (list Container);
  durable_objects : option DurableObjects;
  migrations : option (list Migration)
}.

Definition classes_of (m : Migration) : list string :=
  default [] (new_sqlite_classes m).

(** ** Options and context *)

(** The option object handed to the action of [program] in [index.js], with
    the keys the code reads. *)
Record Opts : Type := {
  opt_ship : bool;
  opt_plan : bool;
  opt_detect : bool;
  opt_type : option string;
  opt_name : option string;
  opt_class : option string;
  opt_maxInstances : option string;
  opt_migrationTag : option string;
  opt_noPrompt : bool;
  opt_force : bool;
  opt_verbose : bool
}.

(** The object a configuration file contributes: every key is optional. *)
Record ConfigOverrides : Type := {
  cfg_ship : option bool;
  cfg_plan : option bool;
  cfg_detect : option bool;
  cfg_type : option string;
  cfg_name : option string;
  cfg_class : option string;
  cfg_maxInstances : option string;
  cfg_migrationTag : option string;
  cfg_noPrompt : option bool;
  cfg_force : option bool;
  cfg_verbose : option bool
}.

Record Ctx : Type := {
  cwd : string;
  args : list string;
  config : ConfigOverrides
}.

(** ** Files *)

Record PackageJson : Type := {
  pkg_name : option string;
  pkg_description : option string;
  pkg_private : option bool;
  pkg_scripts : list (string * string);
  pkg_devDependencies : list (string * string);
  pkg_dependencies : list (string * string)
}.

Inductive file : Type :=
| Dir
| Text (content : string)
| ConfigDoc (doc : WranglerConfig)      (* text that parses to a descriptor *)
| PackageDoc (doc : PackageJson)        (* text that parses to a manifest *)
| OverridesDoc (doc : ConfigOverrides)  (* cf.config.json and the like *)
| TsConfigDoc.

Abbreviation filesystem := (gmap string file).

Definition pathExists (fs : filesystem) (p : string) : bool :=
  bool_decide (is_Some (fs !! p)).

(** [fs.readFile(p, 'utf8')].  Only a [Text] file has its characters in the
    model; the serialised text of a parsed document is read as empty. *)
Definition readFile (fs : filesystem) (p : string) : completion string :=
  match fs !! p with
  | Some (Text s) => Ok s
  | Some Dir => Throw (Error "EISDIR: illegal operation on a directory")
  | Some _ => Ok EmptyString
  | None => Throw (Error "ENOENT: no such file or directory")
  end.

(** ** Node's [path] module, POSIX flavour, on normalised paths *)

Module Path.

Definition join (a b : string) : string := a +:+ "/" +:+ b.

Fixpoint strip_trailing_slashes (s : string) : string :=
  match s with
  | EmptyString => EmptyString
  | String c s' =>
      match strip_trailing_slashes s' with
      | EmptyString =>
          if Ascii.eqb c "/" then EmptyString else String c EmptyString
      | t => String c t
      end
  end.

Definition basename (p : string) : string :=
  List.last (JsString.split "/" (strip_trailing_slashes p)) EmptyString.

(** The extension of the last path component: from its last dot, unless
    there is none, the component starts at that dot, or it is [..]. *)
Definition extname (p : string) : string :=
  let base := basename p in
  let parts := JsString.split "." base in
  match rev parts with
  | ext :: (_ :: _) as before =>
      if String.eqb (JsString.join "." (rev before)) EmptyString then
        EmptyString
      else if String.eqb base ".." then EmptyString
      else "." +:+ ext
  | _ => EmptyString
  end.

(** [path.relative(from, to)] for a [to] below [from]. *)
Definition relative (from to : string) : string :=
  if String.prefix (from +:+ "/") to
  then JsString.drop (String.length from + 1) to
  else to.

End Path.

Abbreviation path_join := Path.join.

(** ** Identifier resolution

    What an identifier can be bound to inside a function body, as far as the
    two property reads of the merge need it. *)

Inductive jsbinding : Type :=
| BOpts (o : Opts)
| BCtx (c : Ctx)
| BValue.

Abbreviation scope := (list (string * jsbinding)).

Fixpoint lookup_ident (sc : scope) (x : string) : completion jsbinding :=
  match sc with
  | [] => Throw (ReferenceError x)
  | (y, b) :: sc' => if String.eqb x y then Ok b else lookup_ident sc' x
  end.

Definition bound_values (xs : list string) : scope :=
  map (fun x => (x, BValue)) xs.

(** Top-level bindings of [lib/detectors.js], with Node's module wrapper. *)
Definition detectors_module_scope : scope :=
  bound_values
    ["fs"; "path"; "chalk"; "parseJsonc"; "modifyJsonc"; "applyEdits"; "log";
     "Detector"; "ContainerDetector";
     "exports"; "require"; "module"; "__filename"; "__dirname";
     "console"; "process"; "JSON"; "Set"; "Math"; "parseInt"; "isNaN"].

(** Parameters and locals of [mergeWranglerConfig] at line 607, innermost
    first. *)
Definition mergeWranglerConfig_scope : scope :=
  bound_values
    ["migrationTag"; "latestMigration"; "classExistsInMigrations";
     "newBinding"; "existingBindingIndex"; "newContainer";
     "existingContainerIndex"; "existingConfig"; "wranglerContent";
     "wranglerPath"; "className"; "bindingName"; "dockerfilePath";
     "maxInstances"]
  ++ detectors_module_scope.

(** ** ContainerDetector: the descriptor merge *)

Definition getSmartMigrationTag (fs : filesystem) (cwd : string) : string :=
  let hasExistingWorker :=
    pathExists fs (path_join (path_join cwd "src") "index.ts") in
  let hasExistingPackage := pathExists fs (path_join cwd "package.json") in
  let hasNodeModules := pathExists fs (path_join cwd "node_modules") in
  if (hasExistingWorker && hasExistingPackage) || hasNodeModules
  then "v10" else "v1".

(** [array.findIndex(p)] *)
Fixpoint findIndex {A} (p : A -> bool) (l : list A) : option nat :=
  match l with
  | [] => None
  | x :: l' => if p x then Some 0%nat else S <$> findIndex p l'
  end.

Definition inb (x : string) (l : list string) : bool :=
  existsb (String.eqb x) l.

(** Replace in place the first entry satisfying [p], else push. *)
Definition upsert {A} (p : A -> bool) (x : A) (l : list A) : list A :=
  match findIndex p l with
  | Some i => <[i := x]> l
  | None => l ++ [x]
  end.

Definition classExistsInMigrations (className : string)
    (ms : list Migration) : bool :=
  existsb (fun migration =>
             match new_sqlite_classes migration with
             | Some cs => inb className cs
             | None => false
             end) ms.

(** [opts.migrationTag || await this.getSmartMigrationTag(ctx.cwd, ...)],
    evaluated in the scope of [mergeWranglerConfig]. *)
Definition first_migration_tag (sc : scope) (fs : filesystem)
  : completion string :=
  o ← lookup_ident sc "opts";
  match o with
  | BOpts {| opt_migrationTag := Some (String a t) |} => Ok (String a t)
  | _ =>
      c ← lookup_ident sc "ctx";
      match c with
      | BCtx c => Ok (getSmartMigrationTag fs (cwd c))
      | _ => Throw (TypeError "The path argument must be of type string")
      end
  end.

(** Lines 603-638: registering [className] in the migrations. *)
Definition merge_migrations (sc : scope) (fs : filesystem)
    (className : string) (ms : list Migration)
  : completion (list Migration) :=
  if classExistsInMigrations className ms then Ok ms
  else
    match last ms with
    | None =>
        migrationTag ← first_migration_tag sc fs;
        Ok (ms ++ [ {| new_sqlite_classes := Some [className];
                       tag := migrationTag |} ])
    | Some latestMigration =>
        let classes := classes_of latestMigration in
        if (3 <=? length classes)%nat then
          let newTagNumber := (length ms + 1)%nat in
          Ok (ms ++ [ {| new_sqlite_classes := Some [className];
                         tag := "v" +:+ pretty newTagNumber |} ])
        else
          Ok (<[ (length ms - 1)%nat :=
                   {| new_sqlite_classes := Some (classes ++ [className]);
                      tag := tag latestMigration |} ]> ms)
    end.

(** The document part of [mergeWranglerConfig], between parse and write. *)
Definition merge_document (fs : filesystem) (existingConfig : WranglerConfig)
    (className bindingName : string) (dockerfilePath : option string)
    (maxInstances : option Z) : completion WranglerConfig :=
  let newContainer :=
    {| c_class_name := className; c_image := dockerfilePath;
       c_max_instances := maxInstances; c_instance_type := "basic" |} in
  let containers' :=
    upsert (fun c => bool_decide (c_image c = dockerfilePath)
                     || String.eqb (c_class_name c) className)
           newContainer (default [] (containers existingConfig)) in
  let newBinding := {| b_class_name := className; b_name := bindingName |} in
  let bindings' :=
    upsert (fun b => String.eqb (b_class_name b) className)
           newBinding
           (default [] (durable_objects existingConfig ≫= bindings)) in
  migrations' ← merge_migrations mergeWranglerConfig_scope fs className
                  (default [] (migrations existingConfig));
  let flags := default [] (compatibility_flags existingConfig) in
  let flags' :=
    if inb "nodejs_compat" flags then flags else flags ++ ["nodejs_compat"] in
  Ok {| w_name := w_name existingConfig;
        w_main := w_main existingConfig;
        compatibility_date := compatibility_date existingConfig;
        compatibility_flags := Some flags';
        observability := observability existingConfig;
        containers := Some containers';
        durable_objects := Some {| bindings := Some bindings' |};
        migrations := Some migrations' |}.

(** [fs.readFile] followed by [parseJsonc].  A descriptor that parses to an
    object is stored as [ConfigDoc]; anything else found at the path stands
    for a text that does not, and the first property read fails on it. *)
Definition readConfig (fs : filesystem) (p : string)
  : completion WranglerConfig :=
  match fs !! p with
  | Some (ConfigDoc d) => Ok d
  | Some Dir => Throw (Error "EISDIR: illegal operation on a directory")
  | Some _ => Throw (TypeError "Cannot read properties of undefined")
  | None => Throw (Error "ENOENT: no such file or directory")
  end.

(** [mergeWranglerConfig]: the [catch] logs and rethrows, so the outcome is
    that of the body; the file is written last. *)
Definition mergeWranglerConfig (fs : filesystem)
    (wranglerPath className bindingName : string)
    (dockerfilePath : option string) (maxInstances : option Z)
  : filesystem * completion unit :=
  match
    existingConfig ← readConfig fs wranglerPath;
    merge_document fs existingConfig className bindingName dockerfilePath
                   maxInstances
  with
  | Ok merged => (<[wranglerPath := ConfigDoc merged]> fs, Ok tt)
  | Throw error => (fs, Throw error)
  end.

(** [generateWranglerConfig]; [today] is [new Date().toISOString()] up to the
    letter T. *)
Definition generateWranglerConfig (today : string)
    (projectName className bindingName : string)
    (dockerfilePath : option string) (maxInstances : option Z)
  : WranglerConfig :=
  {| w_name := Some projectName;
     w_main := Some "src/index.ts";
     compatibility_date := Some today;
     compatibility_flags := Some ["nodejs_compat"];
     observability := Some true;
     containers :=
       Some [ {| c_class_name := className; c_image := dockerfilePath;
                 c_max_instances := maxInstances;
                 c_instance_type := "basic" |} ];
     durable_objects :=
       Some {| bindings :=
                 Some [ {| b_class_name := className;
                           b_name := bindingName |} ] |};
     migrations :=
       Some [ {| new_sqlite_classes := Some [className]; tag := "v1" |} ] |}.

(** The migrations stored in the descriptor at [p]. *)
Definition migrations_at (fs : filesystem) (p : string) : list Migration :=
  match fs !! p with
  | Some (ConfigDoc d) => default [] (migrations d)
  | _ => []
  end.

(** ** Detectors and detection results *)

Inductive detector_class : Type :=
| DetectorBase
| ContainerDetectorClass.

(** An instance: its class and the two fields the constructor sets. *)
Record Detector : Type := {
  d_class : detector_class;
  id : string;
  d_name : string
}.

Definition new_ContainerDetector : Detector :=
  {| d_class := ContainerDetectorClass; id := "container";
     d_name := "Container" |}.

Record Metadata : Type := {
  image : option string;
  dockerfilePath : option string
}.

Record Detection : Type := {
  detector : Detector;
  confidence : Q;
  indicators : list string;
  metadata : Metadata
}.

(** ** ContainerDetector.detect *)

Module EnvFile.
Import JsString.

(** What [(.+)$] takes: the characters up to the end of the line. *)
Fixpoint rest_of_line (s : string) : string :=
  match s with
  | EmptyString => EmptyString
  | String c s' =>
      if is_line_terminator c then EmptyString
      else String c (rest_of_line s')
  end.

(** [\s*(.+)$]: the greedy [\s*] gives characters back until [.+] finds
    one that is not a line terminator. *)
Fixpoint match_value (s : string) : option string :=
  match s with
  | EmptyString => None
  | String c s' =>
      if is_space c then
        match match_value s' with
        | Some v => Some v
        | None =>
            if is_line_terminator c then None else Some (rest_of_line s)
        end
      else Some (rest_of_line s)
  end.

(** [IMAGE\s*=\s*(.+)$] tried at one position. *)
Definition match_here (s : string) : option string :=
  if String.prefix "IMAGE" s then
    match trimStart (drop 5 s) with
    | String "=" rest => match_value rest
    | _ => None
    end
  else None.

(** The leftmost position at the start of a line where the pattern
    matches; [bol] tells whether the current position is one. *)
Fixpoint search (bol : bool) (s : string) : option string :=
  match (if bol then match_here s else None) with
  | Some v => Some v
  | None =>
      match s with
      | EmptyString => None
      | String c s' => search (is_line_terminator c) s'
      end
  end.

(** Group 1 of [envContent.match(/^IMAGE\s*=\s*(.+)$/m)]. *)
Definition imageMatch (envContent : string) : option string :=
  search true envContent.

Definition is_quote (c : ascii) : bool :=
  Ascii.eqb c "'" || Ascii.eqb c "034".

(** The global replace of line 226: every single or double quote goes. *)
Definition strip_quotes (s : string) : string :=
  replaceAll_class is_quote EmptyString s.

End EnvFile.

(** The first name of [names] that exists in [dir]. *)
Definition first_existing (fs : filesystem) (dir : string)
    (names : list string) : option string :=
  List.find (fun n => pathExists fs (path_join dir n)) names.

Definition looks_like_image (arg : string) : bool :=
  (JsString.includes arg ":" || JsString.includes arg "/")
  && negb (JsString.truthy (Some (Path.extname arg))).

(** The running state of [detect]. *)
Record detect_state : Type := {
  ds_indicators : list string;
  ds_confidence : Q;
  ds_image : option string;
  ds_dockerfilePath : option string
}.

Definition detect_arg (ctx : Ctx) (st : detect_state) : detect_state :=
  match args ctx with
  | arg :: _ =>
      if looks_like_image arg then
        {| ds_indicators :=
             ds_indicators st ++ ["Explicit image reference: " +:+ arg];
           ds_confidence := 0.95;
           ds_image := Some arg;
           ds_dockerfilePath := ds_dockerfilePath st |}
      else st
  | [] => st
  end.

Definition detect_dockerfile (fs : filesystem) (ctx : Ctx)
    (st : detect_state) : detect_state :=
  match first_existing fs (cwd ctx)
          ["Dockerfile"; "Containerfile"; "dockerfile"] with
  | Some df =>
      {| ds_indicators := ds_indicators st ++ ["Found " +:+ df];
         ds_confidence := Qmax (ds_confidence st) 0.9;
         ds_image := ds_image st;
         ds_dockerfilePath := Some (path_join (cwd ctx) df) |}
  | None => st
  end.

Definition detect_compose (fs : filesystem) (ctx : Ctx)
    (st : detect_state) : detect_state :=
  match first_existing fs (cwd ctx)
          ["docker-compose.yml"; "docker-compose.yaml";
           "compose.yml"; "compose.yaml"] with
  | Some cf =>
      {| ds_indicators := ds_indicators st ++ ["Found " +:+ cf];
         ds_confidence := Qmax (ds_confidence st) 0.7;
         ds_image := ds_image st;
         ds_dockerfilePath := ds_dockerfilePath st |}
  | None => st
  end.

Definition detect_docker_dir (fs : filesystem) (ctx : Ctx)
    (st : detect_state) : detect_state :=
  if pathExists fs (path_join (cwd ctx) ".docker") then
    {| ds_indicators := ds_indicators st ++ ["Found .docker directory"];
       ds_confidence := Qmax (ds_confidence st) 0.6;
       ds_image := ds_image st;
       ds_dockerfilePath := ds_dockerfilePath st |}
  else st.

Definition detect_env (fs : filesystem) (ctx : Ctx) (st : detect_state)
  : completion detect_state :=
  let envFile := path_join (cwd ctx) ".env" in
  if pathExists fs envFile then
    envContent ← readFile fs envFile;
    match EnvFile.imageMatch envContent with
    | Some group1 =>
        let image := EnvFile.strip_quotes group1 in
        Ok {| ds_indicators :=
                ds_indicators st ++ ["Found IMAGE in .env: " +:+ image];
              ds_confidence := Qmax (ds_confidence st) 0.8;
              ds_image := Some image;
              ds_dockerfilePath := ds_dockerfilePath st |}
    | None => Ok st
    end
  else Ok st.

Definition detect_manifest (fs : filesystem) (ctx : Ctx)
    (st : detect_state) : detect_state :=
  if pathExists fs (path_join (cwd ctx) "manifest.json") then
    {| ds_indicators := ds_indicators st ++ ["Found OCI manifest.json"];
       ds_confidence := Qmax (ds_confidence st) 0.85;
       ds_image := ds_image st;
       ds_dockerfilePath := ds_dockerfilePath st |}
  else st.

Definition Qeqb0 (q : Q) : bool := Qeq_bool q 0.

Definition ContainerDetector_detect (this : Detector) (fs : filesystem)
    (ctx : Ctx) : completion (option Detection) :=
  let st0 := {| ds_indicators := []; ds_confidence := 0;
                ds_image := None; ds_dockerfilePath := None |} in
  let st1 := detect_arg ctx st0 in
  let st2 := detect_dockerfile fs ctx st1 in
  let st3 := detect_compose fs ctx st2 in
  let st4 := detect_docker_dir fs ctx st3 in
  st5 ← detect_env fs ctx st4;
  let st6 := detect_manifest fs ctx st5 in
  if Qeqb0 (ds_confidence st6) then Ok None
  else Ok (Some {| detector := this;
                   confidence := ds_confidence st6;
                   indicators := ds_indicators st6;
                   metadata := {| image := ds_image st6;
                                  dockerfilePath := ds_dockerfilePath st6 |} |}).

(** Method dispatch on the class of the receiver. *)
Definition detect (this : Detector) (fs : filesystem) (ctx : Ctx)
    (opts : Opts) : completion (option Detection) :=
  match d_class this with
  | DetectorBase => Throw (Error "detect() must be implemented")
  | ContainerDetectorClass => ContainerDetector_detect this fs ctx
  end.

(** ** ContainerDetector.scaffold and its helpers *)

Definition nl : string := String "010" EmptyString.
Definition dq : string := String "034" EmptyString.

Module JsNumber.
Import JsString.

Definition digit_value (radix : Z) (c : ascii) : option Z :=
  let n := Z.of_nat (nat_of_ascii c) in
  let v := if is_digit c then Some (n - 48)%Z
           else if is_lower c then Some (n - 87)%Z
           else if is_upper c then Some (n - 55)%Z
           else None in
  v ≫= (fun d => if (d <? radix)%Z then Some d else None).

Fixpoint parse_digits (radix : Z) (s : string) (acc : option Z)
  : option Z :=
  match s with
  | EmptyString => acc
  | String c s' =>
      match digit_value radix c with
      | Some d => parse_digits radix s' (Some (default 0 acc * radix + d))%Z
      | None => acc
      end
  end.

(** A JavaScript number is an IEEE 754 double: [spec_float] at precision 53
    with exponents below 1024, and the standard's operations on it. *)
Definition of_Z (z : Z) : spec_float := binary_normalize 53 1024 z 0 false.

(** The double a decimal literal denotes: the one nearest to the quotient. *)
Definition of_Q (q : Q) : spec_float :=
  SFdiv 53 1024 (of_Z (Qnum q)) (of_Z (Zpos (Qden q))).

Definition sub : spec_float -> spec_float -> spec_float := SFsub 53 1024.
Definition mul : spec_float -> spec_float -> spec_float := SFmul 53 1024.
Definition ltb : spec_float -> spec_float -> bool := SFltb.

(** The numbers met where the code reads or rounds to an integer: NaN, the
    two infinities, and the doubles that are integers, by their value. *)
Inductive number : Type :=
| NaN
| Infinity (negative : bool)
| Finite (z : Z).

Definition signed (s : bool) (m : positive) : Z :=
  if s then Zneg m else Zpos m.

(** The double nearest to an integer (ties go to the even mantissa).  Up to
    2^53 in absolute value every integer is a double; beyond that the
    rounding gives a double that is an integer again, or overflows. *)
Definition to_number (z : Z) : number :=
  if (Z.abs z <=? 2 ^ 53)%Z then Finite z
  else
    match of_Z z with
    | S754_finite s m e => Finite (signed s m * 2 ^ e)
    | _ => Infinity (z <? 0)%Z
    end.

(** [parseInt(s)] without a radix: the digits read give an integer, and the
    result is the double nearest to it. *)
Definition parseInt (s : string) : number :=
  let s1 := trimStart s in
  let '(sign, s2) :=
    match s1 with
    | String "-" t => ((-1)%Z, t)
    | String "+" t => (1%Z, t)
    | _ => (1%Z, s1)
    end in
  let '(radix, s3) :=
    if String.prefix "0x" s2 || String.prefix "0X" s2
    then (16%Z, drop 2 s2) else (10%Z, s2) in
  match parse_digits radix s3 None with
  | Some v => to_number (sign * v)
  | None => NaN
  end.

(** [Math.round(x)]: the integer nearest to the value of the double, the
    upper one of two. *)
Definition round (x : spec_float) : number :=
  match x with
  | S754_nan => NaN
  | S754_infinity s => Infinity s
  | S754_zero _ => Finite 0
  | S754_finite s m e =>
      Finite match e with
             | Zneg k => Qfloor ((signed s m # Pos.pow 2 k) + (1 # 2))
             | _ => signed s m * 2 ^ e
             end
  end.

(** Number to string, for the integers among the doubles.  The digits are
    the fewest that read back as the same double, the nearest to its value
    among those; below 2^53 these are all the digits of the integer.  From
    22 digits on the exponent form is used. *)
Definition reads_as (v z : Z) : bool :=
  match to_number v with
  | Finite z' => (z' =? z)%Z
  | _ => false
  end.

Fixpoint shortest (fuel : nat) (z p : Z) : Z :=
  match fuel with
  | O => z
  | S fuel' =>
      let lo := (z / p * p)%Z in
      let hi := (lo + p)%Z in
      match reads_as lo z, reads_as hi z with
      | true, true =>
          if (z - lo <? hi - z)%Z then lo
          else if (hi - z <? z - lo)%Z then hi
          else if Z.even (lo / p) then lo else hi
      | true, false => lo
      | false, true => hi
      | false, false => shortest fuel' z (p / 10)
      end
  end.

Fixpoint strip_zeros (s : string) : string :=
  match s with
  | EmptyString => EmptyString
  | String c s' =>
      match strip_zeros s' with
      | EmptyString =>
          if Ascii.eqb c "0" then EmptyString else String c EmptyString
      | t => String c t
      end
  end.

Definition digits (z : Z) : string :=
  if (z <? 2 ^ 53)%Z then pretty z
  else
    let n := String.length (pretty z) in
    let v := pretty (shortest n z (10 ^ (Z.of_nat n - 1))) in
    let n' := String.length v in
    if (n' <=? 21)%nat then v
    else
      match strip_zeros v with
      | String d EmptyString =>
          String d EmptyString +:+ "e+" +:+ pretty (n' - 1)%nat
      | String d more =>
          String d ("." +:+ more) +:+ "e+" +:+ pretty (n' - 1)%nat
      | EmptyString => v
      end.

Definition toString (x : number) : string :=
  match x with
  | NaN => "NaN"
  | Infinity false => "Infinity"
  | Infinity true => "-Infinity"
  | Finite z => if (z <? 0)%Z then "-" +:+ digits (- z) else digits z
  end.

End JsNumber.

(** An integer written in the model stands for the number of that value. *)
Coercion JsNumber.Finite : Z >-> JsNumber.number.
Bind Scope Z_scope with JsNumber.number.

Definition writeFile (fs : filesystem) (p : string) (f : file)
  : filesystem * completion unit :=
  match fs !! p with
  | Some Dir => (fs, Throw (Error "EISDIR: illegal operation on a directory"))
  | _ => (<[p := f]> fs, Ok tt)
  end.

Definition ensureDir (fs : filesystem) (p : string)
  : filesystem * completion unit :=
  match fs !! p with
  | None => (<[p := Dir]> fs, Ok tt)
  | Some Dir => (fs, Ok tt)
  | Some _ => (fs, Throw (Error "EEXIST: file already exists"))
  end.

Definition class_block (className : string) (port : JsNumber.number)
  : list string :=
  [ "export class " +:+ className +:+ " extends Container<Env> {";
    "  defaultPort = " +:+ JsNumber.toString port +:+ ";";
    "  sleepAfter = " +:+ dq +:+ "2m" +:+ dq +:+ ";";
    "  ";
    "  override onStart() {";
    "    console.log(" +:+ dq +:+ className
      +:+ " successfully started on port " +:+ JsNumber.toString port
      +:+ dq +:+ ");";
    "  }";
    "";
    "  override onStop() {";
    "    console.log(" +:+ dq +:+ className +:+ " successfully shut down"
      +:+ dq +:+ ");";
    "  }";
    "";
    "  override onError(error: unknown) {";
    "    console.log(" +:+ dq +:+ className +:+ " error:" +:+ dq
      +:+ ", error);";
    "  }";
    "}" ].

Definition generateWorkerCode (className bindingName : string)
    (port : JsNumber.number) : string :=
  JsString.join nl
    ([ "import { Container, getContainer } from " +:+ dq
         +:+ "@cloudflare/containers" +:+ dq +:+ ";";
       "import { Hono } from " +:+ dq +:+ "hono" +:+ dq +:+ ";";
       "" ]
     ++ class_block className port
     ++ [ "";
          "const app = new Hono<{";
          "  Bindings: Env;";
          "}>();";
          "";
          "// Forward all requests to container - no health check needed";
          "app.all(" +:+ dq +:+ "*" +:+ dq +:+ ", async (c) => {";
          "  const container = getContainer(c.env." +:+ bindingName +:+ ");";
          "  return await container.fetch(c.req.raw);";
          "});";
          "";
          "export default app;" ]).

Definition generatePackageJson (projectName : string) : PackageJson :=
  {| pkg_name := Some projectName;
     pkg_description :=
       Some ("Cloudflare Worker with Container - " +:+ projectName);
     pkg_private := Some true;
     pkg_scripts :=
       [ ("deploy", "wrangler deploy"); ("dev", "wrangler dev");
         ("start", "wrangler dev"); ("cf-typegen", "wrangler types") ];
     pkg_devDependencies :=
       [ ("@types/node", "^24.3.0"); ("typescript", "5.8.3");
         ("wrangler", "^4.33.1") ];
     pkg_dependencies :=
       [ ("@cloudflare/containers", "^0.0.19"); ("hono", "4.8.2") ] |}.

Definition cfignore : string :=
  JsString.join nl
    [ "node_modules/"; "*.log"; ".env"; ".DS_Store"; "dist/"; "build/";
      "coverage/"; ".nyc_output/"; "*.tgz"; "*.tar.gz" ].

Fixpoint assoc {A} (k : string) (l : list (string * A)) : option A :=
  match l with
  | [] => None
  | (k', v) :: l' => if String.eqb k k' then Some v else assoc k l'
  end.

(** Object spread of [a] then [b]: the keys of [a] keep their place, [b]
    wins on a shared key. *)
Definition spread (a b : list (string * string)) : list (string * string) :=
  map (fun kv => (kv.1, default kv.2 (assoc kv.1 b))) a
  ++ List.filter (fun kv => negb (bool_decide (is_Some (assoc kv.1 a)))) b.

Definition mergePackageJsonDependencies (fs : filesystem)
    (packageJsonPath projectName : string) : filesystem :=
  match fs !! packageJsonPath with
  | Some (PackageDoc existingPackageJson) =>
      let requiredDeps := generatePackageJson projectName in
      <[ packageJsonPath :=
           PackageDoc
             {| pkg_name := pkg_name existingPackageJson;
                pkg_description := pkg_description existingPackageJson;
                pkg_private := pkg_private existingPackageJson;
                pkg_scripts :=
                  spread (pkg_scripts existingPackageJson)
                         (pkg_scripts requiredDeps);
                pkg_devDependencies :=
                  spread (pkg_devDependencies existingPackageJson)
                         (pkg_devDependencies requiredDeps);
                pkg_dependencies :=
                  spread (pkg_dependencies existingPackageJson)
                         (pkg_dependencies requiredDeps) |} ]> fs
  | _ => fs    (* the catch clause only warns *)
  end.

Module Dockerfile.
Import JsString.

Fixpoint find_expose (lines : list string) : option JsNumber.number :=
  match lines with
  | [] => None
  | line :: rest =>
      let exposeLine := toUpperCase (trim line) in
      if startsWith exposeLine "EXPOSE " then
        match JsNumber.parseInt
                (nth 1 (split " " exposeLine) EmptyString) with
        | JsNumber.NaN => find_expose rest
        | exposedPort => Some exposedPort
        end
      else find_expose rest
  end.

Definition analyzeDockerfile (fs : filesystem) (dockerfilePath : string)
  : JsNumber.number :=
  match readFile fs dockerfilePath with
  | Ok content =>
      default (JsNumber.Finite 8080) (find_expose (split "010" content))
  | Throw _ => 8080%Z
  end.

End Dockerfile.

Definition findExistingContainer (fs : filesystem) (cwd : string)
    (image dockerfilePath : option string) : option Container :=
  let wranglerPath := path_join cwd "wrangler.jsonc" in
  if negb (pathExists fs wranglerPath) then None
  else
    match readConfig fs wranglerPath with
    | Throw _ => None
    | Ok wranglerConfig =>
        match containers wranglerConfig with
        | None => None
        | Some cs =>
            let targetImage :=
              if JsString.truthy image then "./Dockerfile.generated"
              else match dockerfilePath with
                   | Some (String a t) => Path.relative cwd (String a t)
                   | _ => "./Dockerfile"
                   end in
            List.find
              (fun container =>
                 bool_decide (c_image container = Some targetImage)
                 || bool_decide (c_image container = Some "./Dockerfile")
                 || (JsString.truthy image
                     && bool_decide
                          (c_image container = Some "./Dockerfile.generated")))
              cs
        end
    end.

Module WorkerFile.
Import JsString.

Fixpoint take_word (s : string) : string :=
  match s with
  | EmptyString => EmptyString
  | String c s' => if is_word c then String c (take_word s') else EmptyString
  end.

(** The names captured by the global pattern [export class (\w+)]; [skip]
    counts the characters of the last match still to be passed. *)
Fixpoint exported_classes (skip : nat) (s : string) : list string :=
  match s with
  | EmptyString => []
  | String _ s' =>
      match skip with
      | S k => exported_classes k s'
      | O =>
          if String.prefix "export class " s then
            match take_word (drop 13 s) with
            | EmptyString => exported_classes 0 s'
            | w => w :: exported_classes (12 + String.length w) s'
            end
          else exported_classes 0 s'
      end
  end.

Definition is_header_line (l : string) : bool :=
  let line := trim l in
  startsWith line "import " || startsWith line "//"
  || String.eqb line EmptyString.

(** The index after the leading run of import, comment and blank lines. *)
Fixpoint insertIndex (lines : list string) : nat :=
  match lines with
  | l :: rest => if is_header_line l then S (insertIndex rest) else O
  | [] => O
  end.

(** The text spliced into an existing worker: the class between two
    line breaks. *)
Definition containerClass (className : string) (port : JsNumber.number)
  : string :=
  nl +:+ join nl (class_block className port) +:+ nl.

End WorkerFile.

Definition updateWorkerCode (fs : filesystem)
    (workerPath className bindingName : string) (port : JsNumber.number)
  : filesystem * completion unit :=
  match readFile fs workerPath with
  | Ok existingCode =>
      if JsString.includes existingCode ("export class " +:+ className)
      then (fs, Ok tt)
      else
        let lines := JsString.split "010" existingCode in
        let i := WorkerFile.insertIndex lines in
        (<[ workerPath :=
              Text (JsString.join nl
                      (take i lines
                       ++ [WorkerFile.containerClass className port]
                       ++ drop i lines)) ]> fs, Ok tt)
  | Throw _ =>
      writeFile fs workerPath
                (Text (generateWorkerCode className bindingName port))
  end.

(** The [while] loop of [generateUniqueClassName]; it leaves after at most
    one round per existing class, which [fuel] bounds. *)
Fixpoint unique_from (fuel : nat) (existingClasses : list string)
    (baseName className : string) (counter : nat) : string :=
  match fuel with
  | O => className
  | S fuel' =>
      if inb className existingClasses
      then unique_from fuel' existingClasses baseName
                       (baseName +:+ pretty counter) (S counter)
      else className
  end.

(** The class names [generateUniqueClassName] collects from the worker and
    from the descriptor. *)
Definition existingClasses (fs : filesystem) (cwd : string) : list string :=
  let workerPath := path_join (path_join cwd "src") "index.ts" in
  let wranglerPath := path_join cwd "wrangler.jsonc" in
  let fromWorker :=
    if pathExists fs workerPath then
      match readFile fs workerPath with
      | Ok existingCode => WorkerFile.exported_classes 0 existingCode
      | Throw _ => []
      end
    else [] in
  let fromWrangler :=
    if pathExists fs wranglerPath then
      match readConfig fs wranglerPath with
      | Ok wranglerConfig =>
          map c_class_name (default [] (containers wranglerConfig))
      | Throw _ => []
      end
    else [] in
  fromWorker ++ fromWrangler.

Definition generateUniqueClassName (fs : filesystem) (cwd baseName : string)
  : string :=
  let existing := existingClasses fs cwd in
  unique_from (S (length existing)) existing baseName baseName 1.

(** File-system state with exceptions: what the body of [scaffold] runs in
    once the confirmation is behind it. *)
Definition FsM (A : Type) : Type := filesystem -> filesystem * completion A.

#[global] Instance FsM_ret : MRet FsM := fun _ a fs => (fs, Ok a).

#[global] Instance FsM_bind : MBind FsM := fun _ _ k m fs =>
  match m fs with
  | (fs', Ok a) => k a fs'
  | (fs', Throw e) => (fs', Throw e)
  end.

Definition get_fs : FsM filesystem := fun fs => (fs, Ok fs).

(** An effectful call as a step of [FsM]. *)
Definition step {A} (f : filesystem -> filesystem * completion A) : FsM A := f.

Record ScaffoldResult : Type := {
  projectName : string;
  className : string;
  bindingName : string
}.

Definition is_name_char (c : ascii) : bool :=
  JsString.is_lower c || JsString.is_upper c || JsString.is_digit c
  || Ascii.eqb c "-".

(** Lines 250-257. *)
Definition resolve_projectName (ctx : Ctx) (opts : Opts)
    (image : option string) : string :=
  match opt_name opts with
  | Some (String a t) => String a t
  | _ =>
      match image with
      | Some (String a t) =>
          let last_part :=
            List.last (JsString.split "/" (String a t)) EmptyString in
          let untagged := hd EmptyString (JsString.split ":" last_part) in
          JsString.replaceAll_class (fun c => negb (is_name_char c)) "-"
                                    untagged
      | _ => Path.basename (cwd ctx)
      end
  end.

(** Line 266. *)
Definition baseName_of (projectName : string) : string :=
  match projectName with
  | EmptyString => "Container"
  | String c rest =>
      String (JsString.upper_ascii c)
             (JsString.replaceAll_class (fun c => Ascii.eqb c "-")
                                        EmptyString rest)
      +:+ "Container"
  end.

(** Lines 259-268. *)
Definition resolve_className (fs : filesystem) (ctx : Ctx) (opts : Opts)
    (image dockerfilePath : option string) (projectName : string)
  : string :=
  match findExistingContainer fs (cwd ctx) image dockerfilePath with
  | Some existingContainer => c_class_name existingContainer
  | None =>
      match opt_class opts with
      | Some (String a t) => String a t
      | _ => generateUniqueClassName fs (cwd ctx) (baseName_of projectName)
      end
  end.

(** Line 270. *)
Definition bindingName_of (className : string) : string :=
  JsString.replace (JsString.toUpperCase className) "CONTAINER" EmptyString
  +:+ "_CONTAINER".

(** Line 271, as the descriptor will hold it: [JSON.stringify] writes NaN
    and the infinities as null. *)
Definition resolve_maxInstances (opts : Opts) : option Z :=
  match JsNumber.parseInt
          (match opt_maxInstances opts with
           | Some (String a t) => String a t
           | _ => "10"
           end) with
  | JsNumber.Finite maxInstances => Some maxInstances
  | _ => None
  end.

(** Lines 295-312: the build file and the port. *)
Definition scaffold_dockerfile (ctx : Ctx)
    (image dockerfilePath : option string)
  : FsM (option string * JsNumber.number) :=
  if JsString.truthy image && negb (JsString.truthy dockerfilePath) then
    let generatedPath := path_join (cwd ctx) "Dockerfile.generated" in
    let generatedDockerfile :=
      "FROM " +:+ default EmptyString image +:+ nl +:+ "EXPOSE 8080" in
    _ ← step (fun fs => writeFile fs generatedPath (Text generatedDockerfile));
    mret (Some "./Dockerfile.generated", JsNumber.Finite 8080)
  else
    match dockerfilePath with
    | Some (String a t) =>
        fs ← get_fs;
        let port := Dockerfile.analyzeDockerfile fs (String a t) in
        let rel := Path.relative (cwd ctx) (String a t) in
        mret (Some (if JsString.startsWith rel "." then rel
                    else "./" +:+ rel), port)
    | _ => mret (dockerfilePath, JsNumber.Finite 8080)
    end.

(** Lines 319-327. *)
Definition scaffold_worker (ctx : Ctx) (className bindingName : string)
    (port : JsNumber.number) : FsM unit :=
  let workerPath := path_join (path_join (cwd ctx) "src") "index.ts" in
  fs ← get_fs;
  if pathExists fs workerPath then
    step (fun fs => updateWorkerCode fs workerPath className bindingName port)
  else
    step (fun fs => writeFile fs workerPath
                      (Text (generateWorkerCode className bindingName port))).

(** Lines 329-337: the descriptor.  The option object is in scope here, yet
    neither call receives it. *)
Definition scaffold_wrangler (today : string) (ctx : Ctx) (opts : Opts)
    (projectName className bindingName : string)
    (finalDockerfilePath : option string) (maxInstances : option Z)
  : FsM unit :=
  let wranglerPath := path_join (cwd ctx) "wrangler.jsonc" in
  fs ← get_fs;
  if pathExists fs wranglerPath then
    step (fun fs => mergeWranglerConfig fs wranglerPath className bindingName
                      finalDockerfilePath maxInstances)
  else
    step (fun fs =>
            writeFile fs wranglerPath
              (ConfigDoc (generateWranglerConfig today projectName className
                            bindingName finalDockerfilePath maxInstances))).

(** Lines 339-370. *)
Definition scaffold_companions (ctx : Ctx) (projectName : string)
  : FsM unit :=
  let tsConfigPath := path_join (cwd ctx) "tsconfig.json" in
  let packageJsonPath := path_join (cwd ctx) "package.json" in
  let cfignorePath := path_join (cwd ctx) ".cfignore" in
  fs ← get_fs;
  _ ← (if pathExists fs tsConfigPath then mret tt
       else step (fun fs => writeFile fs tsConfigPath TsConfigDoc));
  fs ← get_fs;
  _ ← (if pathExists fs packageJsonPath
       then step (fun fs =>
                    (mergePackageJsonDependencies fs packageJsonPath
                       projectName, Ok tt))
       else step (fun fs =>
                    writeFile fs packageJsonPath
                      (PackageDoc (generatePackageJson projectName))));
  fs ← get_fs;
  if pathExists fs cfignorePath then mret tt
  else step (fun fs => writeFile fs cfignorePath (Text cfignore)).

(** Lines 291-372: everything after the confirmation. *)
Definition scaffold_files (today : string) (ctx : Ctx) (opts : Opts)
    (image dockerfilePath : option string)
    (projectName className bindingName : string) (maxInstances : option Z)
  : FsM ScaffoldResult :=
  '(finalDockerfilePath, port) ← scaffold_dockerfile ctx image dockerfilePath;
  _ ← step (fun fs => ensureDir fs (path_join (cwd ctx) "src"));
  _ ← scaffold_worker ctx className bindingName port;
  _ ← scaffold_wrangler today ctx opts projectName className bindingName
        finalDockerfilePath maxInstances;
  _ ← scaffold_companions ctx projectName;
  mret {| projectName := projectName; className := className;
          bindingName := bindingName |}.

(** ** Interaction with the terminal and with child processes *)

Inductive prog (A : Type) : Type :=
| Done (a : A)
| Confirm (message : string) (k : bool -> prog A)
| Select (message : string) (choices : list (string * Detection))
         (k : Detection -> prog A)
| Spawn (command : string) (argv : list string) (k : Z -> prog A).

Arguments Done {A} a.
Arguments Confirm {A} message k.
Arguments Select {A} message choices k.
Arguments Spawn {A} command argv k.

Fixpoint prog_bind {A B} (k : A -> prog B) (p : prog A) : prog B :=
  match p with
  | Done a => k a
  | Confirm m f => Confirm m (fun b => prog_bind k (f b))
  | Select m cs f => Select m cs (fun d => prog_bind k (f d))
  | Spawn c a f => Spawn c a (fun z => prog_bind k (f z))
  end.

#[global] Instance prog_ret : MRet prog := fun _ a => Done a.
#[global] Instance prog_mbind : MBind prog := fun _ _ k p => prog_bind k p.

(** The answers of the outside world.  For a child process the answer is
    the code that its ['close'] event reports; a child that cannot be
    started is the matter of [run_process] below. *)
Record oracle : Type := {
  answer_confirm : string -> bool;
  answer_select : string -> list (string * Detection) -> Detection;
  answer_spawn : string -> list string -> Z
}.

Fixpoint run {A} (o : oracle) (p : prog A) : A :=
  match p with
  | Done a => a
  | Confirm m k => run o (k (answer_confirm o m))
  | Select m cs k => run o (k (answer_select o m cs))
  | Spawn c a k => run o (k (answer_spawn o c a))
  end.

(** Whether a program reaches its result without the list prompt. *)
Fixpoint never_selects {A} (p : prog A) : Prop :=
  match p with
  | Done _ => True
  | Confirm _ k => forall b, never_selects (k b)
  | Select _ _ _ => False
  | Spawn _ _ k => forall z, never_selects (k z)
  end.

Definition ContainerDetector_scaffold (today : string) (fs : filesystem)
    (ctx : Ctx) (opts : Opts) (detection : Detection)
  : prog (filesystem * completion (option ScaffoldResult)) :=
  let image := image (metadata detection) in
  let dockerfilePath := dockerfilePath (metadata detection) in
  let projectName := resolve_projectName ctx opts image in
  let className :=
    resolve_className fs ctx opts image dockerfilePath projectName in
  let bindingName := bindingName_of className in
  let maxInstances := resolve_maxInstances opts in
  let existingWorker :=
    pathExists fs (path_join (path_join (cwd ctx) "src") "index.ts") in
  let existingWrangler := pathExists fs (path_join (cwd ctx) "wrangler.jsonc") in
  let files fs :=
    match scaffold_files today ctx opts image dockerfilePath projectName
            className bindingName maxInstances fs with
    | (fs', Ok r) => (fs', Ok (Some r))
    | (fs', Throw e) => (fs', Throw e)
    end in
  if (existingWorker || existingWrangler) && negb (opt_force opts)
     && negb (opt_noPrompt opts)
  then
    Confirm "This will modify existing project files. Continue?"
            (fun proceed =>
               if proceed then Done (files fs) else Done (fs, Ok None))
  else Done (files fs).

Definition scaffold (this : Detector) (today : string) (fs : filesystem)
    (ctx : Ctx) (opts : Opts) (detection : Detection)
  : prog (filesystem * completion (option ScaffoldResult)) :=
  match d_class this with
  | DetectorBase => Done (fs, Throw (Error "scaffold() must be implemented"))
  | ContainerDetectorClass =>
      ContainerDetector_scaffold today fs ctx opts detection
  end.

Definition ContainerDetector_deploy : prog bool :=
  Spawn "npm" ["install"]
    (fun code =>
       if negb (code =? 0)%Z then Done false
       else
         Spawn "npx" ["wrangler"; "types"]
           (fun typesCode =>
              Spawn "npx" ["wrangler"; "deploy"]
                (fun deployCode => Done (deployCode =? 0)%Z))).

Definition deploy (this : Detector) : prog (completion bool) :=
  match d_class this with
  | DetectorBase => Done (Throw (Error "deploy() must be implemented"))
  | ContainerDetectorClass => b ← ContainerDetector_deploy; Done (Ok b)
  end.

(** ** lib/utils.js *)

Module EXIT_CODES.
Definition SUCCESS : Z := 0.
Definition PARTIAL : Z := 2.
Definition USAGE : Z := 64.
Definition CONFIG : Z := 65.
End EXIT_CODES.

Definition no_overrides : ConfigOverrides :=
  {| cfg_ship := None; cfg_plan := None; cfg_detect := None;
     cfg_type := None; cfg_name := None; cfg_class := None;
     cfg_maxInstances := None; cfg_migrationTag := None;
     cfg_noPrompt := None; cfg_force := None; cfg_verbose := None |}.

Definition only_name (n : option string) : ConfigOverrides :=
  {| cfg_ship := None; cfg_plan := None; cfg_detect := None;
     cfg_type := None; cfg_name := n; cfg_class := None;
     cfg_maxInstances := None; cfg_migrationTag := None;
     cfg_noPrompt := None; cfg_force := None; cfg_verbose := None |}.

(** The loop of [loadConfig]: the first file that loads wins; a file that
    fails to load is skipped with a warning. *)
Fixpoint loadConfig_from (fs : filesystem) (cwd : string)
    (configFiles : list string) : ConfigOverrides :=
  match configFiles with
  | [] => no_overrides
  | configFile :: rest =>
      match fs !! path_join cwd configFile with
      | Some (OverridesDoc d) => d
      | Some (ConfigDoc d) => only_name (w_name d)
      | Some (PackageDoc d) => only_name (pkg_name d)
      | Some TsConfigDoc => no_overrides
      | Some (Text _) | Some Dir | None => loadConfig_from fs cwd rest
      end
  end.

Definition loadConfig (fs : filesystem) (cwd : string) : ConfigOverrides :=
  loadConfig_from fs cwd ["cf.config.json"; "cf.config.js"; ".cfrc.json"].

Definition loadContext (fs : filesystem) (cwd : string) (args : list string)
  : Ctx :=
  {| cwd := cwd; args := args; config := loadConfig fs cwd |}.

Definition Qltb (a b : Q) : bool := negb (Qle_bool b a).

(** [results.sort((a, b) => b.confidence - a.confidence)]: the sort is
    stable, so an element goes in front of the first one that is not
    strictly more confident. *)
Fixpoint insert_sorted (a : Detection) (l : list Detection)
  : list Detection :=
  match l with
  | [] => [a]
  | b :: l' =>
      if Qltb (confidence a) (confidence b) then b :: insert_sorted a l'
      else a :: l
  end.

Definition sort_results (results : list Detection) : list Detection :=
  foldr insert_sorted [] results.

(** [Math.round(r.confidence * 100)], on doubles. *)
Definition percentage (confidence : Q) : JsNumber.number :=
  JsNumber.round (JsNumber.mul (JsNumber.of_Q confidence) (JsNumber.of_Z 100)).

Definition choice_of (r : Detection) : string * Detection :=
  (d_name (detector r) +:+ " (confidence: "
     +:+ JsNumber.toString (percentage (confidence r)) +:+ "%)", r).

(** [results[0].confidence - results[1].confidence < 0.1]: a subtraction
    of doubles, compared with the double nearest to 0.1. *)
Definition gap_below_threshold (c0 c1 : Q) : bool :=
  JsNumber.ltb (JsNumber.sub (JsNumber.of_Q c0) (JsNumber.of_Q c1))
               (JsNumber.of_Q 0.1).

(** Lines 56-80, on the collected results. *)
Definition resolve (results : list Detection) (opts : Opts)
  : prog (option Detection) :=
  match sort_results results with
  | [] => Done None
  | [r0] => Done (Some r0)
  | r0 :: r1 :: rest =>
      if gap_below_threshold (confidence r0) (confidence r1) then
        if opt_noPrompt opts then Done (Some r0)
        else
          Select "Multiple project types detected. Which would you like to use?"
                 (map choice_of (r0 :: r1 :: rest))
                 (fun selected => Done (Some selected))
      else Done (Some r0)
  end.

(** Lines 47-54. *)
Fixpoint collect (detectors : list Detector) (fs : filesystem) (ctx : Ctx)
    (opts : Opts) : completion (list Detection) :=
  match detectors with
  | [] => Ok []
  | detector :: rest =>
      result ← detect detector fs ctx opts;
      results ← collect rest fs ctx opts;
      Ok (match result with
          | Some r => r :: results
          | None => results
          end)
  end.

Definition autoDetect (detectors : list Detector) (fs : filesystem)
    (ctx : Ctx) (opts : Opts) : prog (completion (option Detection)) :=
  match collect detectors fs ctx opts with
  | Throw e => Done (Throw e)
  | Ok results => r ← resolve results opts; Done (Ok r)
  end.

(** ** index.js *)

(** [Object.assign(opts, ctx.config)] *)
Definition assign (opts : Opts) (c : ConfigOverrides) : Opts :=
  let over {A} (o : option A) (v : A) := default v o in
  let over_opt {A} (o : option A) (v : option A) :=
    match o with Some x => Some x | None => v end in
  {| opt_ship := over (cfg_ship c) (opt_ship opts);
     opt_plan := over (cfg_plan c) (opt_plan opts);
     opt_detect := over (cfg_detect c) (opt_detect opts);
     opt_type := over_opt (cfg_type c) (opt_type opts);
     opt_name := over_opt (cfg_name c) (opt_name opts);
     opt_class := over_opt (cfg_class c) (opt_class opts);
     opt_maxInstances := over_opt (cfg_maxInstances c) (opt_maxInstances opts);
     opt_migrationTag := over_opt (cfg_migrationTag c) (opt_migrationTag opts);
     opt_noPrompt := over (cfg_noPrompt c) (opt_noPrompt opts);
     opt_force := over (cfg_force c) (opt_force opts);
     opt_verbose := over (cfg_verbose c) (opt_verbose opts) |}.

(** How the process ends: the files left behind and the exit code. *)
Record outcome : Type := {
  files : filesystem;
  exit_code : Z
}.

Definition exit (fs : filesystem) (code : Z) : prog outcome :=
  Done {| files := fs; exit_code := code |}.

(** Lines 66-101 of the action: from a detection result to the end. *)
Definition run_detected (today : string) (fs : filesystem) (ctx : Ctx)
    (opts : Opts) (result : Detection) : prog outcome :=
  if opt_detect opts then exit fs EXIT_CODES.SUCCESS
  else if opt_plan opts then exit fs EXIT_CODES.SUCCESS
  else
    '(fs', scaffoldResult) ← scaffold (detector result) today fs ctx opts result;
    match scaffoldResult with
    | Throw _ => exit fs' EXIT_CODES.CONFIG
    | Ok None => exit fs' EXIT_CODES.CONFIG
    | Ok (Some _) =>
        if opt_ship opts then
          shipSuccess ← deploy (detector result);
          match shipSuccess with
          | Throw _ => exit fs' EXIT_CODES.CONFIG
          | Ok false => exit fs' EXIT_CODES.PARTIAL
          | Ok true => exit fs' EXIT_CODES.SUCCESS
          end
        else exit fs' EXIT_CODES.SUCCESS
    end.

(** Line 37: [target ? [target] : []]. *)
Definition target_args (target : option string) : list string :=
  match target with
  | Some (String a t) => [String a t]
  | _ => []
  end.

(** Line 44: the detector a type option forces, among the registered
    ones. *)
Definition forcedDetector (detectors : list Detector) (opts : Opts)
  : option Detector :=
  match opt_type opts with
  | Some (String a t) =>
      List.find (fun d => String.eqb (id d) (String a t)) detectors
  | _ => None
  end.

(** The action of [program]: [processCwd] is [process.cwd()], [target] the
    positional argument, [opts0] the parsed options. *)
Definition main (today processCwd : string) (fs : filesystem)
    (target : option string) (opts0 : Opts) : prog outcome :=
  let ctx := loadContext fs processCwd (target_args target) in
  let detectors := [new_ContainerDetector] in
  let opts := assign opts0 (config ctx) in
  match forcedDetector detectors opts with
  | Some forced =>
      match detect forced fs ctx opts with
      | Throw _ => exit fs EXIT_CODES.CONFIG
      | Ok None => exit fs EXIT_CODES.CONFIG
      | Ok (Some result) => run_detected today fs ctx opts result
      end
  | None =>
      detected ← autoDetect detectors fs ctx opts;
      match detected with
      | Throw _ => exit fs EXIT_CODES.CONFIG
      | Ok None => exit fs EXIT_CODES.USAGE
      | Ok (Some result) => run_detected today fs ctx opts result
      end
  end.

Definition default_opts : Opts :=
  {| opt_ship := false; opt_plan := false; opt_detect := false;
     opt_type := None; opt_name := None; opt_class := None;
     opt_maxInstances := Some "10"; opt_migrationTag := None;
     opt_noPrompt := false; opt_force := false; opt_verbose := false |}.

(** An outside world that declines, picks the first choice and fails every
    child process. *)
Definition no_detection : Detection :=
  {| detector := new_ContainerDetector; confidence := 0; indicators := [];
     metadata := {| image := None; dockerfilePath := None |} |}.

Definition first_choice (choices : list (string * Detection)) : Detection :=
  match choices with
  | (_, d) :: _ => d
  | [] => no_detection
  end.

Definition refusing : oracle :=
  {| answer_confirm := fun _ => false;
     answer_select := fun _ => first_choice;
     answer_spawn := fun _ _ => 1%Z |}.

(** ** Notions the properties are stated with *)

(** In how many migrations [className] is listed. *)
Definition registrations (className : string) (ms : list Migration) : nat :=
  length (List.filter (fun m => inb className (classes_of m)) ms).

(** Every class is listed in at most one migration. *)
Definition registered_at_most_once (ms : list Migration) : Prop :=
  forall className, (registrations className ms <= 1)%nat.

Definition within_capacity (m : Migration) : Prop :=
  (length (classes_of m) <= 3)%nat.

(** The arguments of one call of [mergeWranglerConfig] on a given file. *)
Record merge_request : Type := {
  mr_className : string;
  mr_bindingName : string;
  mr_dockerfilePath : option string;
  mr_maxInstances : option Z
}.

Definition merge_once (fs : filesystem) (wranglerPath : string)
    (r : merge_request) : filesystem * completion unit :=
  mergeWranglerConfig fs wranglerPath (mr_className r) (mr_bindingName r)
                      (mr_dockerfilePath r) (mr_maxInstances r).

(** A sequence of merges on one descriptor; a merge that throws leaves the
    files as they were and the next one goes on from there. *)
Fixpoint merge_all (fs : filesystem) (wranglerPath : string)
    (rs : list merge_request) : filesystem :=
  match rs with
  | [] => fs
  | r :: rs' => merge_all (merge_once fs wranglerPath r).1 wranglerPath rs'
  end.

(** What batch allocation does to a non-empty list of migrations that does
    not list [className] yet. *)
Definition batch_allocate (className : string) (latest : Migration)
    (ms : list Migration) : list Migration :=
  if (length (classes_of latest) <? 3)%nat then
    <[ (length ms - 1)%nat :=
         {| new_sqlite_classes := Some (classes_of latest ++ [className]);
            tag := tag latest |} ]> ms
  else
    ms ++ [ {| new_sqlite_classes := Some [className];
               tag := "v" +:+ pretty (length ms + 1)%nat |} ].

(** The tag of the migration a merge has added at the end is carried by no
    migration that was there before. *)
Definition allocates_fresh_tag (fs : filesystem) (className : string)
    (ms : list Migration) : Prop :=
  forall ms' m,
    merge_migrations mergeWranglerConfig_scope fs className ms = Ok ms' ->
    last ms' = Some m ->
    tag m ∉ map tag ms.

(** The tags of [ms] are the letter v followed by a number up to the number
    of migrations. *)
Definition numbered_tags (ms : list Migration) : Prop :=
  forall m, m ∈ ms ->
    exists k : nat, (k <= length ms)%nat /\ tag m = "v" +:+ pretty k.

(** Placement under a tag override, as the specification words it: the
    class joins the migration that carries the tag, and without one a new
    migration of that tag holds just the class. *)
Definition place_under_tag (t className : string) (ms : list Migration)
  : list Migration :=
  if existsb (fun m => String.eqb (tag m) t) ms then
    map (fun m =>
           if String.eqb (tag m) t
           then {| new_sqlite_classes := Some (classes_of m ++ [className]);
                   tag := tag m |}
           else m) ms
  else ms ++ [ {| new_sqlite_classes := Some [className]; tag := t |} ].

(** The descriptor step of [scaffold] honours the override of [opts]. *)
Definition honours_tag_override (today : string) (fs : filesystem)
    (ctx : Ctx) (opts : Opts) (projectName className bindingName : string)
    (finalDockerfilePath : option string) (maxInstances : option Z) : Prop :=
  forall t,
    opt_migrationTag opts = Some t ->
    let wranglerPath := path_join (cwd ctx) "wrangler.jsonc" in
    classExistsInMigrations className (migrations_at fs wranglerPath) = false ->
    migrations_at
      (scaffold_wrangler today ctx opts projectName className bindingName
         finalDockerfilePath maxInstances fs).1 wranglerPath
    = place_under_tag t className (migrations_at fs wranglerPath).

Definition empty_document : WranglerConfig :=
  {| w_name := None; w_main := None; compatibility_date := None;
     compatibility_flags := None; observability := None; containers := None;
     durable_objects := None; migrations := None |}.

Definition document_with (ms : list Migration) : WranglerConfig :=
  {| w_name := None; w_main := None; compatibility_date := None;
     compatibility_flags := None; observability := None; containers := None;
     durable_objects := None; migrations := Some ms |}.

(** Ranked from the most confident down. *)
Definition ranked (l : list Detection) : Prop :=
  StronglySorted (fun x y => (confidence y <= confidence x)%Q) l.

Definition three_under_v2 : list Migration :=
  [ {| new_sqlite_classes := Some ["A"; "B"; "C"]; tag := "v2" |} ].

(** The context and the options the action works with. *)
Definition action_ctx (d : string) (fs : filesystem) (target : option string)
  : Ctx :=
  loadContext fs d (target_args target).

Definition action_opts (d : string) (fs : filesystem)
    (target : option string) (opts0 : Opts) : Opts :=
  assign opts0 (config (action_ctx d fs target)).

(** A forced type that no registered detector has ends the run with the
    usage code and leaves the files alone. *)
Definition unregistered_type_is_fatal (today d : string) (fs : filesystem)
    (target : option string) (opts0 : Opts) (o : oracle) : Prop :=
  let opts := action_opts d fs target opts0 in
  JsString.truthy (opt_type opts) = true ->
  forcedDetector [new_ContainerDetector] opts = None ->
  let out := run o (main today d fs target opts0) in
  exit_code out = EXIT_CODES.USAGE /\ files out = fs.

(** What [run_detected] comes to under given answers. *)
Definition detected_outcome (today : string) (fs : filesystem) (ctx : Ctx)
    (opts : Opts) (result : Detection) (o : oracle) : outcome :=
  if opt_detect opts then {| files := fs; exit_code := EXIT_CODES.SUCCESS |}
  else if opt_plan opts
  then {| files := fs; exit_code := EXIT_CODES.SUCCESS |}
  else
    match run o (scaffold (detector result) today fs ctx opts result) with
    | (fs', Ok (Some _)) =>
        if opt_ship opts then
          match run o (deploy (detector result)) with
          | Ok true => {| files := fs'; exit_code := EXIT_CODES.SUCCESS |}
          | Ok false => {| files := fs'; exit_code := EXIT_CODES.PARTIAL |}
          | Throw _ => {| files := fs'; exit_code := EXIT_CODES.CONFIG |}
          end
        else {| files := fs'; exit_code := EXIT_CODES.SUCCESS |}
    | (fs', _) => {| files := fs'; exit_code := EXIT_CODES.CONFIG |}
    end.

(** Scaffolding ran to the end and returned its result. *)
Definition scaffolded (c : completion (option ScaffoldResult)) : bool :=
  match c with
  | Ok (Some _) => true
  | _ => false
  end.

(** The options of a plain command line, with a type no detector has. *)
Definition opts_forcing (t : string) : Opts :=
  {| opt_ship := false; opt_plan := false; opt_detect := false;
     opt_type := Some t; opt_name := None; opt_class := None;
     opt_maxInstances := Some "10"; opt_migrationTag := None;
     opt_noPrompt := false; opt_force := false; opt_verbose := false |}.

(** The names the loop of [generateUniqueClassName] looks at in [n] rounds. *)
Fixpoint tried_names (n : nat) (baseName className : string) (counter : nat)
  : list string :=
  match n with
  | O => []
  | S n' =>
      className
        :: tried_names n' baseName (baseName +:+ pretty counter) (S counter)
  end.

(** ** Notions for the further properties *)

(** The first signal of [detect]: an image-like positional argument. *)
Definition arg_signal (ctx : Ctx) : bool :=
  match args ctx with
  | arg :: _ => looks_like_image arg
  | [] => false
  end.

(** Group 1 of the IMAGE pattern on the environment file, when there is
    one. *)
Definition env_signal (fs : filesystem) (ctx : Ctx) : option string :=
  match fs !! path_join (cwd ctx) ".env" with
  | Some (Text envContent) => EnvFile.imageMatch envContent
  | _ => None
  end.

Definition dockerfile_names : list string :=
  ["Dockerfile"; "Containerfile"; "dockerfile"].

Definition compose_names : list string :=
  ["docker-compose.yml"; "docker-compose.yaml"; "compose.yml"; "compose.yaml"].

(** No signal of [detect] fires. *)
Definition no_signal (fs : filesystem) (ctx : Ctx) : Prop :=
  arg_signal ctx = false
  /\ first_existing fs (cwd ctx) dockerfile_names = None
  /\ first_existing fs (cwd ctx) compose_names = None
  /\ pathExists fs (path_join (cwd ctx) ".docker") = false
  /\ env_signal fs ctx = None
  /\ pathExists fs (path_join (cwd ctx) "manifest.json") = false.

(** A program that never asks anything of the outside world. *)
Definition finished {A} (p : prog A) : Prop := exists a, p = Done a.

(** The two most confident results are less than 0.1 apart. *)
Definition near_tie (results : list Detection) : bool :=
  match sort_results results with
  | r0 :: r1 :: _ => gap_below_threshold (confidence r0) (confidence r1)
  | _ => false
  end.

(** The results of one confidence, in the order of the list. *)
Definition of_confidence (c : Q) (l : list Detection) : list Detection :=
  List.filter (fun r => Qeq_bool (confidence r) c) l.

(** A source stub or a descriptor is already there. *)
Definition existing_project (fs : filesystem) (ctx : Ctx) : bool :=
  pathExists fs (path_join (path_join (cwd ctx) "src") "index.ts")
  || pathExists fs (path_join (cwd ctx) "wrangler.jsonc").

(** Whether [scaffold] has to ask before it touches anything. *)
Definition must_confirm (fs : filesystem) (ctx : Ctx) (opts : Opts) : bool :=
  existing_project fs ctx && negb (opt_force opts) && negb (opt_noPrompt opts).

Definition containers_of (doc : WranglerConfig) : list Container :=
  default [] (containers doc).

Definition bindings_of (doc : WranglerConfig) : list Binding :=
  default [] (durable_objects doc ≫= bindings).

Definition flags_of (doc : WranglerConfig) : list string :=
  default [] (compatibility_flags doc).

Definition migrations_of (doc : WranglerConfig) : list Migration :=
  default [] (migrations doc).

(** The test by which the merge finds the container entry to replace. *)
Definition same_container (dockerfilePath : option string)
    (className : string) (c : Container) : bool :=
  bool_decide (c_image c = dockerfilePath)
  || String.eqb (c_class_name c) className.

Definition binds (className : string) (b : Binding) : bool :=
  String.eqb (b_class_name b) className.

(** A migration that is still there after a merge, with its tag and with
    its classes in front of whatever it gained. *)
Definition grown_from (old new : Migration) : Prop :=
  tag new = tag old
  /\ exists added, classes_of new = classes_of old ++ added.

Definition with_baseline_flag (flags : list string) : list string :=
  if inb "nodejs_compat" flags then flags else flags ++ ["nodejs_compat"].

(** The descriptor a merge writes, given the migrations it arrived at. *)
Definition merged_document (doc : WranglerConfig)
    (className bindingName : string) (df : option string) (mi : option Z)
    (ms' : list Migration) : WranglerConfig :=
  {| w_name := w_name doc;
     w_main := w_main doc;
     compatibility_date := compatibility_date doc;
     compatibility_flags := Some (with_baseline_flag (flags_of doc));
     observability := observability doc;
     containers :=
       Some (upsert (same_container df className)
                    {| c_class_name := className; c_image := df;
                       c_max_instances := mi; c_instance_type := "basic" |}
                    (containers_of doc));
     durable_objects :=
       Some {| bindings :=
                 Some (upsert (binds className)
                              {| b_class_name := className;
                                 b_name := bindingName |}
                              (bindings_of doc)) |};
     migrations := Some ms' |}.

(** The names [generateUniqueClassName] tries, in order: the base name, then
    the base name followed by 1, 2, ... *)
Definition candidate (baseName : string) (i : nat) : string :=
  match i with
  | O => baseName
  | S _ => baseName +:+ pretty i
  end.

Fixpoint all_digits (s : string) : bool :=
  match s with
  | EmptyString => true
  | String c s' => JsString.is_digit c && all_digits s'
  end.

(** A character at which [parseInt] stops reading a decimal number, and
    which does not turn a leading zero into a hexadecimal prefix. *)
Definition ends_number (c : ascii) : bool :=
  negb (JsString.is_digit c) && negb (Ascii.eqb c "x")
  && negb (Ascii.eqb c "X").

(** What may follow a number: nothing, or text that starts with such a
    character. *)
Definition after_number (s : string) : bool :=
  match s with
  | EmptyString => true
  | String c _ => ends_number c
  end.

(** A line of a build file that the scan for the port stops to look at. *)
Definition is_expose_line (line : string) : bool :=
  JsString.startsWith (JsString.toUpperCase (JsString.trim line)) "EXPOSE ".

(** Right-biased lookup: what a key is bound to after the spread of two
    objects. *)
Definition override {A} (b a : option A) : option A :=
  match b with
  | Some v => Some v
  | None => a
  end.

Definition keys {A} (l : list (string * A)) : list string := map fst l.

(** [merged] binds every key as [required] does and, where that has no
    entry, as [existing] does. *)
Definition merged_entries (required existing merged : list (string * string))
  : Prop :=
  forall k, assoc k merged = override (assoc k required) (assoc k existing).

(** The text [updateWorkerCode] looks for in the worker. *)
Definition export_of (className : string) : string :=
  "export class " +:+ className.


(** The project scaffolding leaves in an empty directory [d] for a remote
    image. *)
Definition fresh_project (today d img pn cn bn : string) (mi : option Z)
  : filesystem :=
  <[ path_join d ".cfignore" := Text cfignore ]>
    (<[ path_join d "package.json" := PackageDoc (generatePackageJson pn) ]>
       (<[ path_join d "tsconfig.json" := TsConfigDoc ]>
          (<[ path_join d "wrangler.jsonc" :=
                ConfigDoc (generateWranglerConfig today pn cn bn
                             (Some "./Dockerfile.generated") mi) ]>
             (<[ path_join (path_join d "src") "index.ts" :=
                   Text (generateWorkerCode cn bn 8080) ]>
                (<[ path_join d "src" := Dir ]>
                   (<[ path_join d "Dockerfile.generated" :=
                         Text ("FROM " +:+ img +:+ nl +:+ "EXPOSE 8080") ]>
                      ∅)))))).

(** The context of a run with the image argument [img] in a directory [d]
    without configuration file. *)
Definition image_ctx (d img : string) : Ctx :=
  {| cwd := d; args := [img]; config := no_overrides |}.

(** Whether [scaffold], finding project files in place, goes ahead. *)
Definition goes_ahead (opts : Opts) (o : oracle) : bool :=
  opt_force opts || opt_noPrompt opts
  || answer_confirm o "This will modify existing project files. Continue?".

(** The files the first run of the command leaves in the empty directory
    [d], and those a second run leaves then. *)
Definition first_run (today d : string) (target : option string)
    (opts0 : Opts) (o : oracle) : filesystem :=
  files (run o (main today d ∅ target opts0)).

Definition second_run (today today' d : string)
    (target target' : option string) (opts0 : Opts) (o o' : oracle)
  : filesystem :=
  files (run o' (main today' d (first_run today d target opts0 o) target'
                   opts0)).

(** A directory [d] that holds a build file named [df] and nothing else,
    and the run without argument in it. *)
Definition build_file_only (d df content : string) : filesystem :=
  <[ path_join d df := Text content ]> ∅.

Definition plain_ctx (d : string) : Ctx :=
  {| cwd := d; args := []; config := no_overrides |}.

(** The project scaffolding makes of it: the build file stays and six
    entries are added. *)
Definition local_project (today d df content pn cn bn : string)
    (mi : option Z) : filesystem :=
  let fs := build_file_only d df content in
  let port := Dockerfile.analyzeDockerfile fs (path_join d df) in
  <[ path_join d ".cfignore" := Text cfignore ]>
    (<[ path_join d "package.json" := PackageDoc (generatePackageJson pn) ]>
       (<[ path_join d "tsconfig.json" := TsConfigDoc ]>
          (<[ path_join d "wrangler.jsonc" :=
                ConfigDoc (generateWranglerConfig today pn cn bn
                             (Some ("./" +:+ df)) mi) ]>
             (<[ path_join (path_join d "src") "index.ts" :=
                   Text (generateWorkerCode cn bn port) ]>
                (<[ path_join d "src" := Dir ]> fs))))).

(** A directory [d] that holds a descriptor and nothing else. *)
Definition descriptor_only (d : string) (doc : WranglerConfig) : filesystem :=
  <[ path_join d "wrangler.jsonc" := ConfigDoc doc ]> ∅.





(** ** The command line (index.js, lines 24-34)

    [program.option(flags, description, defaultValue)] declares an option.
    The parser of the [commander] package keeps the value of an option in
    the object handed to the action, under the key derived from the long
    flag: the two leading dashes go, a leading [no-] goes, and the rest is
    put in camel case.  A flag declared with [no-] and without a positive
    counterpart starts as [true] and is set to [false] when given. *)

Inductive optval : Type :=
| FlagValue (b : bool)
| TextValue (s : string).

Record declaration : Type := {
  flags : string;
  defaultValue : option string
}.

(** Lines 24-34, in their order. *)
Definition declared : list declaration :=
  [ {| flags := "--ship"; defaultValue := None |};
    {| flags := "--plan"; defaultValue := None |};
    {| flags := "--detect"; defaultValue := None |};
    {| flags := "--type <type>"; defaultValue := None |};
    {| flags := "--name <name>"; defaultValue := None |};
    {| flags := "--class <class>"; defaultValue := None |};
    {| flags := "--max-instances <number>"; defaultValue := Some "10" |};
    {| flags := "--migration-tag <tag>"; defaultValue := None |};
    {| flags := "--no-prompt"; defaultValue := None |};
    {| flags := "--force"; defaultValue := None |};
    {| flags := "--verbose"; defaultValue := None |} ].

(** The long flag: the text up to the first space. *)
Definition long (d : declaration) : string :=
  hd EmptyString (JsString.split " " (flags d)).

(** Whether the option takes an operand, written in angle brackets. *)
Definition required (d : declaration) : bool := JsString.includes (flags d) "<".

Definition negate (d : declaration) : bool :=
  JsString.startsWith (long d) "--no-".

Definition capitalise (word : string) : string :=
  match word with
  | EmptyString => EmptyString
  | String c rest => String (JsString.upper_ascii c) rest
  end.

(** [str.split('-').reduce((str, word) => str + word[0].toUpperCase()
    + word.slice(1))] *)
Definition camelcase (str : string) : string :=
  match JsString.split "-" str with
  | [] => EmptyString
  | first :: words =>
      fold_left (fun str word => str +:+ capitalise word) words first
  end.

(** The key of the option in the option object. *)
Definition attributeName (d : declaration) : string :=
  let name := JsString.drop 2 (long d) in
  camelcase (if negate d then JsString.drop 3 name else name).

(** The option object, by key, before the command line is read. *)
Definition initial_options : gmap string optval :=
  fold_left
    (fun o d =>
       if negate d then <[attributeName d := FlagValue true]> o
       else match defaultValue d with
            | Some v => <[attributeName d := TextValue v]> o
            | None => o
            end)
    declared ∅.

Definition find_declaration (token : string) : option declaration :=
  List.find (fun d => String.eqb (long d) token) declared.

(** Reading the words of the command line from the left.  A word of more
    than one character that starts with a dash must be a declared long
    flag; a flag that takes an operand takes the next word.  After the word
    [--] every word is an operand.  The other words are the operands of the
    command.  [None]: the command line is refused, or is written in a form
    that is not covered here (short flags, [--flag=operand], [--help],
    [--version]). *)
Fixpoint parse_words (words : list string) (o : gmap string optval)
    (operands : list string) : option (gmap string optval * list string) :=
  match words with
  | [] => Some (o, operands)
  | word :: rest =>
      if String.eqb word "--" then Some (o, operands ++ rest)
      else if JsString.startsWith word "-" && (1 <? String.length word)%nat
      then
        match find_declaration word with
        | None => None
        | Some d =>
            if required d then
              match rest with
              | [] => None
              | operand :: rest' =>
                  parse_words rest'
                    (<[attributeName d := TextValue operand]> o) operands
              end
            else
              parse_words rest
                (<[attributeName d := FlagValue (negb (negate d))]> o)
                operands
        end
      else parse_words rest o (operands ++ [word])
  end.

(** The option object and the operands with which the action of [program]
    is run.  A first operand [help] selects the command of line 114
    instead, and the action is not run.  Of the operands the action takes
    the first as its target. *)
Definition command_line (words : list string)
  : option (gmap string optval * list string) :=
  match parse_words words initial_options [] with
  | Some (o, operand :: operands) =>
      if String.eqb operand "help" then None
      else Some (o, operand :: operands)
  | parsed => parsed
  end.

(** [opts.key] in a condition. *)
Definition is_set (o : gmap string optval) (key : string) : bool :=
  match o !! key with
  | Some (FlagValue b) => b
  | Some (TextValue s) => JsString.truthy (Some s)
  | None => false
  end.

(** [opts.key] where a string is expected. *)
Definition text_of (o : gmap string optval) (key : string) : option string :=
  match o !! key with
  | Some (TextValue s) => Some s
  | _ => None
  end.

(** The option object through the keys the code reads. *)
Definition read_options (o : gmap string optval) : Opts :=
  {| opt_ship := is_set o "ship";
     opt_plan := is_set o "plan";
     opt_detect := is_set o "detect";
     opt_type := text_of o "type";
     opt_name := text_of o "name";
     opt_class := text_of o "class";
     opt_maxInstances := text_of o "maxInstances";
     opt_migrationTag := text_of o "migrationTag";
     opt_noPrompt := is_set o "noPrompt";
     opt_force := is_set o "force";
     opt_verbose := is_set o "verbose" |}.

(** A world that picks the last choice of a list. *)
Definition picks_last : oracle :=
  {| answer_confirm := fun _ => true;
     answer_select := fun _ choices =>
                        List.last (map snd choices) no_detection;
     answer_spawn := fun _ _ => 0%Z |}.

(** ** Child processes that cannot be started

    [deploy] listens to the ['close'] event of its three child processes and
    to nothing else.  A child that cannot be started (no such program, say)
    raises ['error'] instead; with no listener for it the error is thrown
    out of the event loop, and the process is ended by it, outside the exit
    codes of the action. *)

Inductive child_end : Type :=
| Closes (code : Z)
| Cannot_start.

Record world : Type := {
  confirms : string -> bool;
  selects : string -> list (string * Detection) -> Detection;
  child : string -> list string -> child_end
}.

Inductive process_end (A : Type) : Type :=
| Ends (a : A)
| Dies.

Arguments Ends {A} a.
Arguments Dies {A}.

Fixpoint run_process {A} (w : world) (p : prog A) : process_end A :=
  match p with
  | Done a => Ends a
  | Confirm m k => run_process w (k (confirms w m))
  | Select m cs k => run_process w (k (selects w m cs))
  | Spawn c a k =>
      match child w c a with
      | Closes code => run_process w (k code)
      | Cannot_start => Dies
      end
  end.

(** The answers of a world whose child processes close. *)
Definition closing (w : world) : oracle :=
  {| answer_confirm := confirms w;
     answer_select := selects w;
     answer_spawn := fun c a =>
                       match child w c a with
                       | Closes code => code
                       | Cannot_start => 0%Z
                       end |}.

(** Whether one of the child processes that [deploy] starts cannot be
    started: the second and the third are started only after the first
    closed with code 0. *)
Definition deploy_dies (w : world) : bool :=
  match child w "npm" ["install"] with
  | Cannot_start => true
  | Closes code =>
      (code =? 0)%Z
      && match child w "npx" ["wrangler"; "types"] with
         | Cannot_start => true
         | Closes _ =>
             match child w "npx" ["wrangler"; "deploy"] with
             | Cannot_start => true
             | Closes _ => false
             end
         end
  end.

(** A world without the program npx. *)
Definition without_npx : world :=
  {| confirms := fun _ => true;
     selects := fun _ => first_choice;
     child := fun c _ => if String.eqb c "npx" then Cannot_start
                         else Closes 0%Z |}.

(** Whether a run with the detection result [result] gets as far as
    [deploy]: lines 66-90 of the action. *)
Definition reaches_deploy (w : world) (today : string) (fs : filesystem)
    (ctx : Ctx) (opts : Opts) (result : Detection) : bool :=
  negb (opt_detect opts) && negb (opt_plan opts)
  && scaffolded
       (run (closing w)
          (scaffold (detector result) today fs ctx opts result)).2
  && opt_ship opts.

(** * Properties *)

(** ** The merge of migrations *)

Lemma first_migration_tag_throws (fs : filesystem) :
  first_migration_tag mergeWranglerConfig_scope fs
  = Throw (ReferenceError "opts").
Proof. reflexivity. Qed.

Lemma classExists_registrations (className : string) (ms : list Migration) :
  classExistsInMigrations className ms = false <->
  registrations className ms = 0%nat.
Proof.
  unfold classExistsInMigrations, registrations, classes_of.
  induction ms as [|m ms IH]; simpl; [tauto|].
  destruct (new_sqlite_classes m) as [cs|]; simpl.
  - destruct (inb className cs); simpl; [split; discriminate | exact IH].
  - exact IH.
Qed.

Lemma registrations_app (className : string) (l1 l2 : list Migration) :
  registrations className (l1 ++ l2)
  = (registrations className l1 + registrations className l2)%nat.
Proof.
  unfold registrations. rewrite List.filter_app, length_app. reflexivity.
Qed.

Lemma inb_app (x : string) (l1 l2 : list string) :
  inb x (l1 ++ l2) = inb x l1 || inb x l2.
Proof. unfold inb. apply existsb_app. Qed.

Lemma insert_last {A} (l : list A) (x y : A) :
  <[ (length (l ++ [x]) - 1)%nat := y ]> (l ++ [x]) = l ++ [y].
Proof.
  rewrite length_app; simpl.
  replace (length l + 1 - 1)%nat with (length l + 0)%nat by lia.
  rewrite insert_app_r. reflexivity.
Qed.

(** With a migration present and the class not listed, the merge is the
    batch allocation and nothing else. *)
Lemma merge_migrations_batch (sc : scope) (fs : filesystem)
    (className : string) (ms : list Migration) (latest : Migration) :
  classExistsInMigrations className ms = false ->
  last ms = Some latest ->
  merge_migrations sc fs className ms = Ok (batch_allocate className latest ms).
Proof.
  intros Hnew Hlast. unfold merge_migrations, batch_allocate.
  rewrite Hnew, Hlast.
  destruct (Nat.leb_spec 3 (length (classes_of latest)));
    destruct (Nat.ltb_spec (length (classes_of latest)) 3); try lia;
    reflexivity.
Qed.

Lemma merge_migrations_present (sc : scope) (fs : filesystem)
    (className : string) (ms : list Migration) :
  classExistsInMigrations className ms = true ->
  merge_migrations sc fs className ms = Ok ms.
Proof. intros H. unfold merge_migrations. rewrite H. reflexivity. Qed.

Lemma merge_migrations_empty (fs : filesystem) (className : string) :
  merge_migrations mergeWranglerConfig_scope fs className []
  = Throw (ReferenceError "opts").
Proof. reflexivity. Qed.

(** The shape of a batch allocation: all migrations but the last stay, and
    the last either gains the class or is followed by a new migration. *)
Lemma batch_allocate_shape (className : string) (latest : Migration)
    (init : list Migration) :
  batch_allocate className latest (init ++ [latest])
  = if (length (classes_of latest) <? 3)%nat
    then init ++ [ {| new_sqlite_classes :=
                        Some (classes_of latest ++ [className]);
                      tag := tag latest |} ]
    else init ++ [ latest;
                   {| new_sqlite_classes := Some [className];
                      tag := "v" +:+ pretty (length (init ++ [latest]) + 1)%nat
                   |} ].
Proof.
  unfold batch_allocate.
  destruct (length (classes_of latest) <? 3)%nat.
  - apply insert_last.
  - rewrite <- app_assoc. reflexivity.
Qed.

Lemma inb_refl (x : string) (l : list string) : inb x (l ++ [x]) = true.
Proof.
  rewrite inb_app. unfold inb at 2. simpl. rewrite String.eqb_refl.
  apply orb_true_iff. right. reflexivity.
Qed.

Lemma inb_other (x y : string) (l : list string) :
  x <> y -> inb x (l ++ [y]) = inb x l.
Proof.
  intros Hne. rewrite inb_app. unfold inb at 2. simpl.
  destruct (String.eqb_spec x y); [contradiction|].
  rewrite !orb_false_r. reflexivity.
Qed.

Lemma inb_single (x y : string) : inb x [y] = String.eqb x y.
Proof. unfold inb. simpl. apply orb_false_r. Qed.

Lemma classes_of_some (cs : list string) (t : string) :
  classes_of {| new_sqlite_classes := Some cs; tag := t |} = cs.
Proof. reflexivity. Qed.

Lemma registrations_one (className : string) (m : Migration) :
  registrations className [m]
  = if inb className (classes_of m) then 1%nat else 0%nat.
Proof. unfold registrations. simpl. destruct (inb _ _); reflexivity. Qed.

(** After a batch allocation the class is listed exactly once. *)
Lemma batch_allocate_registers_once (className : string)
    (latest : Migration) (ms : list Migration) :
  registrations className ms = 0%nat ->
  last ms = Some latest ->
  registrations className (batch_allocate className latest ms) = 1%nat.
Proof.
  intros H0 Hlast. apply last_Some in Hlast as [init ->].
  rewrite batch_allocate_shape.
  rewrite registrations_app in H0.
  destruct (length (classes_of latest) <? 3)%nat.
  - rewrite registrations_app, registrations_one, classes_of_some.
    rewrite inb_refl. lia.
  - change [latest; ?x] with ([latest] ++ [x]).
    rewrite app_assoc, registrations_app, registrations_app.
    rewrite (registrations_one className {| tag := _ |}), classes_of_some.
    rewrite inb_single, String.eqb_refl. lia.
Qed.

(** A batch allocation changes the count of no other class. *)
Lemma batch_allocate_other (className other : string)
    (latest : Migration) (ms : list Migration) :
  other <> className ->
  last ms = Some latest ->
  registrations other (batch_allocate className latest ms)
  = registrations other ms.
Proof.
  intros Hne Hlast. apply last_Some in Hlast as [init ->].
  rewrite batch_allocate_shape.
  destruct (length (classes_of latest) <? 3)%nat.
  - rewrite !registrations_app, !registrations_one, classes_of_some.
    rewrite inb_other by assumption. reflexivity.
  - change [latest; ?x] with ([latest] ++ [x]).
    rewrite app_assoc, (registrations_app _ (init ++ [latest])).
    rewrite (registrations_one other {| tag := _ |}), classes_of_some.
    rewrite inb_single. destruct (String.eqb_spec other className); [contradiction|].
    simpl. lia.
Qed.

(** ** The merge on the file system *)

Lemma migrations_at_doc (fs : filesystem) (p : string) (doc : WranglerConfig) :
  fs !! p = Some (ConfigDoc doc) ->
  migrations_at fs p = default [] (migrations doc).
Proof. intros H. unfold migrations_at. rewrite H. reflexivity. Qed.

Lemma mergeWranglerConfig_ok (fs : filesystem) (p className bindingName : string)
    (df : option string) (mi : option Z) (doc : WranglerConfig)
    (ms' : list Migration) :
  fs !! p = Some (ConfigDoc doc) ->
  merge_migrations mergeWranglerConfig_scope fs className
                   (migrations_at fs p) = Ok ms' ->
  (mergeWranglerConfig fs p className bindingName df mi).2 = Ok tt
  /\ migrations_at (mergeWranglerConfig fs p className bindingName df mi).1 p
     = ms'.
Proof.
  intros Hdoc Hm. rewrite (migrations_at_doc _ _ _ Hdoc) in Hm.
  unfold mergeWranglerConfig, readConfig, merge_document.
  rewrite Hdoc. simpl. rewrite Hm. simpl. split; [reflexivity|].
  unfold migrations_at. rewrite lookup_insert_eq. reflexivity.
Qed.

Lemma mergeWranglerConfig_throw (fs : filesystem)
    (p className bindingName : string) (df : option string) (mi : option Z)
    (doc : WranglerConfig) (e : exn) :
  fs !! p = Some (ConfigDoc doc) ->
  merge_migrations mergeWranglerConfig_scope fs className
                   (migrations_at fs p) = Throw e ->
  mergeWranglerConfig fs p className bindingName df mi = (fs, Throw e).
Proof.
  intros Hdoc Hm. rewrite (migrations_at_doc _ _ _ Hdoc) in Hm.
  unfold mergeWranglerConfig, readConfig, merge_document.
  rewrite Hdoc. simpl. rewrite Hm. reflexivity.
Qed.

Lemma mergeWranglerConfig_unreadable (fs : filesystem)
    (p className bindingName : string) (df : option string) (mi : option Z) :
  (forall doc, fs !! p <> Some (ConfigDoc doc)) ->
  (mergeWranglerConfig fs p className bindingName df mi).1 = fs.
Proof.
  intros Hno. unfold mergeWranglerConfig, readConfig.
  destruct (fs !! p) as [[| | doc | | |]|] eqn:E; try reflexivity.
  exfalso. apply (Hno doc). reflexivity.
Qed.

(** A merge either leaves the files alone or rewrites the descriptor with
    the migrations the merge of migrations returns. *)
Lemma mergeWranglerConfig_cases (fs : filesystem)
    (p className bindingName : string) (df : option string) (mi : option Z) :
  (mergeWranglerConfig fs p className bindingName df mi).1 = fs
  \/ merge_migrations mergeWranglerConfig_scope fs className
                      (migrations_at fs p)
     = Ok (migrations_at
             (mergeWranglerConfig fs p className bindingName df mi).1 p).
Proof.
  destruct (fs !! p) as [[| | doc | | |]|] eqn:E;
    try (left; apply mergeWranglerConfig_unreadable; intros d; congruence).
  destruct (merge_migrations mergeWranglerConfig_scope fs className
                             (migrations_at fs p)) as [ms'|e] eqn:Hm.
  - right. f_equal. symmetry.
    apply (mergeWranglerConfig_ok fs p className bindingName df mi doc ms' E Hm).
  - left. rewrite (mergeWranglerConfig_throw _ _ _ _ _ _ doc e E Hm).
    reflexivity.
Qed.

Lemma merge_migrations_cases (fs : filesystem) (className : string)
    (ms ms' : list Migration) :
  merge_migrations mergeWranglerConfig_scope fs className ms = Ok ms' ->
  ms' = ms
  \/ exists latest, last ms = Some latest
                    /\ ms' = batch_allocate className latest ms.
Proof.
  intros H.
  destruct (classExistsInMigrations className ms) eqn:E.
  - rewrite merge_migrations_present in H by assumption. left. congruence.
  - destruct (last ms) as [latest|] eqn:Hl.
    + rewrite (merge_migrations_batch _ _ _ _ latest E Hl) in H.
      right. exists latest. split; congruence.
    + apply last_None in Hl. subst ms. discriminate H.
Qed.

(** ** Capacity *)

Lemma batch_allocate_capacity (className : string) (latest : Migration)
    (ms : list Migration) (i : nat) (m : Migration) :
  last ms = Some latest ->
  batch_allocate className latest ms !! i = Some m ->
  within_capacity m \/ ms !! i = Some m.
Proof.
  intros Hlast. apply last_Some in Hlast as [init ->].
  rewrite batch_allocate_shape.
  destruct (Nat.ltb_spec (length (classes_of latest)) 3) as [Hlt|Hge]; intros Hi.
  - destruct (decide (i < length init)%nat) as [Hin|Hout].
    + right. rewrite lookup_app_l in Hi |- * by assumption. exact Hi.
    + left. rewrite lookup_app_r in Hi by lia.
      destruct (i - length init)%nat; [|discriminate Hi].
      injection Hi as <-. unfold within_capacity.
      rewrite classes_of_some, length_app. simpl. lia.
  - destruct (decide (i < length (init ++ [latest]))%nat) as [Hin|Hout].
    + right. change [latest; ?x] with ([latest] ++ [x]) in Hi.
      rewrite app_assoc, lookup_app_l in Hi by assumption. exact Hi.
    + left. change [latest; ?x] with ([latest] ++ [x]) in Hi.
      rewrite app_assoc, lookup_app_r in Hi by lia.
      destruct (i - length (init ++ [latest]))%nat; [|discriminate Hi].
      injection Hi as <-. unfold within_capacity.
      rewrite classes_of_some. simpl. lia.
Qed.

Lemma merge_once_capacity (fs : filesystem) (p : string) (r : merge_request)
    (i : nat) (m : Migration) :
  migrations_at (merge_once fs p r).1 p !! i = Some m ->
  within_capacity m \/ migrations_at fs p !! i = Some m.
Proof.
  unfold merge_once. intros Hi.
  destruct (mergeWranglerConfig_cases fs p (mr_className r) (mr_bindingName r)
              (mr_dockerfilePath r) (mr_maxInstances r)) as [Hsame|Hm].
  - right. rewrite Hsame in Hi. exact Hi.
  - apply merge_migrations_cases in Hm as [Heq|(latest & Hlast & Heq)].
    + right. rewrite Heq in Hi. exact Hi.
    + rewrite Heq in Hi.
      exact (batch_allocate_capacity _ _ _ _ _ Hlast Hi).
Qed.

Lemma merge_all_capacity (p : string) (rs : list merge_request) :
  forall (fs : filesystem) (i : nat) (m : Migration),
    migrations_at (merge_all fs p rs) p !! i = Some m ->
    within_capacity m \/ migrations_at fs p !! i = Some m.
Proof.
  induction rs as [|r rs IH]; intros fs i m Hi; simpl in Hi.
  - right. exact Hi.
  - destruct (IH _ _ _ Hi) as [Hcap|Hprev]; [left; exact Hcap|].
    exact (merge_once_capacity _ _ _ _ _ Hprev).
Qed.

Lemma merge_all_within_capacity (p : string) (rs : list merge_request)
    (fs : filesystem) :
  Forall within_capacity (migrations_at fs p) ->
  Forall within_capacity (migrations_at (merge_all fs p rs) p).
Proof.
  intros Hall. apply Forall_lookup. intros i m Hi.
  destruct (merge_all_capacity p rs fs i m Hi) as [Hcap|Hold]; [exact Hcap|].
  exact (proj1 (Forall_lookup _ _) Hall i m Hold).
Qed.

(** ** Registration: what holds once a migration exists *)

(** With at least one migration present, a merge lists a new class exactly
    once. *)
Lemma merge_registers_once (fs : filesystem) (className : string)
    (ms ms' : list Migration) :
  ms <> [] ->
  registrations className ms = 0%nat ->
  merge_migrations mergeWranglerConfig_scope fs className ms = Ok ms' ->
  registrations className ms' = 1%nat.
Proof.
  intros Hne H0 Hm.
  destruct (last ms) as [latest|] eqn:Hl;
    [|apply last_None in Hl; contradiction].
  rewrite (merge_migrations_batch _ _ _ _ latest) in Hm;
    [|apply classExists_registrations; exact H0|exact Hl].
  injection Hm as <-. apply batch_allocate_registers_once; assumption.
Qed.

(** Merging the same class again changes nothing. *)
Lemma merge_again_same (fs fs' : filesystem) (className : string)
    (ms ms' : list Migration) :
  ms <> [] ->
  merge_migrations mergeWranglerConfig_scope fs className ms = Ok ms' ->
  merge_migrations mergeWranglerConfig_scope fs' className ms' = Ok ms'.
Proof.
  intros Hne Hm. apply merge_migrations_present.
  destruct (classExistsInMigrations className ms) eqn:E.
  - rewrite merge_migrations_present in Hm by exact E. congruence.
  - destruct (classExistsInMigrations className ms') eqn:E'; [reflexivity|].
    apply classExists_registrations in E, E'.
    rewrite (merge_registers_once fs className ms ms' Hne E Hm) in E'.
    discriminate E'.
Qed.

(** A successful merge keeps every class in at most one migration. *)
Lemma merge_keeps_at_most_once (fs : filesystem) (className : string)
    (ms ms' : list Migration) :
  registered_at_most_once ms ->
  merge_migrations mergeWranglerConfig_scope fs className ms = Ok ms' ->
  registered_at_most_once ms'.
Proof.
  intros Hinv Hm other.
  destruct (merge_migrations_cases _ _ _ _ Hm) as [->|(latest & Hl & ->)];
    [apply Hinv|].
  destruct (classExistsInMigrations className ms) eqn:E.
  - rewrite merge_migrations_present in Hm by exact E.
    injection Hm as Hm. rewrite <- Hm. apply Hinv.
  - destruct (String.eqb_spec other className) as [->|Hne].
    + rewrite batch_allocate_registers_once;
        [lia|apply classExists_registrations; exact E|exact Hl].
    + rewrite batch_allocate_other by assumption. apply Hinv.
Qed.

(** ** C9 *)

(** C9. On a descriptor whose list of migrations is empty or absent the
    merge reads [opts], and would read [ctx], neither of which is bound in
    its scope: it throws a ReferenceError and writes nothing.  The merge
    returns normally exactly when a migration exists (which is the case in
    particular when the class is already registered). *)
Theorem merge_without_migrations_throws
    (fs : filesystem) (p className bindingName : string)
    (df : option string) (mi : option Z) (doc : WranglerConfig) :
  fs !! p = Some (ConfigDoc doc) ->
  lookup_ident mergeWranglerConfig_scope "opts"
    = Throw (ReferenceError "opts")
  /\ lookup_ident mergeWranglerConfig_scope "ctx"
     = Throw (ReferenceError "ctx")
  /\ (migrations_at fs p = [] ->
      mergeWranglerConfig fs p className bindingName df mi
      = (fs, Throw (ReferenceError "opts")))
  /\ ((mergeWranglerConfig fs p className bindingName df mi).2 = Ok tt <->
      migrations_at fs p <> []
      \/ classExistsInMigrations className (migrations_at fs p) = true).
Proof.
  intros Hdoc.
  assert (Hempty : migrations_at fs p = [] ->
                   mergeWranglerConfig fs p className bindingName df mi
                   = (fs, Throw (ReferenceError "opts"))).
  { intros He. apply (mergeWranglerConfig_throw _ _ _ _ _ _ doc); [exact Hdoc|].
    rewrite He. apply merge_migrations_empty. }
  split; [reflexivity|]. split; [reflexivity|]. split; [exact Hempty|].
  split.
  - intros Hok. left. intros He. rewrite (Hempty He) in Hok. discriminate Hok.
  - intros Hsome.
    assert (Hne : migrations_at fs p <> []).
    { destruct Hsome as [H|H]; [exact H|]. intros He. rewrite He in H.
      discriminate H. }
    destruct (classExistsInMigrations className (migrations_at fs p)) eqn:E.
    + apply (mergeWranglerConfig_ok fs p className bindingName df mi doc
               (migrations_at fs p) Hdoc).
      apply merge_migrations_present. exact E.
    + destruct (last (migrations_at fs p)) as [latest|] eqn:Hl;
        [|apply last_None in Hl; contradiction].
      apply (mergeWranglerConfig_ok fs p className bindingName df mi doc
               (batch_allocate className latest (migrations_at fs p)) Hdoc).
      apply merge_migrations_batch; assumption.
Qed.

Lemma merge_without_migrations_throws_witness :
  let fs : filesystem :=
    <["/app/wrangler.jsonc" := ConfigDoc (document_with [])]> ∅ in
  mergeWranglerConfig fs "/app/wrangler.jsonc" "AppContainer" "APP_CONTAINER"
                      (Some "./Dockerfile") (Some 10%Z)
  = (fs, Throw (ReferenceError "opts")).
Proof.
  intros fs.
  destruct (merge_without_migrations_throws fs "/app/wrangler.jsonc"
              "AppContainer" "APP_CONTAINER" (Some "./Dockerfile")
              (Some 10%Z) (document_with [])) as (_ & _ & H & _).
  - vm_compute. reflexivity.
  - apply H. vm_compute. reflexivity.
Defined.

(** ** C1 *)

(** C1, at a descriptor that has no migrations yet: the class is listed
    nowhere before the merge, the merge throws and writes nothing, and the
    class is still listed nowhere afterwards. *)
Theorem first_registration_throws :
  let fs : filesystem :=
    <["/app/wrangler.jsonc" := ConfigDoc empty_document]> ∅ in
  let out := mergeWranglerConfig fs "/app/wrangler.jsonc" "AppContainer"
               "APP_CONTAINER" (Some "./Dockerfile") (Some 10%Z) in
  registrations "AppContainer" (migrations_at fs "/app/wrangler.jsonc") = 0%nat
  /\ out = (fs, Throw (ReferenceError "opts"))
  /\ registrations "AppContainer" (migrations_at out.1 "/app/wrangler.jsonc")
     = 0%nat.
Proof.
  intros fs out. split; [reflexivity|]. split.
  - apply (mergeWranglerConfig_throw fs "/app/wrangler.jsonc" "AppContainer"
             "APP_CONTAINER" (Some "./Dockerfile") (Some 10%Z) empty_document).
    + apply lookup_insert_eq.
    + reflexivity.
  - vm_compute. reflexivity.
Qed.

(** ** C4 *)

Lemma v_tag_inj (j k : nat) : "v" +:+ pretty j = "v" +:+ pretty k -> j = k.
Proof. simpl. intros H. injection H as H. exact (pretty_nat_inj _ _ H). Qed.

(** C4 fails as stated: one migration tagged v2 that is full makes the merge
    allocate a second migration tagged v2. *)
Lemma fresh_tag_counterexample :
  ~ allocates_fresh_tag ∅ "D" three_under_v2.
Proof.
  intros H.
  apply (H (three_under_v2
            ++ [ {| new_sqlite_classes := Some ["D"]; tag := "v2" |} ])
           {| new_sqlite_classes := Some ["D"]; tag := "v2" |});
    [reflexivity|reflexivity|].
  simpl. apply list_elem_of_here.
Qed.

(** C4, amended.  With migrations present, the class not registered and the
    most recent migration holding 3 classes or more, the new migration is
    tagged with the letter v and the number of migrations plus one; that tag
    is fresh when the tags present are numbered up to the number of
    migrations. *)
Theorem new_migration_tag (fs : filesystem) (className : string)
    (ms : list Migration) (latest : Migration) :
  classExistsInMigrations className ms = false ->
  last ms = Some latest ->
  (3 <= length (classes_of latest))%nat ->
  merge_migrations mergeWranglerConfig_scope fs className ms
  = Ok (ms ++ [ {| new_sqlite_classes := Some [className];
                   tag := "v" +:+ pretty (length ms + 1)%nat |} ])
  /\ (numbered_tags ms -> allocates_fresh_tag fs className ms).
Proof.
  intros Hnew Hlast Hfull.
  assert (Hm : merge_migrations mergeWranglerConfig_scope fs className ms
               = Ok (ms ++ [ {| new_sqlite_classes := Some [className];
                                tag := "v" +:+ pretty (length ms + 1)%nat |} ])).
  { rewrite (merge_migrations_batch _ _ _ _ latest Hnew Hlast).
    unfold batch_allocate.
    destruct (Nat.ltb_spec (length (classes_of latest)) 3); [lia|reflexivity]. }
  split; [exact Hm|].
  intros Hnum ms' m Hm' Hl Hin.
  rewrite Hm in Hm'. injection Hm' as <-.
  rewrite last_snoc in Hl. injection Hl as <-. simpl in Hin.
  apply list_elem_of_fmap in Hin as (m0 & Htag & Hm0).
  destruct (Hnum m0 Hm0) as (k & Hk & Hk').
  rewrite Hk' in Htag. apply v_tag_inj in Htag. lia.
Qed.

Lemma new_migration_tag_witness :
  let ms := [ {| new_sqlite_classes := Some ["A"; "B"; "C"]; tag := "v1" |} ] in
  merge_migrations mergeWranglerConfig_scope ∅ "D" ms
  = Ok (ms ++ [ {| new_sqlite_classes := Some ["D"]; tag := "v2" |} ])
  /\ allocates_fresh_tag ∅ "D" ms.
Proof.
  intros ms.
  destruct (new_migration_tag ∅ "D" ms
              {| new_sqlite_classes := Some ["A"; "B"; "C"]; tag := "v1" |})
    as [Hm Hfresh].
  - reflexivity.
  - reflexivity.
  - simpl. lia.
  - split; [exact Hm|]. apply Hfresh.
    intros m Hin. apply list_elem_of_singleton in Hin as ->.
    exists 1%nat. split; [simpl; lia|reflexivity].
Defined.

(** ** C5 *)

(** C5. Over any sequence of merges on a descriptor, a migration either
    stays as it was or holds at most 3 classes, so a descriptor within
    capacity stays within capacity; and each merge that registers a class
    appends it to the most recent migration when that one holds fewer than 3
    classes and otherwise adds a migration holding only that class. *)
Theorem batch_allocation_bound (fs : filesystem) (p : string)
    (rs : list merge_request) :
  (forall i m,
      migrations_at (merge_all fs p rs) p !! i = Some m ->
      within_capacity m \/ migrations_at fs p !! i = Some m)
  /\ (Forall within_capacity (migrations_at fs p) ->
      Forall within_capacity (migrations_at (merge_all fs p rs) p))
  /\ (forall r doc latest,
         fs !! p = Some (ConfigDoc doc) ->
         classExistsInMigrations (mr_className r) (migrations_at fs p) = false ->
         last (migrations_at fs p) = Some latest ->
         migrations_at (merge_once fs p r).1 p
         = if (length (classes_of latest) <? 3)%nat
           then <[ (length (migrations_at fs p) - 1)%nat :=
                     {| new_sqlite_classes :=
                          Some (classes_of latest ++ [mr_className r]);
                        tag := tag latest |} ]> (migrations_at fs p)
           else migrations_at fs p
                ++ [ {| new_sqlite_classes := Some [mr_className r];
                        tag := "v" +:+ pretty
                                 (length (migrations_at fs p) + 1)%nat |} ]).
Proof.
  split; [apply merge_all_capacity|].
  split; [apply merge_all_within_capacity|].
  intros r doc latest Hdoc Hnew Hlast.
  apply (mergeWranglerConfig_ok fs p (mr_className r) (mr_bindingName r)
           (mr_dockerfilePath r) (mr_maxInstances r) doc _ Hdoc).
  apply merge_migrations_batch; assumption.
Qed.

Lemma batch_allocation_bound_witness :
  let fs : filesystem :=
    <["/app/wrangler.jsonc" :=
        ConfigDoc (document_with
                     [ {| new_sqlite_classes := Some ["A"; "B"];
                          tag := "v1" |} ])]> ∅ in
  let request c :=
    {| mr_className := c; mr_bindingName := bindingName_of c;
       mr_dockerfilePath := Some "./Dockerfile";
       mr_maxInstances := Some 10%Z |} in
  Forall within_capacity
    (migrations_at
       (merge_all fs "/app/wrangler.jsonc"
          [request "C"; request "D"; request "C"; request "E"; request "F"])
       "/app/wrangler.jsonc").
Proof.
  intros fs request.
  apply (batch_allocation_bound fs "/app/wrangler.jsonc").
  vm_compute. repeat constructor.
Defined.

(** ** C2 *)

Lemma scaffold_wrangler_unfold (today : string) (ctx : Ctx) (opts : Opts)
    (projectName className bindingName : string) (df : option string)
    (mi : option Z) (fs : filesystem) :
  scaffold_wrangler today ctx opts projectName className bindingName df mi fs
  = if pathExists fs (path_join (cwd ctx) "wrangler.jsonc")
    then mergeWranglerConfig fs (path_join (cwd ctx) "wrangler.jsonc")
           className bindingName df mi
    else writeFile fs (path_join (cwd ctx) "wrangler.jsonc")
           (ConfigDoc (generateWranglerConfig today projectName className
                         bindingName df mi)).
Proof.
  unfold scaffold_wrangler, mbind, FsM_bind, get_fs, step.
  destruct (pathExists fs (path_join (cwd ctx) "wrangler.jsonc"));
    reflexivity.
Qed.

Lemma pathExists_Some (fs : filesystem) (p : string) (f : file) :
  fs !! p = Some f -> pathExists fs p = true.
Proof.
  intros H. unfold pathExists. apply bool_decide_eq_true. rewrite H. eauto.
Qed.

Lemma pathExists_None (fs : filesystem) (p : string) :
  fs !! p = None -> pathExists fs p = false.
Proof.
  intros H. unfold pathExists. apply bool_decide_eq_false. rewrite H.
  intros [x Hx]. discriminate Hx.
Qed.

(** With the override v1 and the migrations v1 and v2 present, the class
    joins v2: the override is not honoured. *)
Lemma tag_override_counterexample :
  let fs : filesystem :=
    <["/app/wrangler.jsonc" :=
        ConfigDoc (document_with
                     [ {| new_sqlite_classes := Some ["A"]; tag := "v1" |};
                       {| new_sqlite_classes := Some ["B"]; tag := "v2" |} ])]>
      ∅ in
  let ctx := {| cwd := "/app"; args := []; config := no_overrides |} in
  let opts :=
    {| opt_ship := false; opt_plan := false; opt_detect := false;
       opt_type := None; opt_name := None; opt_class := None;
       opt_maxInstances := Some "10"; opt_migrationTag := Some "v1";
       opt_noPrompt := false; opt_force := false; opt_verbose := false |} in
  ~ honours_tag_override "2025-01-01" fs ctx opts "app" "C" "C_CONTAINER"
      (Some "./Dockerfile") (Some 10%Z).
Proof.
  intros fs ctx opts H.
  specialize (H "v1" eq_refl). simpl in H.
  assert (Hnew : classExistsInMigrations "C"
                   (migrations_at fs (path_join "/app" "wrangler.jsonc"))
                 = false) by (vm_compute; reflexivity).
  specialize (H Hnew). vm_compute in H. discriminate H.
Qed.

(** C2.  An explicit migration tag is never honoured by the descriptor step
    of scaffolding.  With no descriptor on disk the generated one has the
    single migration v1 holding the class, whatever the tag.  With a
    descriptor that has migrations and does not list the class, the class
    goes where batch allocation puts it (the most recent migration below 3
    classes, else a new migration numbered after the count), whatever the
    tag.  With a descriptor that has no migration yet, the one place that
    reads the tag, the merge throws at that read ([opts] is not bound there),
    and nothing is written. *)
Theorem tag_override_not_honoured (today : string) (fs : filesystem)
    (ctx : Ctx) (opts : Opts) (projectName className bindingName : string)
    (df : option string) (mi : option Z) (t : string) :
  opt_migrationTag opts = Some t ->
  let wranglerPath := path_join (cwd ctx) "wrangler.jsonc" in
  let out := scaffold_wrangler today ctx opts projectName className
               bindingName df mi fs in
  (fs !! wranglerPath = None ->
   out.2 = Ok tt
   /\ migrations_at out.1 wranglerPath
      = [ {| new_sqlite_classes := Some [className]; tag := "v1" |} ])
  /\ (forall doc latest,
         fs !! wranglerPath = Some (ConfigDoc doc) ->
         classExistsInMigrations className (migrations_at fs wranglerPath)
         = false ->
         last (migrations_at fs wranglerPath) = Some latest ->
         out.2 = Ok tt
         /\ migrations_at out.1 wranglerPath
            = batch_allocate className latest (migrations_at fs wranglerPath))
  /\ (forall doc,
         fs !! wranglerPath = Some (ConfigDoc doc) ->
         migrations_at fs wranglerPath = [] ->
         out = (fs, Throw (ReferenceError "opts"))).
Proof.
  intros _ wranglerPath out. subst out. rewrite scaffold_wrangler_unfold.
  fold wranglerPath. split; [|split].
  - intros Hnone. rewrite (pathExists_None _ _ Hnone).
    unfold writeFile. rewrite Hnone. simpl. split; [reflexivity|].
    unfold migrations_at. rewrite lookup_insert_eq. reflexivity.
  - intros doc latest Hdoc Hnew Hlast.
    rewrite (pathExists_Some _ _ _ Hdoc).
    apply (mergeWranglerConfig_ok fs wranglerPath className bindingName df mi
             doc _ Hdoc).
    apply merge_migrations_batch; assumption.
  - intros doc Hdoc Hempty.
    rewrite (pathExists_Some _ _ _ Hdoc).
    apply (mergeWranglerConfig_throw _ _ _ _ _ _ doc); [exact Hdoc|].
    rewrite Hempty. apply merge_migrations_empty.
Qed.

Lemma tag_override_not_honoured_witness :
  let with_migrations ms : filesystem :=
    <["/app/wrangler.jsonc" := ConfigDoc (document_with ms)]> ∅ in
  let ctx := {| cwd := "/app"; args := []; config := no_overrides |} in
  let opts :=
    {| opt_ship := false; opt_plan := false; opt_detect := false;
       opt_type := None; opt_name := None; opt_class := None;
       opt_maxInstances := Some "10"; opt_migrationTag := Some "v1";
       opt_noPrompt := false; opt_force := false; opt_verbose := false |} in
  let descriptor_step fs :=
    scaffold_wrangler "2025-01-01" ctx opts "app" "C" "C_CONTAINER"
      (Some "./Dockerfile") (Some 10%Z) fs in
  migrations_at
    (descriptor_step (with_migrations
             [ {| new_sqlite_classes := Some ["A"]; tag := "v1" |};
               {| new_sqlite_classes := Some ["B"]; tag := "v2" |} ])).1
    "/app/wrangler.jsonc"
  = [ {| new_sqlite_classes := Some ["A"]; tag := "v1" |};
      {| new_sqlite_classes := Some ["B"; "C"]; tag := "v2" |} ]
  /\ descriptor_step (with_migrations [])
     = (with_migrations [], Throw (ReferenceError "opts")).
Proof.
  intros with_migrations ctx opts descriptor_step. split.
  - refine (proj2 (proj1 (proj2 (tag_override_not_honoured "2025-01-01"
                                  (with_migrations _) ctx opts "app" "C"
                                  "C_CONTAINER" (Some "./Dockerfile")
                                  (Some 10%Z) "v1" eq_refl))
                     (document_with
                        [ {| new_sqlite_classes := Some ["A"]; tag := "v1" |};
                          {| new_sqlite_classes := Some ["B"];
                             tag := "v2" |} ])
                     {| new_sqlite_classes := Some ["B"]; tag := "v2" |}
                     _ _ _));
      vm_compute; reflexivity.
  - refine (proj2 (proj2 (tag_override_not_honoured "2025-01-01"
                            (with_migrations []) ctx opts "app" "C"
                            "C_CONTAINER" (Some "./Dockerfile") (Some 10%Z)
                            "v1" eq_refl))
              (document_with []) _ _);
      vm_compute; reflexivity.
Defined.

(** ** C7 *)

Lemma list_ascii_of_append (s t : string) :
  list_ascii_of_string (s +:+ t)
  = list_ascii_of_string s ++ list_ascii_of_string t.
Proof. induction s as [|c s IH]; simpl; [reflexivity|]. now rewrite IH. Qed.

Lemma append_inv_tail (s1 s2 t : string) : s1 +:+ t = s2 +:+ t -> s1 = s2.
Proof.
  intros H. apply (f_equal list_ascii_of_string) in H.
  rewrite !list_ascii_of_append in H. apply app_inv_tail in H.
  apply (f_equal string_of_list_ascii) in H.
  now rewrite !string_of_list_ascii_of_string in H.
Qed.

Lemma toUpperCase_append (s t : string) :
  JsString.toUpperCase (s +:+ t)
  = JsString.toUpperCase s +:+ JsString.toUpperCase t.
Proof.
  induction s as [|c s IH]; [reflexivity|].
  change (String c s +:+ t) with (String c (s +:+ t)).
  simpl. rewrite IH. reflexivity.
Qed.

Lemma prefix_cons (a b : ascii) (s1 s2 : string) :
  String.prefix (String a s1) (String b s2)
  = if ascii_dec a b then String.prefix s1 s2 else false.
Proof. reflexivity. Qed.

Ltac border_step t :=
  let c := fresh "c" in
  let H := fresh "H" in
  destruct t as [|c t];
  [ intros H; vm_compute in H; discriminate H
  | change (String c t +:+ "CONTAINER")
      with (String c (t +:+ "CONTAINER"));
    rewrite !prefix_cons;
    match goal with
    | |- context [ascii_dec ?a c] =>
        destruct (ascii_dec a c); [|intros H; discriminate H]
    end ].

(** No proper end of CONTAINER is a start of it: an occurrence that starts
    inside [t] in [t] followed by CONTAINER lies inside [t]. *)
Lemma prefix_before_token (t : string) :
  String.prefix "CONTAINER" (t +:+ "CONTAINER") = true ->
  t = EmptyString \/ String.prefix "CONTAINER" t = true.
Proof.
  destruct t as [|c t]; [left; reflexivity|].
  intros H. right. revert H.
  change (String c t +:+ "CONTAINER")
    with (String c (t +:+ "CONTAINER")).
  rewrite !prefix_cons.
  destruct (ascii_dec "C" c); [|intros H; discriminate H].
  do 8 border_step t. intros _. destruct t; reflexivity.
Qed.

Lemma replace_cons (c : ascii) (s p r : string) :
  JsString.replace (String c s) p r
  = if String.prefix p (String c s)
    then r +:+ JsString.drop (String.length p) (String c s)
    else String c (JsString.replace s p r).
Proof. reflexivity. Qed.

(** Removing the first CONTAINER from a text without one, followed by
    CONTAINER, gives the text back. *)
Lemma replace_token_at_end (s : string) :
  JsString.includes s "CONTAINER" = false ->
  JsString.replace (s +:+ "CONTAINER") "CONTAINER" EmptyString = s.
Proof.
  induction s as [|c s IH]; intros H; [reflexivity|].
  assert (Hp : String.prefix "CONTAINER" (String c s) = false
               /\ JsString.includes s "CONTAINER" = false).
  { apply orb_false_iff. exact H. }
  destruct Hp as [Hp Hi].
  change (String c s +:+ "CONTAINER") with (String c (s +:+ "CONTAINER")).
  rewrite replace_cons.
  destruct (String.prefix "CONTAINER" (String c (s +:+ "CONTAINER")))
    eqn:E.
  - apply (prefix_before_token (String c s)) in E as [E|E];
      [discriminate E|congruence].
  - rewrite (IH Hi). reflexivity.
Qed.

(** C7 fails as stated: a class name and the same name without the suffix
    token derive the same binding name, and so do two names that differ in
    the case of a letter. *)
Lemma binding_name_counterexample :
  ~ (forall c1 c2 : string,
        c1 <> c2 -> bindingName_of c1 <> bindingName_of c2)
  /\ bindingName_of "AppContainer" = bindingName_of "App"
  /\ bindingName_of "AppContainer" = bindingName_of "APPContainer".
Proof.
  split; [|split; reflexivity].
  intros H. apply (H "AppContainer" "App"); [discriminate|reflexivity].
Qed.

(** C7, amended.  On class names made of a stem and the suffix Container,
    where the stem does not contain the token in any letter case, the
    binding name is the stem in upper case followed by _CONTAINER, and two
    such class names derive the same binding name exactly when their stems
    agree in upper case: class names of this form that differ by more than
    letter case get distinct binding names. *)
Theorem binding_name_of_suffixed (stem1 stem2 : string) :
  JsString.includes (JsString.toUpperCase stem1) "CONTAINER" = false ->
  JsString.includes (JsString.toUpperCase stem2) "CONTAINER" = false ->
  bindingName_of (stem1 +:+ "Container")
  = JsString.toUpperCase stem1 +:+ "_CONTAINER"
  /\ (bindingName_of (stem1 +:+ "Container")
      = bindingName_of (stem2 +:+ "Container")
      <-> JsString.toUpperCase stem1 = JsString.toUpperCase stem2)
  /\ (JsString.toUpperCase stem1 <> JsString.toUpperCase stem2 ->
      bindingName_of (stem1 +:+ "Container")
      <> bindingName_of (stem2 +:+ "Container")).
Proof.
  intros H1 H2.
  assert (Hb : forall stem,
             JsString.includes (JsString.toUpperCase stem) "CONTAINER"
             = false ->
             bindingName_of (stem +:+ "Container")
             = JsString.toUpperCase stem +:+ "_CONTAINER").
  { intros stem H. unfold bindingName_of. rewrite toUpperCase_append.
    change (JsString.toUpperCase "Container") with "CONTAINER".
    rewrite (replace_token_at_end _ H). reflexivity. }
  rewrite (Hb stem1 H1), (Hb stem2 H2).
  split; [reflexivity|].
  assert (Hiff : JsString.toUpperCase stem1 +:+ "_CONTAINER"
                 = JsString.toUpperCase stem2 +:+ "_CONTAINER"
                 <-> JsString.toUpperCase stem1 = JsString.toUpperCase stem2).
  { split; [apply append_inv_tail|intros ->; reflexivity]. }
  split; [exact Hiff|]. intros Hne Heq. apply Hne, Hiff, Heq.
Qed.

Lemma binding_name_of_suffixed_witness :
  bindingName_of "NginxContainer" = "NGINX_CONTAINER"
  /\ bindingName_of "NginxContainer" <> bindingName_of "RedisContainer"
  /\ bindingName_of "AppContainer" = bindingName_of "APPContainer".
Proof.
  split; [|split].
  - apply (proj1 (binding_name_of_suffixed "Nginx" "Redis" eq_refl eq_refl)).
  - apply (proj2 (proj2 (binding_name_of_suffixed "Nginx" "Redis"
                           eq_refl eq_refl))).
    discriminate.
  - apply (proj1 (proj2 (binding_name_of_suffixed "App" "APP"
                           eq_refl eq_refl))).
    reflexivity.
Defined.

(** ** C10 *)

(** C10. With an image-like positional argument and an environment file that
    has an IMAGE assignment, the detected image is the value of that
    assignment without its quotes: the argument is looked at first (its
    indicator leads the list) and the file overwrites the image later; the
    confidence stays that of the argument. *)
Theorem env_image_overrides_argument (this : Detector) (fs : filesystem)
    (ctx : Ctx) (arg : string) (rest : list string)
    (envContent group1 : string) :
  args ctx = arg :: rest ->
  looks_like_image arg = true ->
  fs !! path_join (cwd ctx) ".env" = Some (Text envContent) ->
  EnvFile.imageMatch envContent = Some group1 ->
  exists d,
    ContainerDetector_detect this fs ctx = Ok (Some d)
    /\ image (metadata d) = Some (EnvFile.strip_quotes group1)
    /\ confidence d = 0.95%Q
    /\ head (indicators d) = Some ("Explicit image reference: " +:+ arg)
    /\ In ("Found IMAGE in .env: " +:+ EnvFile.strip_quotes group1)
          (indicators d).
Proof.
  intros Hargs Himg Henv Hmatch.
  unfold ContainerDetector_detect.
  unfold detect_arg. rewrite Hargs, Himg.
  unfold detect_dockerfile.
  destruct (first_existing fs (cwd ctx)
              ["Dockerfile"; "Containerfile"; "dockerfile"]);
    unfold detect_compose;
    destruct (first_existing fs (cwd ctx)
                ["docker-compose.yml"; "docker-compose.yaml";
                 "compose.yml"; "compose.yaml"]);
    unfold detect_docker_dir;
    destruct (pathExists fs (path_join (cwd ctx) ".docker"));
    unfold detect_env, readFile;
    rewrite (pathExists_Some _ _ _ Henv), Henv;
    cbn [mbind completion_bind]; rewrite Hmatch;
    unfold detect_manifest;
    destruct (pathExists fs (path_join (cwd ctx) "manifest.json"));
    cbn [ds_confidence ds_indicators ds_image ds_dockerfilePath];
    (eexists; split; [vm_compute; reflexivity|]);
    cbn [metadata image confidence indicators];
    (split; [reflexivity|]); (split; [reflexivity|]);
    (split; [reflexivity|]); simpl; auto 10.
Qed.

Lemma env_image_overrides_argument_witness :
  let fs : filesystem := <["/app/.env" := Text "IMAGE='redis:7'"]> ∅ in
  let ctx := {| cwd := "/app"; args := ["nginx:alpine"];
                config := no_overrides |} in
  exists d,
    ContainerDetector_detect new_ContainerDetector fs ctx = Ok (Some d)
    /\ image (metadata d) = Some "redis:7".
Proof.
  intros fs ctx.
  destruct (env_image_overrides_argument new_ContainerDetector fs ctx
              "nginx:alpine" [] "IMAGE='redis:7'" "'redis:7'")
    as (d & Hd & Hi & _).
  - reflexivity.
  - vm_compute. reflexivity.
  - vm_compute. reflexivity.
  - vm_compute. reflexivity.
  - exists d. split; [exact Hd|exact Hi].
Defined.

(** ** C3 *)

Lemma Qltb_false (a b : Q) : Qltb a b = false -> (b <= a)%Q.
Proof.
  unfold Qltb. intros H. apply negb_false_iff in H.
  apply Qle_bool_iff. exact H.
Qed.

Lemma Qltb_true (a b : Q) : Qltb a b = true -> (a <= b)%Q.
Proof.
  unfold Qltb. intros H. apply negb_true_iff in H.
  destruct (Qlt_le_dec a b) as [Hlt|Hle]; [apply Qlt_le_weak; exact Hlt|].
  apply Qle_bool_iff in Hle. congruence.
Qed.

Lemma insert_sorted_In (a x : Detection) (l : list Detection) :
  In x (insert_sorted a l) <-> x = a \/ In x l.
Proof.
  induction l as [|b l IH]; simpl; [intuition congruence|].
  destruct (Qltb (confidence a) (confidence b)); simpl; [rewrite IH|];
    intuition congruence.
Qed.

Lemma insert_sorted_ranked (a : Detection) (l : list Detection) :
  ranked l -> ranked (insert_sorted a l).
Proof.
  unfold ranked. induction l as [|b l IH]; intros Hs; simpl.
  - repeat constructor.
  - apply StronglySorted_inv in Hs as [Hl Hb].
    destruct (Qltb (confidence a) (confidence b)) eqn:E.
    + constructor; [apply IH; exact Hl|].
      apply List.Forall_forall. intros x Hx.
      apply insert_sorted_In in Hx as [->|Hx].
      * apply Qltb_true. exact E.
      * exact (proj1 (List.Forall_forall _ _) Hb x Hx).
    + constructor; [constructor; assumption|].
      apply Qltb_false in E. constructor; [exact E|].
      apply List.Forall_forall. intros x Hx.
      apply Qle_trans with (confidence b); [|exact E].
      exact (proj1 (List.Forall_forall _ _) Hb x Hx).
Qed.

Lemma sort_results_In (x : Detection) (results : list Detection) :
  In x (sort_results results) <-> In x results.
Proof.
  unfold sort_results. induction results as [|a l IH]; simpl; [tauto|].
  rewrite insert_sorted_In, IH. intuition congruence.
Qed.

Lemma sort_results_ranked (results : list Detection) :
  ranked (sort_results results).
Proof.
  unfold sort_results. induction results as [|a l IH]; simpl.
  - constructor.
  - apply insert_sorted_ranked. exact IH.
Qed.

(** The head of the sorted results is a result of greatest confidence. *)
Lemma sort_results_top (results : list Detection) (r0 : Detection)
    (rest : list Detection) :
  sort_results results = r0 :: rest ->
  In r0 results
  /\ forall r, In r results -> (confidence r <= confidence r0)%Q.
Proof.
  intros Hs. split.
  - apply sort_results_In. rewrite Hs. left. reflexivity.
  - intros r Hr. apply sort_results_In in Hr. rewrite Hs in Hr.
    pose proof (sort_results_ranked results) as Hrk. rewrite Hs in Hrk.
    apply StronglySorted_inv in Hrk as [_ Hall].
    destruct Hr as [<-|Hr]; [apply Qle_refl|].
    exact (proj1 (List.Forall_forall _ _) Hall r Hr).
Qed.

(** When the option object carries the key noPrompt, as a configuration
    file can make it, resolution ends with the top-ranked result and never
    opens the list prompt, also when the two most confident results are less
    than 0.1 apart; its answer does not depend on what the outside world
    would have replied. *)
Lemma noPrompt_key_decides (results : list Detection) (opts : Opts)
    (r0 r1 : Detection) (rest : list Detection) :
  sort_results results = r0 :: r1 :: rest ->
  opt_noPrompt opts = true ->
  resolve results opts = Done (Some r0)
  /\ never_selects (resolve results opts)
  /\ (forall o1 o2 : oracle,
         run o1 (resolve results opts) = run o2 (resolve results opts))
  /\ (In r0 results
      /\ forall r, In r results -> (confidence r <= confidence r0)%Q)
  /\ (forall detectors fs ctx,
         collect detectors fs ctx opts = Ok results ->
         autoDetect detectors fs ctx opts = Done (Ok (Some r0))).
Proof.
  intros Hsort Hnp.
  assert (Hres : resolve results opts = Done (Some r0)).
  { unfold resolve. rewrite Hsort, Hnp.
    destruct (gap_below_threshold (confidence r0) (confidence r1));
      reflexivity. }
  split; [exact Hres|]. rewrite Hres. split; [exact I|].
  split; [reflexivity|]. split; [exact (sort_results_top _ _ _ Hsort)|].
  intros detectors fs ctx Hc. unfold autoDetect. rewrite Hc, Hres.
  reflexivity.
Qed.

(** No declared option is kept under the key noPrompt. *)
Lemma declared_keys (d : declaration) :
  In d declared -> attributeName d <> "noPrompt".
Proof.
  intros H. unfold declared in H. simpl in H.
  repeat (destruct H as [<-|H]; [vm_compute; discriminate|]).
  destruct H.
Qed.

Lemma parse_words_noPrompt (words : list string) :
  forall (o : gmap string optval) (operands : list string)
         (o' : gmap string optval)
         (operands' : list string),
    parse_words words o operands = Some (o', operands') ->
    o !! "noPrompt" = None -> o' !! "noPrompt" = None.
Proof.
  assert (H : forall (n : nat) (words : list string),
             (length words <= n)%nat ->
             forall o operands o' operands',
               parse_words words o operands = Some (o', operands') ->
               o !! "noPrompt" = None -> o' !! "noPrompt" = None).
  { clear words. induction n as [|n IH];
      intros words Hlen o operands o' operands' Hp Ho;
      destruct words as [|word rest]; simpl in Hlen, Hp;
      try (injection Hp as <- _; exact Ho); [lia|].
    destruct (String.eqb word "--"); [injection Hp as <- _; exact Ho|].
    destruct (JsString.startsWith word "-" && (1 <? String.length word)%nat).
    - destruct (find_declaration word) as [d|] eqn:Hd; [|discriminate Hp].
      apply List.find_some in Hd as [Hd _]. apply declared_keys in Hd.
      destruct (required d).
      + destruct rest as [|operand rest']; [discriminate Hp|].
        simpl in Hlen.
        refine (IH rest' _ _ _ _ _ Hp _); [lia|].
        rewrite lookup_insert_ne by exact Hd. exact Ho.
      + refine (IH rest _ _ _ _ _ Hp _); [lia|].
        rewrite lookup_insert_ne by exact Hd. exact Ho.
    - refine (IH rest _ _ _ _ _ Hp Ho). lia. }
  exact (H (length words) words (le_n _)).
Qed.

(** The option object of an empty command line. *)
Lemma read_initial_options : read_options initial_options = default_opts.
Proof. vm_compute. reflexivity. Qed.

(** C3.  The flag --no-prompt does not make resolution non-interactive.
    Whatever the command line, the option object that the parser hands to
    the action has no key noPrompt (the flag is kept under the key prompt),
    so after the configuration is applied [opts.noPrompt] is what the
    configuration file says and is unset without one.  With the option
    object of the command line, a resolution whose two most confident
    results are less than 0.1 apart opens the list prompt and returns
    whatever is selected there. *)
Theorem no_prompt_flag_not_read (words : list string) (o : gmap string optval)
    (operands : list string) :
  command_line words = Some (o, operands) ->
  o !! "noPrompt" = None
  /\ (forall c : ConfigOverrides,
         opt_noPrompt (assign (read_options o) c)
         = default false (cfg_noPrompt c))
  /\ (forall (results : list Detection) (r0 r1 : Detection)
             (rest : list Detection),
         sort_results results = r0 :: r1 :: rest ->
         gap_below_threshold (confidence r0) (confidence r1) = true ->
         let message :=
           "Multiple project types detected. Which would you like to use?" in
         let choices := map choice_of (r0 :: r1 :: rest) in
         resolve results (read_options o)
         = Select message choices (fun selected => Done (Some selected))
         /\ forall w : oracle,
              run w (resolve results (read_options o))
              = Some (answer_select w message choices)).
Proof.
  intros Hc.
  assert (Hkey : o !! "noPrompt" = None).
  { unfold command_line in Hc.
    destruct (parse_words words initial_options [])
      as [[o' operands']|] eqn:Hp; [|discriminate Hc].
    assert (Ho : o' = o).
    { destruct operands' as [|operand operands']; [congruence|].
      destruct (String.eqb operand "help"); [discriminate Hc|congruence]. }
    subst o'.
    apply (parse_words_noPrompt _ _ _ _ _ Hp). vm_compute. reflexivity. }
  assert (Hnp : opt_noPrompt (read_options o) = false).
  { unfold read_options, is_set. simpl. rewrite Hkey. reflexivity. }
  split; [exact Hkey|]. split.
  - intros c. unfold assign. simpl. fold (is_set o "noPrompt").
    change (is_set o "noPrompt") with (opt_noPrompt (read_options o)).
    rewrite Hnp. reflexivity.
  - intros results r0 r1 rest Hsort Hgap message choices.
    assert (Hres : resolve results (read_options o)
                   = Select message choices
                       (fun selected => Done (Some selected))).
    { unfold resolve. rewrite Hsort, Hgap, Hnp. reflexivity. }
    split; [exact Hres|]. intros w. rewrite Hres. reflexivity.
Qed.

Lemma no_prompt_flag_not_read_witness :
  let result c :=
    {| detector := new_ContainerDetector; confidence := c; indicators := [];
       metadata := {| image := None; dockerfilePath := None |} |} in
  exists o : gmap string optval,
    command_line ["--no-prompt"] = Some (o, [])
    /\ o !! "prompt" = Some (FlagValue false)
    /\ o !! "noPrompt" = None
    /\ run refusing
         (resolve [result 0.85%Q; result 0.9%Q] (read_options o))
       = Some (result 0.9%Q)
    /\ run picks_last
         (resolve [result 0.85%Q; result 0.9%Q] (read_options o))
       = Some (result 0.85%Q).
Proof.
  intros result.
  exists (<["prompt" := FlagValue false]> initial_options).
  assert (Hc : command_line ["--no-prompt"]
               = Some (<["prompt" := FlagValue false]> initial_options, []))
    by reflexivity.
  destruct (no_prompt_flag_not_read _ _ _ Hc) as (Hkey & _ & Hprompt).
  destruct (Hprompt [result 0.85%Q; result 0.9%Q] (result 0.9%Q)
              (result 0.85%Q) [])
    as [_ Hrun]; [vm_compute; reflexivity ..|].
  split; [exact Hc|]. split; [apply lookup_insert_eq|].
  split; [exact Hkey|]. split.
  - rewrite Hrun. vm_compute. reflexivity.
  - rewrite Hrun. vm_compute. reflexivity.
Defined.


(** ** C6 *)

Lemma append_assoc (s t u : string) : (s +:+ t) +:+ u = s +:+ (t +:+ u).
Proof.
  induction s as [|c s IH]; [reflexivity|].
  change (String c ((s +:+ t) +:+ u) = String c (s +:+ (t +:+ u))).
  f_equal. exact IH.
Qed.

Lemma pathExists_empty (p : string) : pathExists ∅ p = false.
Proof. apply pathExists_None. apply lookup_empty. Qed.

Lemma writeFile_absent (fs : filesystem) (p : string) (f : file) :
  fs !! p = None -> writeFile fs p f = (<[p := f]> fs, Ok tt).
Proof. intros H. unfold writeFile. rewrite H. reflexivity. Qed.

Lemma ensureDir_absent (fs : filesystem) (p : string) :
  fs !! p = None -> ensureDir fs p = (<[p := Dir]> fs, Ok tt).
Proof. intros H. unfold ensureDir. rewrite H. reflexivity. Qed.

(** Two paths below the same directory differ when their tails do. *)
Ltac path_ne :=
  let H := fresh in
  intros H; unfold Path.join in H; rewrite ?append_assoc in H;
  apply String.app_inj in H; vm_compute in H; discriminate H.

Ltac absent :=
  repeat (rewrite lookup_insert_ne by path_ne); apply lookup_empty.

(** The files scaffolding leaves in an empty directory for a remote image. *)
Lemma scaffold_files_empty (today : string) (ctx : Ctx) (opts : Opts)
    (img : string) (pn cn bn : string) (mi : option Z) :
  JsString.truthy (Some img) = true ->
  scaffold_files today ctx opts (Some img) None pn cn bn mi ∅
  = (<[ path_join (cwd ctx) ".cfignore" := Text cfignore ]>
       (<[ path_join (cwd ctx) "package.json" :=
             PackageDoc (generatePackageJson pn) ]>
          (<[ path_join (cwd ctx) "tsconfig.json" := TsConfigDoc ]>
             (<[ path_join (cwd ctx) "wrangler.jsonc" :=
                   ConfigDoc (generateWranglerConfig today pn cn bn
                                (Some "./Dockerfile.generated") mi) ]>
                (<[ path_join (path_join (cwd ctx) "src") "index.ts" :=
                      Text (generateWorkerCode cn bn 8080) ]>
                   (<[ path_join (cwd ctx) "src" := Dir ]>
                      (<[ path_join (cwd ctx) "Dockerfile.generated" :=
                            Text ("FROM " +:+ img +:+ nl +:+ "EXPOSE 8080") ]>
                         ∅)))))),
     Ok {| projectName := pn; className := cn; bindingName := bn |}).
Proof.
  intros Himg.
  unfold scaffold_files, scaffold_dockerfile, scaffold_worker,
    scaffold_wrangler, scaffold_companions.
  rewrite Himg.
  unfold mbind, FsM_bind, mret, FsM_ret, step, get_fs.
  cbn [negb andb JsString.truthy default].
  rewrite writeFile_absent by absent.
  rewrite ensureDir_absent by absent.
  rewrite (pathExists_None _ _) by absent.
  rewrite writeFile_absent by absent.
  rewrite (pathExists_None _ _) by absent.
  rewrite writeFile_absent by absent.
  rewrite (pathExists_None _ _) by absent.
  rewrite writeFile_absent by absent.
  rewrite (pathExists_None _ _) by absent.
  rewrite writeFile_absent by absent.
  rewrite (pathExists_None _ _) by absent.
  rewrite writeFile_absent by absent.
  reflexivity.
Qed.

Lemma first_existing_empty (dir : string) (names : list string) :
  first_existing ∅ dir names = None.
Proof.
  unfold first_existing. induction names as [|n names IH]; simpl;
    [reflexivity|]. rewrite pathExists_empty. exact IH.
Qed.

Lemma detect_empty_directory (this : Detector) (d arg : string)
    (rest : list string) (c : ConfigOverrides) :
  looks_like_image arg = true ->
  ContainerDetector_detect this ∅ {| cwd := d; args := arg :: rest;
                                     config := c |}
  = Ok (Some {| detector := this; confidence := 0.95;
                indicators := ["Explicit image reference: " +:+ arg];
                metadata := {| image := Some arg;
                               dockerfilePath := None |} |}).
Proof.
  intros Himg.
  unfold ContainerDetector_detect, detect_arg, detect_dockerfile,
    detect_compose, detect_docker_dir, detect_env, detect_manifest.
  cbn [args cwd]. rewrite Himg, !first_existing_empty, !pathExists_empty.
  reflexivity.
Qed.

Lemma baseName_of_suffix (projectName : string) :
  exists stem, baseName_of projectName = stem +:+ "Container".
Proof.
  destruct projectName as [|c rest].
  - exists EmptyString. reflexivity.
  - eexists. reflexivity.
Qed.

Lemma resolve_className_empty (ctx : Ctx) (opts : Opts)
    (image dockerfilePath : option string) (projectName : string) :
  JsString.truthy (opt_class opts) = false ->
  resolve_className ∅ ctx opts image dockerfilePath projectName
  = baseName_of projectName.
Proof.
  intros Hclass.
  unfold resolve_className, findExistingContainer, generateUniqueClassName,
    existingClasses.
  rewrite !pathExists_empty. cbn [negb].
  destruct (opt_class opts) as [[|a t]|]; try discriminate Hclass;
    reflexivity.
Qed.

(** C6. In an empty directory with the argument nginx:alpine and no class
    override, detection gives confidence 0.95 and that image; scaffolding
    then writes a generated build file FROM nginx:alpine that exposes port
    8080, a worker on port 8080, and a fresh descriptor whose only migration
    is tagged v1 and holds the new class, whose name ends in Container (it is
    NginxContainer when no project name is given either). *)
Theorem nginx_scenario (today d : string) (opts : Opts) :
  JsString.truthy (opt_class opts) = false ->
  let ctx := {| cwd := d; args := ["nginx:alpine"];
                config := no_overrides |} in
  exists det fs' r doc,
    loadContext ∅ d ["nginx:alpine"] = ctx
    /\ detect new_ContainerDetector ∅ ctx opts = Ok (Some det)
    /\ confidence det = 0.95%Q
    /\ image (metadata det) = Some "nginx:alpine"
    /\ scaffold (detector det) today ∅ ctx opts det
       = Done (fs', Ok (Some r))
    /\ fs' !! path_join d "Dockerfile.generated"
       = Some (Text ("FROM nginx:alpine" +:+ nl +:+ "EXPOSE 8080"))
    /\ fs' !! path_join (path_join d "src") "index.ts"
       = Some (Text (generateWorkerCode (className r) (bindingName r) 8080))
    /\ (exists stem, className r = stem +:+ "Container")
    /\ (JsString.truthy (opt_name opts) = false ->
        className r = "NginxContainer")
    /\ fs' !! path_join d "wrangler.jsonc" = Some (ConfigDoc doc)
    /\ migrations doc
       = Some [ {| new_sqlite_classes := Some [className r]; tag := "v1" |} ]
    /\ containers doc
       = Some [ {| c_class_name := className r;
                   c_image := Some "./Dockerfile.generated";
                   c_max_instances := resolve_maxInstances opts;
                   c_instance_type := "basic" |} ].
Proof.
  intros Hclass ctx.
  set (pn := resolve_projectName ctx opts (Some "nginx:alpine")).
  set (cn := baseName_of pn).
  eexists _, _, {| projectName := pn; className := cn;
                   bindingName := bindingName_of cn |}, _.
  split.
  { unfold loadContext, loadConfig, loadConfig_from.
    rewrite !lookup_empty. reflexivity. }
  split.
  { unfold detect. cbn [d_class new_ContainerDetector].
    apply detect_empty_directory. vm_compute. reflexivity. }
  split; [reflexivity|]. split; [reflexivity|].
  split.
  { unfold scaffold. cbn [detector d_class new_ContainerDetector].
    unfold ContainerDetector_scaffold. cbn [metadata image dockerfilePath].
    rewrite !pathExists_empty. cbn [orb andb].
    rewrite resolve_className_empty by exact Hclass.
    fold pn. fold cn.
    rewrite scaffold_files_empty by reflexivity. reflexivity. }
  split.
  { rewrite !lookup_insert_ne by path_ne. rewrite lookup_insert_eq.
    reflexivity. }
  split.
  { rewrite !lookup_insert_ne by path_ne. rewrite lookup_insert_eq.
    reflexivity. }
  split; [apply baseName_of_suffix|].
  split.
  { intros Hname. cbn [className]. subst cn pn.
    unfold resolve_projectName.
    destruct (opt_name opts) as [[|a t]|]; try discriminate Hname;
      vm_compute; reflexivity. }
  split.
  { rewrite !lookup_insert_ne by path_ne. rewrite lookup_insert_eq.
    reflexivity. }
  split; reflexivity.
Qed.

Lemma nginx_scenario_witness :
  exists fs' r,
    scaffold new_ContainerDetector "2025-01-01" ∅
      {| cwd := "/app"; args := ["nginx:alpine"]; config := no_overrides |}
      default_opts
      {| detector := new_ContainerDetector; confidence := 0.95;
         indicators := ["Explicit image reference: nginx:alpine"];
         metadata := {| image := Some "nginx:alpine";
                        dockerfilePath := None |} |}
    = Done (fs', Ok (Some r))
    /\ className r = "NginxContainer"
    /\ migrations_at fs' "/app/wrangler.jsonc"
       = [ {| new_sqlite_classes := Some ["NginxContainer"]; tag := "v1" |} ].
Proof.
  destruct (nginx_scenario "2025-01-01" "/app" default_opts)
    as (det & fs' & r & doc & _ & Hdet & _ & _ & Hsc & _ & _ & _ & Hcn & Hdoc
        & Hmig & _).
  - reflexivity.
  - assert (Hcn' := Hcn eq_refl).
    exists fs', r. split; [|split].
    + vm_compute in Hdet. injection Hdet as <-. exact Hsc.
    + exact Hcn'.
    + unfold migrations_at. change "/app/wrangler.jsonc"
        with (path_join "/app" "wrangler.jsonc").
      rewrite Hdoc, Hmig, Hcn'. reflexivity.
Defined.

(** ** C8 *)

Lemma run_bind {A B} (o : oracle) (k : A -> prog B) (p : prog A) :
  run o (prog_bind k p) = run o (k (run o p)).
Proof. induction p as [a|m f IH|m cs f IH|c a f IH]; simpl; auto. Qed.

Lemma run_detected_outcome (today : string) (fs : filesystem) (ctx : Ctx)
    (opts : Opts) (result : Detection) (o : oracle) :
  run o (run_detected today fs ctx opts result)
  = detected_outcome today fs ctx opts result o.
Proof.
  unfold run_detected, detected_outcome.
  destruct (opt_detect opts); [reflexivity|].
  destruct (opt_plan opts); [reflexivity|].
  unfold mbind, prog_mbind. rewrite run_bind.
  destruct (run o (scaffold (detector result) today fs ctx opts result))
    as [fs' [[r|]|e]]; try reflexivity.
  destruct (opt_ship opts); [|reflexivity].
  rewrite run_bind.
  destruct (run o (deploy (detector result))) as [[|]|e]; reflexivity.
Qed.

Lemma forcedDetector_container (opts : Opts) (forced : Detector) :
  forcedDetector [new_ContainerDetector] opts = Some forced ->
  forced = new_ContainerDetector.
Proof.
  unfold forcedDetector. destruct (opt_type opts) as [[|a t]|];
    try discriminate. unfold List.find.
  destruct (String.eqb (id new_ContainerDetector) (String a t));
    intros H; [congruence|discriminate H].
Qed.

(** With the one registered detector, the action comes down to one call of
    its [detect]. *)
Lemma main_outcome (today d : string) (fs : filesystem)
    (target : option string) (opts0 : Opts) (o : oracle) :
  let ctx := action_ctx d fs target in
  let opts := action_opts d fs target opts0 in
  run o (main today d fs target opts0)
  = match detect new_ContainerDetector fs ctx opts with
    | Throw _ => {| files := fs; exit_code := EXIT_CODES.CONFIG |}
    | Ok None =>
        {| files := fs;
           exit_code :=
             match forcedDetector [new_ContainerDetector] opts with
             | Some _ => EXIT_CODES.CONFIG
             | None => EXIT_CODES.USAGE
             end |}
    | Ok (Some result) => detected_outcome today fs ctx opts result o
    end.
Proof.
  intros ctx opts. unfold main. cbv zeta.
  change (loadContext fs d (target_args target)) with ctx.
  change (assign opts0 (config ctx)) with opts.
  destruct (forcedDetector [new_ContainerDetector] opts) as [forced|] eqn:Hf.
  - apply forcedDetector_container in Hf as ->.
    destruct (detect new_ContainerDetector fs ctx opts) as [[result|]|e];
      try reflexivity.
    apply run_detected_outcome.
  - unfold autoDetect, collect.
    destruct (detect new_ContainerDetector fs ctx opts) as [[result|]|e];
      try reflexivity.
    simpl. apply run_detected_outcome.
Qed.

(** C8 fails as stated: with the unregistered type vm forced and the argument
    nginx:alpine in an empty directory, the type is ignored, detection and
    scaffolding go ahead, files are written and the run ends with code 0.
    And with the registered type container forced in an empty directory,
    where nothing is detected, the run ends with the config code, not with
    the usage code. *)
Lemma unregistered_type_counterexample :
  ~ unregistered_type_is_fatal "2025-01-01" "/app" ∅ (Some "nginx:alpine")
      (opts_forcing "vm") refusing
  /\ exit_code (run refusing (main "2025-01-01" "/app" ∅ None
                                (opts_forcing "container")))
     = EXIT_CODES.CONFIG.
Proof.
  split; [|vm_compute; reflexivity].
  intros H. destruct H as [Hcode _].
  - reflexivity.
  - vm_compute. reflexivity.
  - vm_compute in Hcode. discriminate Hcode.
Qed.

(** C8, amended.  The four exit codes are distinct.  In a run whose child
    processes close, the action ends with the usage code exactly when no
    registered type is forced and detection finds nothing, and then no file
    is written; with the partial code exactly when scaffolding returned its
    result, shipping was asked for and the deploy failed; with the success
    code exactly when the run stops after detection or the plan, or
    scaffolding returned its result and a requested deploy went through;
    with the config code when detection throws, when a forced registered
    detector finds nothing, and when scaffolding throws (a merge or parse
    failure) or returns nothing.  A forced type that is not registered is
    not an error: no detector is forced and automatic detection decides. *)
Theorem exit_codes (today d : string) (fs : filesystem)
    (target : option string) (opts0 : Opts) (o : oracle) :
  let ctx := action_ctx d fs target in
  let opts := action_opts d fs target opts0 in
  let forced := forcedDetector [new_ContainerDetector] opts in
  let detected := detect new_ContainerDetector fs ctx opts in
  let out := run o (main today d fs target opts0) in
  NoDup [EXIT_CODES.SUCCESS; EXIT_CODES.PARTIAL; EXIT_CODES.USAGE;
         EXIT_CODES.CONFIG]
  /\ (forall t, opt_type opts = Some t -> t <> id new_ContainerDetector ->
      forced = None)
  /\ (exit_code out = EXIT_CODES.USAGE <->
      forced = None /\ detected = Ok None)
  /\ (exit_code out = EXIT_CODES.USAGE -> files out = fs)
  /\ (forall result,
         detected = Ok (Some result) ->
         let sc := run o (scaffold (detector result) today fs ctx opts
                            result) in
         let shipped := run o (deploy (detector result)) in
         let scaffolding := negb (opt_detect opts) && negb (opt_plan opts) in
         (exit_code out = EXIT_CODES.PARTIAL <->
          scaffolding = true /\ scaffolded sc.2 = true
          /\ opt_ship opts = true /\ shipped = Ok false)
         /\ (exit_code out = EXIT_CODES.SUCCESS <->
             scaffolding = false
             \/ (scaffolded sc.2 = true
                 /\ (opt_ship opts = true -> shipped = Ok true)))
         /\ (scaffolding = true -> scaffolded sc.2 = false ->
             exit_code out = EXIT_CODES.CONFIG /\ files out = sc.1))
  /\ (forced <> None -> detected = Ok None ->
      exit_code out = EXIT_CODES.CONFIG)
  /\ (forall e, detected = Throw e -> exit_code out = EXIT_CODES.CONFIG).
Proof.
  intros ctx opts forced detected out.
  split.
  { apply NoDup_ListNoDup. repeat constructor; simpl; intuition discriminate. }
  split.
  { intros t Ht Hne. subst forced. unfold forcedDetector. rewrite Ht.
    destruct t as [|a t]; [reflexivity|]. unfold List.find.
    destruct (String.eqb (id new_ContainerDetector) (String a t)) eqn:E;
      [|reflexivity].
    apply String.eqb_eq in E. congruence. }
  subst out. rewrite main_outcome. fold ctx opts forced detected.
  unfold detected_outcome.
  destruct detected as [[result|]|e].
  - set (sc := run o (scaffold (detector result) today fs ctx opts result)).
    set (shipped := run o (deploy (detector result))).
    assert (Hcases :
              forall result0, Ok (Some result) = Ok (Some result0) ->
                              result0 = result) by (intros ? H; congruence).
    split; [|split; [|split; [|split]]].
    + destruct (opt_detect opts), (opt_plan opts), sc as [fs' [[r|]|e]],
        (opt_ship opts), shipped as [[|]|e']; cbn;
        split; intros H; try discriminate H; destruct H; discriminate.
    + destruct (opt_detect opts), (opt_plan opts), sc as [fs' [[r|]|e]],
        (opt_ship opts), shipped as [[|]|e']; cbn;
        intros H; discriminate H.
    + intros result0 Heq. apply Hcases in Heq. subst result0. cbv zeta.
      fold sc shipped.
      destruct (opt_detect opts), (opt_plan opts), sc as [fs' [[r|]|e]],
        (opt_ship opts), shipped as [[|]|e']; cbn;
        intuition (try discriminate; try reflexivity).
    + intros _ H. discriminate H.
    + intros e H. discriminate H.
  - split; [|split; [|split; [|split]]].
    + destruct forced; cbn; split; intros H; try discriminate H;
        try (destruct H; discriminate); split; reflexivity.
    + reflexivity.
    + intros result H. discriminate H.
    + intros Hf _. destruct forced; [reflexivity|contradiction].
    + intros e H. discriminate H.
  - split; [|split; [|split; [|split]]].
    + cbn. split; intros H; try discriminate H. destruct H; discriminate.
    + intros H. discriminate H.
    + intros result H. discriminate H.
    + intros _ H. discriminate H.
    + reflexivity.
Qed.

Lemma exit_codes_witness :
  let out := run refusing (main "2025-01-01" "/app" ∅ None default_opts) in
  exit_code out = EXIT_CODES.USAGE /\ files out = ∅
  /\ forcedDetector [new_ContainerDetector]
       (action_opts "/app" ∅ (Some "nginx:alpine") (opts_forcing "vm"))
     = None.
Proof.
  intros out.
  destruct (exit_codes "2025-01-01" "/app" ∅ None default_opts refusing)
    as (_ & _ & Husage & Hfiles & _).
  assert (H : exit_code out = EXIT_CODES.USAGE).
  { apply Husage. split; vm_compute; reflexivity. }
  split; [exact H|]. split; [exact (Hfiles H)|].
  apply (proj1 (proj2 (exit_codes "2025-01-01" "/app" ∅
                         (Some "nginx:alpine") (opts_forcing "vm")
                         refusing)) "vm");
    [reflexivity|discriminate].
Defined.

(** ** The loop of generateUniqueClassName ends on a free name *)

Lemma pretty_N_go_nonempty (x : N) (s : string) :
  s <> EmptyString -> pretty_N_go x s <> EmptyString.
Proof.
  revert s. induction (N.lt_wf_0 x) as [x _ IH]; intros s Hs.
  assert (x = 0 \/ 0 < x)%N as [->|Hpos] by lia.
  - rewrite pretty_N_go_0. exact Hs.
  - rewrite pretty_N_go_step by exact Hpos. apply IH.
    + apply N.div_lt; lia.
    + discriminate.
Qed.

Lemma pretty_nat_nonempty (k : nat) : pretty k <> EmptyString.
Proof.
  unfold pretty, pretty_nat, pretty, pretty_N.
  destruct (decide (N.of_nat k = 0%N)); [discriminate|].
  rewrite pretty_N_go_step by lia. apply pretty_N_go_nonempty. discriminate.
Qed.

Lemma append_empty_r (s : string) : s +:+ EmptyString = s.
Proof.
  induction s as [|c s IH]; [reflexivity|].
  change (String c (s +:+ EmptyString) = String c s). f_equal. exact IH.
Qed.

Lemma numbered_ne_base (baseName : string) (k : nat) :
  baseName +:+ pretty k <> baseName.
Proof.
  intros H. rewrite <- (append_empty_r baseName) in H at 2.
  apply String.app_inj in H. exact (pretty_nat_nonempty k H).
Qed.

Lemma inb_In (x : string) (l : list string) : inb x l = true <-> In x l.
Proof.
  unfold inb. rewrite existsb_exists. split.
  - intros (y & Hy & He). apply String.eqb_eq in He. congruence.
  - intros H. exists x. split; [exact H|apply String.eqb_refl].
Qed.

Lemma unique_from_tried (fuel : nat) (existing : list string)
    (baseName className : string) (counter : nat) :
  inb (unique_from fuel existing baseName className counter) existing = true ->
  Forall (fun x => In x existing)
         (tried_names fuel baseName className counter).
Proof.
  revert className counter.
  induction fuel as [|fuel IH]; intros className counter H; simpl.
  - constructor.
  - simpl in H. destruct (inb className existing) eqn:E.
    + constructor; [apply inb_In; exact E|]. apply IH. exact H.
    + congruence.
Qed.

Lemma tried_names_numbered (fuel : nat) (baseName className : string)
    (counter : nat) :
  tried_names (S fuel) baseName className counter
  = className :: map (fun k => baseName +:+ pretty k) (seq counter fuel).
Proof.
  revert className counter. induction fuel as [|fuel IH];
    intros className counter; [reflexivity|].
  change (tried_names (S (S fuel)) baseName className counter)
    with (className
            :: tried_names (S fuel) baseName (baseName +:+ pretty counter)
                 (S counter)).
  rewrite IH. reflexivity.
Qed.

Lemma tried_names_NoDup (fuel : nat) (baseName : string) (counter : nat) :
  List.NoDup (tried_names fuel baseName baseName counter).
Proof.
  destruct fuel as [|fuel]; [constructor|].
  rewrite tried_names_numbered. constructor.
  - intros Hin. apply in_map_iff in Hin as (k & Hk & _).
    exact (numbered_ne_base _ _ Hk).
  - apply Finite.Injective_map_NoDup; [|apply seq_NoDup].
    intros j k H. apply String.app_inj in H.
    exact (pretty_nat_inj _ _ H).
Qed.

(** The name the loop returns is not among the existing classes. *)
Lemma unique_from_fresh (existing : list string) (baseName : string) :
  inb (unique_from (S (length existing)) existing baseName baseName 1)
      existing = false.
Proof.
  destruct (inb _ existing) eqn:E; [|reflexivity]. exfalso.
  apply unique_from_tried in E.
  pose proof (tried_names_NoDup (S (length existing)) baseName 1) as Hnd.
  assert (Hlen : (length (tried_names (S (length existing)) baseName
                           baseName 1) <= length existing)%nat).
  { apply List.NoDup_incl_length; [exact Hnd|].
    intros x Hx. exact (proj1 (List.Forall_forall _ _) E x Hx). }
  rewrite tried_names_numbered in Hlen. simpl in Hlen.
  rewrite length_map, length_seq in Hlen. lia.
Qed.

(** [generateUniqueClassName] returns a name that none of the classes it
    collected bears: the bound on the rounds of its loop is never reached. *)
Lemma generateUniqueClassName_fresh (fs : filesystem) (cwd baseName : string) :
  inb (generateUniqueClassName fs cwd baseName) (existingClasses fs cwd)
  = false.
Proof. apply unique_from_fresh. Qed.

(** ** Registration on the file system, once a migration exists *)

Lemma mergeWranglerConfig_written (fs : filesystem)
    (p className bindingName : string) (df : option string) (mi : option Z)
    (doc : WranglerConfig) (ms' : list Migration) :
  fs !! p = Some (ConfigDoc doc) ->
  merge_migrations mergeWranglerConfig_scope fs className
                   (migrations_at fs p) = Ok ms' ->
  exists doc',
    (mergeWranglerConfig fs p className bindingName df mi).1 !! p
    = Some (ConfigDoc doc')
    /\ migrations doc' = Some ms'.
Proof.
  intros Hdoc Hm. rewrite (migrations_at_doc _ _ _ Hdoc) in Hm.
  unfold mergeWranglerConfig, readConfig, merge_document.
  rewrite Hdoc. simpl. rewrite Hm. simpl.
  eexists. rewrite lookup_insert_eq. split; reflexivity.
Qed.

(** On a descriptor that has a migration and does not list the class, one
    merge lists the class in exactly one migration and a second merge leaves
    the migrations as the first one made them. *)
Lemma mergeWranglerConfig_twice (fs : filesystem)
    (p className bindingName : string) (df : option string) (mi : option Z)
    (doc : WranglerConfig) :
  fs !! p = Some (ConfigDoc doc) ->
  migrations_at fs p <> [] ->
  registrations className (migrations_at fs p) = 0%nat ->
  let fs1 := (mergeWranglerConfig fs p className bindingName df mi).1 in
  let fs2 := (mergeWranglerConfig fs1 p className bindingName df mi).1 in
  registrations className (migrations_at fs1 p) = 1%nat
  /\ migrations_at fs2 p = migrations_at fs1 p.
Proof.
  intros Hdoc Hne H0 fs1 fs2.
  destruct (last (migrations_at fs p)) as [latest|] eqn:Hl;
    [|apply last_None in Hl; contradiction].
  assert (Hm : merge_migrations mergeWranglerConfig_scope fs className
                 (migrations_at fs p)
               = Ok (batch_allocate className latest (migrations_at fs p))).
  { apply merge_migrations_batch; [|exact Hl].
    apply classExists_registrations. exact H0. }
  destruct (mergeWranglerConfig_ok fs p className bindingName df mi doc _
              Hdoc Hm) as [_ H1].
  destruct (mergeWranglerConfig_written fs p className bindingName df mi doc _
              Hdoc Hm) as (doc1 & Hdoc1 & _).
  fold fs1 in H1, Hdoc1.
  assert (Hone : registrations className (migrations_at fs1 p) = 1%nat).
  { rewrite H1. apply batch_allocate_registers_once; assumption. }
  split; [exact Hone|].
  subst fs2.
  apply (mergeWranglerConfig_ok fs1 p className bindingName df mi doc1 _ Hdoc1).
  apply merge_migrations_present.
  destruct (classExistsInMigrations className (migrations_at fs1 p)) eqn:E;
    [reflexivity|].
  apply classExists_registrations in E. rewrite E in Hone. discriminate Hone.
Qed.

(** ** The IMAGE pattern on a plain assignment *)

Lemma rest_of_line_plain (v : string) :
  forallb (fun c => negb (JsString.is_line_terminator c))
          (list_ascii_of_string v) = true ->
  EnvFile.rest_of_line v = v.
Proof.
  induction v as [|c v IH]; simpl; [reflexivity|].
  intros H. apply andb_true_iff in H as [Hc Hv].
  apply negb_true_iff in Hc. rewrite Hc, (IH Hv). reflexivity.
Qed.

(** A file that is the single line IMAGE=v, where v starts with a character
    that is not white space and has no line break, gives v. *)
Lemma imageMatch_assignment (c : ascii) (v : string) :
  JsString.is_space c = false ->
  forallb (fun c => negb (JsString.is_line_terminator c))
          (list_ascii_of_string (String c v)) = true ->
  EnvFile.imageMatch ("IMAGE=" +:+ String c v) = Some (String c v).
Proof.
  intros Hc Hv.
  assert (Hvalue : EnvFile.match_value (String c v) = Some (String c v)).
  { change (EnvFile.match_value (String c v))
      with (if JsString.is_space c
            then match EnvFile.match_value v with
                 | Some w => Some w
                 | None =>
                     if JsString.is_line_terminator c then None
                     else Some (EnvFile.rest_of_line (String c v))
                 end
            else Some (EnvFile.rest_of_line (String c v))).
    rewrite Hc, (rest_of_line_plain _ Hv). reflexivity. }
  change (EnvFile.imageMatch ("IMAGE=" +:+ String c v))
    with (match EnvFile.match_value (String c v) with
          | Some w => Some w
          | None => EnvFile.search false ("MAGE=" +:+ String c v)
          end).
  rewrite Hvalue. reflexivity.
Qed.

(** * Further properties *)

(** ** Detection *)

Lemma detect_arg_signal (ctx : Ctx) (st : detect_state) :
  detect_arg ctx st
  = if arg_signal ctx
    then {| ds_indicators :=
              ds_indicators st
              ++ ["Explicit image reference: " +:+ hd EmptyString (args ctx)];
            ds_confidence := 0.95;
            ds_image := head (args ctx);
            ds_dockerfilePath := ds_dockerfilePath st |}
    else st.
Proof.
  unfold detect_arg, arg_signal. destruct (args ctx) as [|arg rest];
    [reflexivity|]. destruct (looks_like_image arg); reflexivity.
Qed.

Lemma detect_env_signal (fs : filesystem) (ctx : Ctx) (st : detect_state) :
  fs !! path_join (cwd ctx) ".env" <> Some Dir ->
  detect_env fs ctx st
  = Ok (match env_signal fs ctx with
        | Some group1 =>
            {| ds_indicators :=
                 ds_indicators st
                 ++ ["Found IMAGE in .env: " +:+ EnvFile.strip_quotes group1];
               ds_confidence := Qmax (ds_confidence st) 0.8;
               ds_image := Some (EnvFile.strip_quotes group1);
               ds_dockerfilePath := ds_dockerfilePath st |}
        | None => st
        end).
Proof.
  intros Hdir. unfold detect_env, env_signal, readFile, pathExists.
  destruct (fs !! path_join (cwd ctx) ".env") as [[| s | | | |]|] eqn:E;
    try reflexivity.
  - contradiction.
  - cbn. destruct (EnvFile.imageMatch s); reflexivity.
Qed.

(** X1. [detect] returns nothing exactly when none of its six signals fires
    (as long as the environment file, if any, can be read). *)
Theorem detect_none_iff (this : Detector) (fs : filesystem) (ctx : Ctx) :
  fs !! path_join (cwd ctx) ".env" <> Some Dir ->
  (ContainerDetector_detect this fs ctx = Ok None <-> no_signal fs ctx)
  /\ (~ no_signal fs ctx ->
      exists d, ContainerDetector_detect this fs ctx = Ok (Some d)).
Proof.
  intros Hdir. unfold ContainerDetector_detect, no_signal.
  rewrite detect_arg_signal, (detect_env_signal _ _ _ Hdir).
  unfold detect_dockerfile, detect_compose, detect_docker_dir,
    detect_manifest.
  fold dockerfile_names. fold compose_names.
  destruct (arg_signal ctx);
    destruct (first_existing fs (cwd ctx) dockerfile_names);
    destruct (first_existing fs (cwd ctx) compose_names);
    destruct (pathExists fs (path_join (cwd ctx) ".docker"));
    destruct (env_signal fs ctx);
    destruct (pathExists fs (path_join (cwd ctx) "manifest.json"));
    cbn [mbind completion_bind ds_confidence ds_indicators ds_image
           ds_dockerfilePath];
    (split;
     [split;
      [intros H; vm_compute in H; discriminate H
      |intros (H1 & H2 & H3 & H4 & H5 & H6); discriminate]
     |intros _; eexists; vm_compute; reflexivity])
    || (split; [split; [intros _; repeat split|reflexivity]
               |intros H; exfalso; apply H; repeat split]).
Qed.

Lemma detect_none_iff_witness :
  ContainerDetector_detect new_ContainerDetector
    (<["/app/README.md" := Text "hello"]> ∅)
    {| cwd := "/app"; args := ["README.md"]; config := no_overrides |}
  = Ok None.
Proof.
  apply (detect_none_iff new_ContainerDetector).
  - vm_compute. discriminate.
  - vm_compute. repeat split.
Defined.

(** X2. Whatever [detect] returns carries one of the six fixed confidences,
    hence one between 0.6 and 0.95, at least one indicator, and a build file
    path exactly when one of the accepted build files exists. *)
Theorem detect_result_shape (this : Detector) (fs : filesystem) (ctx : Ctx)
    (d : Detection) :
  ContainerDetector_detect this fs ctx = Ok (Some d) ->
  In (confidence d) [0.6; 0.7; 0.8; 0.85; 0.9; 0.95]%Q
  /\ (0.6 <= confidence d <= 0.95)%Q
  /\ indicators d <> []
  /\ detector d = this
  /\ dockerfilePath (metadata d)
     = path_join (cwd ctx) <$> first_existing fs (cwd ctx) dockerfile_names.
Proof.
  unfold ContainerDetector_detect. rewrite detect_arg_signal.
  unfold detect_dockerfile, detect_compose, detect_docker_dir,
    detect_manifest, detect_env.
  fold dockerfile_names. fold compose_names.
  destruct (arg_signal ctx);
    destruct (first_existing fs (cwd ctx) dockerfile_names);
    destruct (first_existing fs (cwd ctx) compose_names);
    destruct (pathExists fs (path_join (cwd ctx) ".docker"));
    (destruct (pathExists fs (path_join (cwd ctx) ".env"));
     [destruct (readFile fs (path_join (cwd ctx) ".env")) as [envContent|e];
      [cbn [mbind completion_bind];
       destruct (EnvFile.imageMatch envContent)
      |cbn [mbind completion_bind]; intros H; discriminate H]
     |cbn [mbind completion_bind]]);
    destruct (pathExists fs (path_join (cwd ctx) "manifest.json"));
    cbn [ds_confidence ds_indicators ds_image ds_dockerfilePath];
    intros H; vm_compute in H; try discriminate H;
    injection H as <-; cbn [confidence indicators detector metadata
                             dockerfilePath fmap option_fmap option_map];
    (split; [simpl; tauto|]);
    (split; [split; vm_compute; discriminate|]);
    (split; [apply app_cons_not_nil || discriminate|]);
    split; reflexivity.
Qed.

Lemma detect_result_shape_witness :
  let d := {| detector := new_ContainerDetector; confidence := 0.95;
              indicators := ["Explicit image reference: nginx:alpine"];
              metadata := {| image := Some "nginx:alpine";
                             dockerfilePath := None |} |} in
  (0.6 <= confidence d <= 0.95)%Q.
Proof.
  intros d.
  apply (detect_result_shape new_ContainerDetector ∅
           {| cwd := "/app"; args := ["nginx:alpine"];
              config := no_overrides |} d).
  vm_compute. reflexivity.
Defined.

(** ** Resolution *)

Lemma sort_results_nil (results : list Detection) :
  sort_results results = [] <-> results = [].
Proof.
  split; [|intros ->; reflexivity].
  destruct results as [|a l]; [reflexivity|]. intros H.
  assert (Hin : In a (sort_results (a :: l)))
    by (apply sort_results_In; left; reflexivity).
  rewrite H in Hin. destruct Hin.
Qed.

(** X3. Resolution returns nothing exactly when no detector reported.  With
    results it ends without the list prompt on the most confident one,
    unless the two most confident are less than 0.1 apart and prompting is
    allowed; then it offers all results, ranked, and returns the chosen
    one.  The gap is the difference of two doubles, compared with the double
    0.1: the confidences 0.9 and 0.8 are less than 0.1 apart in this sense,
    0.8 and 0.7 are not. *)
Theorem resolve_cases (results : list Detection) (opts : Opts) :
  (resolve results opts = Done None <-> results = [])
  /\ (forall r0 rest,
         sort_results results = r0 :: rest ->
         near_tie results && negb (opt_noPrompt opts) = false ->
         resolve results opts = Done (Some r0)
         /\ In r0 results
         /\ forall r, In r results -> (confidence r <= confidence r0)%Q)
  /\ (near_tie results && negb (opt_noPrompt opts) = true ->
      forall o : oracle,
        run o (resolve results opts)
        = Some (answer_select o
                  "Multiple project types detected. Which would you like to use?"
                  (map choice_of (sort_results results)))).
Proof.
  unfold resolve, near_tie. split; [|split].
  - rewrite <- sort_results_nil.
    destruct (sort_results results) as [|r0 [|r1 rest]]; split; intros H;
      try discriminate H; try reflexivity.
    destruct (gap_below_threshold (confidence r0) (confidence r1)),
      (opt_noPrompt opts); discriminate H.
  - intros r0 rest Hs Hq. split; [|exact (sort_results_top _ _ _ Hs)].
    rewrite Hs in Hq |- *. destruct rest as [|r1 rest]; [reflexivity|].
    destruct (gap_below_threshold (confidence r0) (confidence r1)),
      (opt_noPrompt opts); try reflexivity. discriminate Hq.
  - intros Hq o.
    destruct (sort_results results) as [|r0 [|r1 rest]];
      try discriminate Hq.
    destruct (gap_below_threshold (confidence r0) (confidence r1)),
      (opt_noPrompt opts); try discriminate Hq. reflexivity.
Qed.

Lemma resolve_cases_witness :
  let result c :=
    {| detector := new_ContainerDetector; confidence := c; indicators := [];
       metadata := {| image := None; dockerfilePath := None |} |} in
  run refusing (resolve [result 0.8%Q; result 0.9%Q] default_opts)
  = Some (result 0.9%Q)
  /\ resolve [result 0.8%Q; result 0.9%Q] default_opts
     <> Done (Some (result 0.9%Q))
  /\ resolve [result 0.7%Q; result 0.8%Q] default_opts
     = Done (Some (result 0.8%Q)).
Proof.
  intros result.
  destruct (resolve_cases [result 0.8%Q; result 0.9%Q] default_opts)
    as (_ & _ & Hprompt).
  destruct (resolve_cases [result 0.7%Q; result 0.8%Q] default_opts)
    as (_ & Hplain & _).
  split; [|split].
  - rewrite Hprompt by (vm_compute; reflexivity). vm_compute. reflexivity.
  - vm_compute. discriminate.
  - apply (Hplain (result 0.8%Q) [result 0.7%Q]); vm_compute; reflexivity.
Defined.

Lemma Qltb_not_eq (a b c : Q) :
  Qltb a b = true -> Qeq_bool a c = true -> Qeq_bool b c = false.
Proof.
  unfold Qltb. intros Hlt Ha. apply negb_true_iff in Hlt.
  destruct (Qeq_bool b c) eqn:Hb; [|reflexivity].
  apply Qeq_bool_iff in Ha, Hb.
  assert (Hle : (b <= a)%Q) by (rewrite Ha, Hb; apply Qle_refl).
  apply Qle_bool_iff in Hle. congruence.
Qed.

Lemma insert_sorted_of_confidence (c : Q) (a : Detection)
    (l : list Detection) :
  of_confidence c (insert_sorted a l) = of_confidence c (a :: l).
Proof.
  unfold of_confidence. induction l as [|b l IH]; [reflexivity|].
  simpl. destruct (Qltb (confidence a) (confidence b)) eqn:E; [|reflexivity].
  simpl. rewrite IH. simpl.
  destruct (Qeq_bool (confidence a) c) eqn:Ha; [|reflexivity].
  rewrite (Qltb_not_eq _ _ _ E Ha). reflexivity.
Qed.

Lemma insert_sorted_Permutation (a : Detection) (l : list Detection) :
  Permutation (a :: l) (insert_sorted a l).
Proof.
  induction l as [|b l IH]; simpl; [reflexivity|].
  destruct (Qltb (confidence a) (confidence b)); [|reflexivity].
  rewrite <- IH. apply perm_swap.
Qed.

Lemma insert_sorted_front (a : Detection) (l : list Detection) :
  Forall (fun x => (confidence x <= confidence a)%Q) l ->
  insert_sorted a l = a :: l.
Proof.
  intros H. destruct l as [|b l]; [reflexivity|]. simpl.
  apply Forall_inv in H. apply Qle_bool_iff in H.
  unfold Qltb. rewrite H. reflexivity.
Qed.

(** X4. Sorting the results rearranges them, ranks them from the most
    confident down, and is stable: results of equal confidence keep the
    order in which the detectors reported them, and a list that is already
    ranked is left as it is. *)
Theorem sort_results_stable (results : list Detection) :
  Permutation results (sort_results results)
  /\ ranked (sort_results results)
  /\ (forall c, of_confidence c (sort_results results)
                = of_confidence c results)
  /\ (ranked results -> sort_results results = results).
Proof.
  split; [|split; [apply sort_results_ranked|split]].
  - unfold sort_results. induction results as [|a l IH]; simpl;
      [reflexivity|].
    rewrite <- insert_sorted_Permutation. constructor. exact IH.
  - intros c. unfold sort_results.
    induction results as [|a l IH]; [reflexivity|].
    simpl. rewrite insert_sorted_of_confidence.
    unfold of_confidence in *. simpl. rewrite IH. reflexivity.
  - unfold sort_results, ranked.
    induction results as [|a l IH]; intros Hr; [reflexivity|].
    apply StronglySorted_inv in Hr as [Hl Ha].
    simpl. rewrite (IH Hl). apply insert_sorted_front.
    apply Forall_forall. intros x Hx.
    exact (proj1 (List.Forall_forall _ _) Ha x (proj1 (list_elem_of_In _ _) Hx)).
Qed.

Lemma sort_results_stable_witness :
  let result c i :=
    {| detector := new_ContainerDetector; confidence := c; indicators := [i];
       metadata := {| image := None; dockerfilePath := None |} |} in
  sort_results [result 0.9%Q "a"; result 0.9%Q "b"; result 0.7%Q "c"]
  = [result 0.9%Q "a"; result 0.9%Q "b"; result 0.7%Q "c"].
Proof.
  intros result.
  apply (proj2 (proj2 (proj2 (sort_results_stable _)))).
  repeat constructor; vm_compute; discriminate.
Defined.

(** ** The action as a whole *)

Lemma never_selects_bind {A B} (k : A -> prog B) (p : prog A) :
  never_selects p -> (forall a, never_selects (k a)) ->
  never_selects (prog_bind k p).
Proof.
  intros Hp Hk. induction p as [a|m f IH|m cs f IH|c a f IH]; simpl in *;
    auto.
Qed.

Lemma never_selects_scaffold (this : Detector) (today : string)
    (fs : filesystem) (ctx : Ctx) (opts : Opts) (d : Detection) :
  never_selects (scaffold this today fs ctx opts d).
Proof.
  unfold scaffold, ContainerDetector_scaffold.
  destruct (d_class this); [exact I|].
  match goal with |- never_selects (if ?b then _ else _) => destruct b end;
    [|exact I].
  intros [|]; exact I.
Qed.

Lemma never_selects_deploy (this : Detector) : never_selects (deploy this).
Proof.
  unfold deploy, ContainerDetector_deploy. destruct (d_class this);
    [exact I|].
  intros code. simpl. destruct (negb (code =? 0)%Z); simpl; [exact I|].
  intros typesCode deployCode. exact I.
Qed.

Lemma never_selects_run_detected (today : string) (fs : filesystem)
    (ctx : Ctx) (opts : Opts) (result : Detection) :
  never_selects (run_detected today fs ctx opts result).
Proof.
  unfold run_detected.
  destruct (opt_detect opts); [exact I|].
  destruct (opt_plan opts); [exact I|].
  apply never_selects_bind; [apply never_selects_scaffold|].
  intros [fs' [[r|]|e]]; try exact I.
  destruct (opt_ship opts); [|exact I].
  apply never_selects_bind; [apply never_selects_deploy|].
  intros [[|]|e]; exact I.
Qed.

(** X5. With the one detector the action registers there is never more than
    one result to rank: no run of the command opens the list prompt. *)
Theorem main_never_selects (today d : string) (fs : filesystem)
    (target : option string) (opts0 : Opts) :
  never_selects (main today d fs target opts0).
Proof.
  unfold main. cbv zeta.
  destruct (forcedDetector _ _) as [forced|].
  - destruct (detect forced fs _ _) as [[result|]|e]; try exact I.
    apply never_selects_run_detected.
  - unfold autoDetect, collect.
    destruct (detect new_ContainerDetector fs _ _) as [[result|]|e];
      try exact I.
    apply never_selects_run_detected.
Qed.

(** X6. The detection-only and the plan mode are dry runs: the action is
    over without asking or spawning anything, no file is touched, and the
    exit code is 0 exactly when detection found the project type. *)
Theorem dry_run_writes_nothing (today d : string) (fs : filesystem)
    (target : option string) (opts0 : Opts) :
  let ctx := action_ctx d fs target in
  let opts := action_opts d fs target opts0 in
  opt_detect opts || opt_plan opts = true ->
  exists code,
    main today d fs target opts0 = Done {| files := fs; exit_code := code |}
    /\ (code = EXIT_CODES.SUCCESS <->
        exists result,
          detect new_ContainerDetector fs ctx opts = Ok (Some result)).
Proof.
  intros ctx opts Hdry. unfold main. cbv zeta.
  change (loadContext fs d (target_args target)) with ctx.
  change (assign opts0 (config ctx)) with opts.
  assert (Hrun : forall result,
             run_detected today fs ctx opts result
             = Done {| files := fs; exit_code := EXIT_CODES.SUCCESS |}).
  { intros result. unfold run_detected.
    destruct (opt_detect opts); [reflexivity|].
    destruct (opt_plan opts); [reflexivity|discriminate Hdry]. }
  destruct (forcedDetector [new_ContainerDetector] opts) as [forced|] eqn:Hf.
  - apply forcedDetector_container in Hf as ->.
    destruct (detect new_ContainerDetector fs ctx opts) as [[result|]|e].
    + eexists. split; [apply Hrun|]. split; [eauto|reflexivity].
    + eexists. split; [reflexivity|].
      split; [discriminate|intros [r Hr]; discriminate Hr].
    + eexists. split; [reflexivity|].
      split; [discriminate|intros [r Hr]; discriminate Hr].
  - unfold autoDetect, collect.
    destruct (detect new_ContainerDetector fs ctx opts) as [[result|]|e].
    + eexists. split; [apply Hrun|]. split; [eauto|reflexivity].
    + eexists. split; [reflexivity|].
      split; [discriminate|intros [r Hr]; discriminate Hr].
    + eexists. split; [reflexivity|].
      split; [discriminate|intros [r Hr]; discriminate Hr].
Qed.

Lemma dry_run_writes_nothing_witness :
  exists code,
    main "2025-01-01" "/app" (<["/app/Dockerfile" := Text "FROM scratch"]> ∅)
         None
         {| opt_ship := true; opt_plan := true; opt_detect := false;
            opt_type := None; opt_name := None; opt_class := None;
            opt_maxInstances := Some "10"; opt_migrationTag := None;
            opt_noPrompt := false; opt_force := false; opt_verbose := false |}
    = Done {| files := <["/app/Dockerfile" := Text "FROM scratch"]> ∅;
              exit_code := code |}.
Proof.
  destruct (dry_run_writes_nothing "2025-01-01" "/app"
              (<["/app/Dockerfile" := Text "FROM scratch"]> ∅) None
              {| opt_ship := true; opt_plan := true; opt_detect := false;
                 opt_type := None; opt_name := None; opt_class := None;
                 opt_maxInstances := Some "10"; opt_migrationTag := None;
                 opt_noPrompt := false; opt_force := false;
                 opt_verbose := false |}) as (code & H & _).
  - vm_compute. reflexivity.
  - exists code. exact H.
Defined.

(** X7. Scaffolding asks for confirmation exactly when a source stub or a
    descriptor exists and neither force nor no-prompt is set; it asks before
    anything is written, and a refusal leaves every file as it was, returns
    nothing, and ends the command with the config code 65. *)
Theorem confirmation_gate (today d : string) (fs : filesystem)
    (target : option string) (opts0 : Opts) (o : oracle)
    (result : Detection) :
  let ctx := action_ctx d fs target in
  let opts := action_opts d fs target opts0 in
  (must_confirm fs ctx opts = false ->
   finished (ContainerDetector_scaffold today fs ctx opts result))
  /\ (must_confirm fs ctx opts = true ->
      exists k,
        ContainerDetector_scaffold today fs ctx opts result
        = Confirm "This will modify existing project files. Continue?" k
        /\ k false = Done (fs, Ok None))
  /\ (must_confirm fs ctx opts = true ->
      detect new_ContainerDetector fs ctx opts = Ok (Some result) ->
      detector result = new_ContainerDetector ->
      opt_detect opts || opt_plan opts = false ->
      answer_confirm o "This will modify existing project files. Continue?"
      = false ->
      run o (main today d fs target opts0)
      = {| files := fs; exit_code := EXIT_CODES.CONFIG |}).
Proof.
  intros ctx opts.
  split; [|split].
  - intros H. unfold ContainerDetector_scaffold.
    unfold must_confirm, existing_project in H. rewrite H. eexists.
    reflexivity.
  - intros H. unfold ContainerDetector_scaffold.
    unfold must_confirm, existing_project in H. rewrite H. eexists.
    split; reflexivity.
  - intros H Hd Hdet Hdry Hno.
    rewrite main_outcome. fold ctx opts. rewrite Hd.
    unfold detected_outcome.
    apply orb_false_iff in Hdry as [-> ->].
    rewrite Hdet. unfold scaffold. cbn [d_class new_ContainerDetector].
    unfold ContainerDetector_scaffold.
    unfold must_confirm, existing_project in H. rewrite H.
    cbn [run]. rewrite Hno. reflexivity.
Qed.

Lemma confirmation_gate_witness :
  let fs : filesystem :=
    <["/app/wrangler.jsonc" := ConfigDoc empty_document]> ∅ in
  run refusing (main "2025-01-01" "/app" fs (Some "nginx:alpine") default_opts)
  = {| files := fs; exit_code := EXIT_CODES.CONFIG |}.
Proof.
  intros fs.
  apply (proj2 (proj2 (confirmation_gate "2025-01-01" "/app" fs
                         (Some "nginx:alpine") default_opts refusing
                         {| detector := new_ContainerDetector;
                            confidence := 0.95;
                            indicators :=
                              ["Explicit image reference: nginx:alpine"];
                            metadata := {| image := Some "nginx:alpine";
                                           dockerfilePath := None |} |})));
    vm_compute; reflexivity.
Defined.

(** X8. The deploy sequence succeeds exactly when the dependency install and
    the final deploy both exit with 0; the exit code of the type generation
    in between is not looked at, and after a failed install nothing else is
    spawned. *)
Theorem deploy_sequence (o : oracle) :
  (run o ContainerDetector_deploy = true <->
   answer_spawn o "npm" ["install"] = 0%Z
   /\ answer_spawn o "npx" ["wrangler"; "deploy"] = 0%Z)
  /\ (forall k, ContainerDetector_deploy = Spawn "npm" ["install"] k
                -> forall code, code <> 0%Z -> k code = Done false).
Proof.
  split.
  - unfold ContainerDetector_deploy. cbn [run].
    destruct (Z.eqb_spec (answer_spawn o "npm" ["install"]) 0) as [E|E];
      cbn [negb run].
    + rewrite Z.eqb_eq. tauto.
    + split; [discriminate|]. intros [H _]. contradiction.
  - intros k Hk code Hcode. unfold ContainerDetector_deploy in Hk.
    injection Hk as <-.
    destruct (Z.eqb_spec code 0); [contradiction|reflexivity].
Qed.

Lemma deploy_sequence_witness :
  run {| answer_confirm := fun _ => true;
         answer_select := fun _ => first_choice;
         answer_spawn := fun c a =>
           if String.eqb (hd EmptyString (tl a)) "types" then 1%Z else 0%Z |}
      ContainerDetector_deploy = true.
Proof.
  apply (proj1 (deploy_sequence _)). split; reflexivity.
Defined.

(** X9. An environment file that is a directory makes detection throw, and
    the command then ends with the config code 65 without writing
    anything. *)
Theorem unreadable_env_is_config_error (today d : string) (fs : filesystem)
    (target : option string) (opts0 : Opts) (o : oracle) :
  fs !! path_join d ".env" = Some Dir ->
  (exists e, detect new_ContainerDetector fs (action_ctx d fs target)
               (action_opts d fs target opts0) = Throw e)
  /\ run o (main today d fs target opts0)
     = {| files := fs; exit_code := EXIT_CODES.CONFIG |}.
Proof.
  intros Hdir.
  assert (Hthrow : exists e,
             detect new_ContainerDetector fs (action_ctx d fs target)
               (action_opts d fs target opts0) = Throw e).
  { unfold detect. cbn [d_class new_ContainerDetector].
    unfold ContainerDetector_detect, detect_env, readFile.
    change (cwd (action_ctx d fs target)) with d.
    rewrite (pathExists_Some _ _ _ Hdir), Hdir. eexists. reflexivity. }
  split; [exact Hthrow|]. destruct Hthrow as [e He].
  rewrite main_outcome, He. reflexivity.
Qed.

Lemma unreadable_env_is_config_error_witness :
  let fs : filesystem := <["/app/.env" := Dir]> ∅ in
  run refusing (main "2025-01-01" "/app" fs (Some "nginx:alpine") default_opts)
  = {| files := fs; exit_code := EXIT_CODES.CONFIG |}.
Proof.
  intros fs.
  apply (unreadable_env_is_config_error "2025-01-01" "/app" fs).
  vm_compute. reflexivity.
Defined.

(** ** The merge of a descriptor: containers, bindings, flags *)

Lemma upsert_shape {A} (p : A -> bool) (x : A) (l : list A) :
  (exists l1 y l2,
      l = l1 ++ y :: l2 /\ p y = true
      /\ List.Forall (fun z => p z = false) l1
      /\ upsert p x l = l1 ++ x :: l2)
  \/ (List.Forall (fun z => p z = false) l /\ upsert p x l = l ++ [x]).
Proof.
  unfold upsert. induction l as [|a l IH]; simpl.
  - right. split; [constructor|reflexivity].
  - destruct (p a) eqn:Ha.
    + left. exists [], a, l. repeat split; auto.
    + destruct IH as [(l1 & y & l2 & -> & Hy & Hl1 & Hu)|[Hall Hu]].
      * left. exists (a :: l1), y, l2.
        split; [reflexivity|]. split; [exact Hy|].
        split; [constructor; assumption|].
        destruct (findIndex p (l1 ++ y :: l2)) as [i|]; simpl in *;
          congruence.
      * right. split; [constructor; assumption|].
        destruct (findIndex p l) as [i|]; simpl in *; congruence.
Qed.

Lemma findIndex_skip {A} (p : A -> bool) (l1 l2 : list A) (y : A) :
  List.Forall (fun z => p z = false) l1 -> p y = true ->
  findIndex p (l1 ++ y :: l2) = Some (length l1).
Proof.
  intros Hl1 Hy. induction Hl1 as [|a l1 Ha _ IH]; simpl.
  - rewrite Hy. reflexivity.
  - rewrite Ha, IH. reflexivity.
Qed.

Lemma upsert_fixed {A} (p : A -> bool) (x : A) (l1 l2 : list A) :
  List.Forall (fun z => p z = false) l1 -> p x = true ->
  upsert p x (l1 ++ x :: l2) = l1 ++ x :: l2.
Proof.
  intros Hl1 Hx. unfold upsert. rewrite (findIndex_skip _ _ _ _ Hl1 Hx).
  replace (length l1) with (length l1 + 0)%nat by lia.
  rewrite insert_app_r. reflexivity.
Qed.

Lemma upsert_twice {A} (p : A -> bool) (x : A) (l : list A) :
  p x = true -> upsert p x (upsert p x l) = upsert p x l.
Proof.
  intros Hx.
  destruct (upsert_shape p x l)
    as [(l1 & y & l2 & _ & _ & Hl1 & ->)|[Hall ->]].
  - apply upsert_fixed; assumption.
  - change (l ++ [x]) with (l ++ x :: []). apply upsert_fixed; assumption.
Qed.

Lemma filter_none {A} (p : A -> bool) (l : list A) :
  List.Forall (fun z => p z = false) l ->
  List.filter (fun z => negb (p z)) l = l.
Proof.
  intros H. induction H as [|a l Ha _ IH]; simpl; [reflexivity|].
  rewrite Ha, IH. reflexivity.
Qed.

Lemma upsert_others {A} (p : A -> bool) (x : A) (l : list A) :
  p x = true ->
  List.filter (fun z => negb (p z)) (upsert p x l)
  = List.filter (fun z => negb (p z)) l.
Proof.
  intros Hx.
  destruct (upsert_shape p x l)
    as [(l1 & y & l2 & -> & Hy & _ & ->)|[_ ->]];
    rewrite !List.filter_app; simpl; rewrite Hx, ?Hy; simpl;
    rewrite ?app_nil_r; reflexivity.
Qed.

Lemma upsert_find {A} (p : A -> bool) (x : A) (l : list A) :
  p x = true -> List.find p (upsert p x l) = Some x.
Proof.
  intros Hx.
  assert (Hfind : forall l1 l2, List.Forall (fun z => p z = false) l1 ->
                                List.find p (l1 ++ x :: l2) = Some x).
  { intros l1 l2 H. induction H as [|a l1 Ha _ IH]; simpl;
      [rewrite Hx|rewrite Ha]; auto. }
  destruct (upsert_shape p x l)
    as [(l1 & y & l2 & _ & _ & Hl1 & ->)|[Hall ->]]; auto.
Qed.

Lemma upsert_length {A} (p : A -> bool) (x : A) (l : list A) :
  length (upsert p x l)
  = (length l + if existsb p l then 0 else 1)%nat.
Proof.
  destruct (upsert_shape p x l)
    as [(l1 & y & l2 & -> & Hy & _ & ->)|[Hall ->]].
  - rewrite existsb_app. simpl. rewrite Hy, orb_true_r, !length_app. simpl.
    lia.
  - assert (E : existsb p l = false).
    { induction Hall as [|a l Ha _ IH]; simpl; [reflexivity|].
      rewrite Ha, IH. reflexivity. }
    rewrite E, length_app. reflexivity.
Qed.

Lemma merge_document_unfold (fs : filesystem) (doc : WranglerConfig)
    (className bindingName : string) (df : option string) (mi : option Z) :
  merge_document fs doc className bindingName df mi
  = match merge_migrations mergeWranglerConfig_scope fs className
            (migrations_of doc) with
    | Ok ms' => Ok (merged_document doc className bindingName df mi ms')
    | Throw e => Throw e
    end.
Proof. reflexivity. Qed.

Lemma merge_document_parts (fs : filesystem) (doc doc' : WranglerConfig)
    (className bindingName : string) (df : option string) (mi : option Z) :
  merge_document fs doc className bindingName df mi = Ok doc' ->
  exists ms',
    merge_migrations mergeWranglerConfig_scope fs className
                     (migrations_of doc) = Ok ms'
    /\ doc' = merged_document doc className bindingName df mi ms'.
Proof.
  rewrite merge_document_unfold.
  destruct (merge_migrations _ _ _ _) as [ms'|e]; [|discriminate].
  intros H. injection H as <-. exists ms'. split; reflexivity.
Qed.

Lemma with_baseline_flag_twice (flags : list string) :
  with_baseline_flag (with_baseline_flag flags) = with_baseline_flag flags.
Proof.
  unfold with_baseline_flag. destruct (inb "nodejs_compat" flags) eqn:E.
  - rewrite E. reflexivity.
  - rewrite inb_refl. reflexivity.
Qed.

Lemma same_container_new (df : option string) (className : string)
    (mi : option Z) :
  same_container df className
    {| c_class_name := className; c_image := df; c_max_instances := mi;
       c_instance_type := "basic" |} = true.
Proof.
  unfold same_container. cbn.
  rewrite bool_decide_eq_true_2 by reflexivity. reflexivity.
Qed.

Lemma merged_document_twice (doc : WranglerConfig)
    (className bindingName : string) (df : option string) (mi : option Z)
    (ms' : list Migration) :
  merged_document (merged_document doc className bindingName df mi ms')
                  className bindingName df mi ms'
  = merged_document doc className bindingName df mi ms'.
Proof.
  unfold merged_document at 1.
  change (containers_of (merged_document doc className bindingName df mi ms'))
    with (upsert (same_container df className)
                 {| c_class_name := className; c_image := df;
                    c_max_instances := mi; c_instance_type := "basic" |}
                 (containers_of doc)).
  change (bindings_of (merged_document doc className bindingName df mi ms'))
    with (upsert (binds className)
                 {| b_class_name := className; b_name := bindingName |}
                 (bindings_of doc)).
  change (flags_of (merged_document doc className bindingName df mi ms'))
    with (with_baseline_flag (flags_of doc)).
  rewrite with_baseline_flag_twice.
  rewrite !upsert_twice;
    [reflexivity|apply String.eqb_refl|apply same_container_new].
Qed.

Lemma merge_migrations_registered (fs : filesystem) (className : string)
    (ms ms' : list Migration) :
  merge_migrations mergeWranglerConfig_scope fs className ms = Ok ms' ->
  classExistsInMigrations className ms' = true.
Proof.
  intros Hm.
  destruct (classExistsInMigrations className ms) eqn:E.
  - rewrite merge_migrations_present in Hm by exact E. congruence.
  - assert (Hne : ms <> []) by (intros ->; discriminate Hm).
    apply classExists_registrations in E.
    pose proof (merge_registers_once fs className ms ms' Hne E Hm) as H1.
    destruct (classExistsInMigrations className ms') eqn:E'; [reflexivity|].
    apply classExists_registrations in E'. congruence.
Qed.

(** X10. The merge is idempotent: repeating a merge that went through, with
    the same arguments, returns normally and leaves every file, the
    descriptor included, exactly as the first merge left it. *)
Theorem merge_is_idempotent (fs : filesystem)
    (p className bindingName : string) (df : option string) (mi : option Z) :
  (mergeWranglerConfig fs p className bindingName df mi).2 = Ok tt ->
  let fs1 := (mergeWranglerConfig fs p className bindingName df mi).1 in
  mergeWranglerConfig fs1 p className bindingName df mi = (fs1, Ok tt).
Proof.
  unfold mergeWranglerConfig at 1 2, readConfig.
  destruct (fs !! p) as [[| | doc | | |]|]; try discriminate.
  cbn [mbind completion_bind].
  destruct (merge_document fs doc className bindingName df mi)
    as [doc1|e] eqn:Hd; [|discriminate].
  intros _. cbn [fst].
  assert (Hagain : merge_document (<[p := ConfigDoc doc1]> fs) doc1 className
                     bindingName df mi = Ok doc1).
  { apply merge_document_parts in Hd as (ms' & Hm & ->).
    apply merge_migrations_registered in Hm as Hreg.
    rewrite merge_document_unfold.
    change (migrations_of
              (merged_document doc className bindingName df mi ms'))
      with ms'.
    rewrite (merge_migrations_present _ _ _ _ Hreg).
    rewrite merged_document_twice. reflexivity. }
  unfold mergeWranglerConfig, readConfig. rewrite lookup_insert_eq.
  cbn [mbind completion_bind]. rewrite Hagain.
  rewrite insert_insert_eq. reflexivity.
Qed.

Lemma merge_is_idempotent_witness :
  let fs : filesystem :=
    <["/app/wrangler.jsonc" :=
        ConfigDoc (document_with
                     [ {| new_sqlite_classes := Some ["A"]; tag := "v1" |} ])]>
      ∅ in
  let fs1 := (mergeWranglerConfig fs "/app/wrangler.jsonc" "B" "B_CONTAINER"
                (Some "./Dockerfile") (Some 10%Z)).1 in
  mergeWranglerConfig fs1 "/app/wrangler.jsonc" "B" "B_CONTAINER"
                      (Some "./Dockerfile") (Some 10%Z) = (fs1, Ok tt).
Proof.
  intros fs.
  apply (merge_is_idempotent fs "/app/wrangler.jsonc" "B" "B_CONTAINER"
           (Some "./Dockerfile") (Some 10%Z)).
  vm_compute. reflexivity.
Defined.

(** X11. After a merge the class is bound under the given binding name, and
    that entry is the first one of its class; the bindings of other classes
    are as before; the list of bound class names is as before, with the
    class added at the end when it was not bound, so bindings that were
    unique stay unique. *)
Theorem merge_binds_class (fs : filesystem) (doc doc' : WranglerConfig)
    (className bindingName : string) (df : option string) (mi : option Z) :
  merge_document fs doc className bindingName df mi = Ok doc' ->
  List.find (binds className) (bindings_of doc')
  = Some {| b_class_name := className; b_name := bindingName |}
  /\ List.filter (fun b => negb (binds className b)) (bindings_of doc')
     = List.filter (fun b => negb (binds className b)) (bindings_of doc)
  /\ map b_class_name (bindings_of doc')
     = (if existsb (binds className) (bindings_of doc)
        then map b_class_name (bindings_of doc)
        else map b_class_name (bindings_of doc) ++ [className])
  /\ (List.NoDup (map b_class_name (bindings_of doc)) ->
      List.NoDup (map b_class_name (bindings_of doc'))).
Proof.
  intros Hd. apply merge_document_parts in Hd as (ms' & _ & ->).
  change (bindings_of (merged_document doc className bindingName df mi ms'))
    with (upsert (binds className)
                 {| b_class_name := className; b_name := bindingName |}
                 (bindings_of doc)).
  set (new := {| b_class_name := className; b_name := bindingName |}).
  assert (Hnew : binds className new = true) by apply String.eqb_refl.
  assert (Hmap : map b_class_name (upsert (binds className) new
                                          (bindings_of doc))
                 = if existsb (binds className) (bindings_of doc)
                   then map b_class_name (bindings_of doc)
                   else map b_class_name (bindings_of doc) ++ [className]).
  { destruct (upsert_shape (binds className) new (bindings_of doc))
      as [(l1 & y & l2 & -> & Hy & _ & ->)|[Hall ->]].
    - rewrite existsb_app. simpl. rewrite Hy, orb_true_r.
      rewrite !map_app. simpl. apply String.eqb_eq in Hy. rewrite Hy.
      reflexivity.
    - assert (E : existsb (binds className) (bindings_of doc) = false).
      { induction Hall as [|a l Ha _ IH]; simpl; [reflexivity|].
        rewrite Ha, IH. reflexivity. }
      rewrite E, map_app. reflexivity. }
  split; [apply upsert_find; exact Hnew|].
  split; [apply upsert_others; exact Hnew|].
  split; [exact Hmap|].
  intros Hnd. rewrite Hmap.
  destruct (existsb (binds className) (bindings_of doc)) eqn:E;
    [exact Hnd|].
  apply NoDup_ListNoDup, NoDup_app. split; [apply NoDup_ListNoDup, Hnd|].
  split; [|apply NoDup_singleton].
  intros x Hx Hx'. apply list_elem_of_singleton in Hx'. subst x.
  apply list_elem_of_In, in_map_iff in Hx as (b & Hb & Hin).
  assert (existsb (binds className) (bindings_of doc) = true).
  { apply existsb_exists. exists b. split; [exact Hin|].
    apply String.eqb_eq. exact Hb. }
  congruence.
Qed.

(** X12. After a merge the first container entry that has the given image
    or the class name is the new entry (class, image, instance count, type
    basic); entries with another image and another class are as before; the
    number of entries grows by one when no entry had that image or class and
    stays the same otherwise.  The image is compared as the code compares it:
    an entry without an image key does not have the null image. *)
Theorem merge_container_entry (fs : filesystem) (doc doc' : WranglerConfig)
    (className bindingName : string) (df : option string) (mi : option Z) :
  merge_document fs doc className bindingName df mi = Ok doc' ->
  List.find (same_container df className) (containers_of doc')
  = Some {| c_class_name := className; c_image := df;
            c_max_instances := mi; c_instance_type := "basic" |}
  /\ List.filter (fun c => negb (same_container df className c))
                 (containers_of doc')
     = List.filter (fun c => negb (same_container df className c))
                   (containers_of doc)
  /\ length (containers_of doc')
     = (length (containers_of doc)
        + if existsb (same_container df className) (containers_of doc)
          then 0 else 1)%nat.
Proof.
  intros Hd. apply merge_document_parts in Hd as (ms' & _ & ->).
  change (containers_of (merged_document doc className bindingName df mi ms'))
    with (upsert (same_container df className)
                 {| c_class_name := className; c_image := df;
                    c_max_instances := mi; c_instance_type := "basic" |}
                 (containers_of doc)).
  pose proof (same_container_new df className mi) as Hnew.
  split; [apply upsert_find; exact Hnew|].
  split; [apply upsert_others; exact Hnew|apply upsert_length].
Qed.

Lemma merge_binds_class_witness :
  exists doc',
    merge_document ∅
      (document_with [ {| new_sqlite_classes := Some ["A"]; tag := "v1" |} ])
      "A" "A_CONTAINER" (Some "./Dockerfile") (Some 10%Z) = Ok doc'
    /\ map b_class_name (bindings_of doc') = ["A"].
Proof.
  eexists. split; [reflexivity|].
  apply (proj1 (proj2 (proj2
           (merge_binds_class ∅
              (document_with
                 [ {| new_sqlite_classes := Some ["A"]; tag := "v1" |} ])
              _ "A" "A_CONTAINER" (Some "./Dockerfile") (Some 10%Z)
              eq_refl)))).
Defined.

Lemma merge_container_entry_witness :
  let doc image :=
    {| w_name := None; w_main := None; compatibility_date := None;
       compatibility_flags := None; observability := None;
       containers :=
         Some [ {| c_class_name := "Other"; c_image := image;
                   c_max_instances := None; c_instance_type := "basic" |} ];
       durable_objects := None;
       migrations :=
         Some [ {| new_sqlite_classes := Some ["Other"]; tag := "v1" |} ] |} in
  (exists doc',
      merge_document ∅ (doc Absent) "A" "A_CONTAINER" None (Some 10%Z)
      = Ok doc'
      /\ length (containers_of doc') = 2%nat)
  /\ (exists doc',
         merge_document ∅ (doc (Present None)) "A" "A_CONTAINER" None
           (Some 10%Z) = Ok doc'
         /\ length (containers_of doc') = 1%nat).
Proof.
  intros doc. split; eexists; (split; [reflexivity|]).
  - exact (proj2 (proj2 (merge_container_entry ∅ (doc Absent) _ "A"
                           "A_CONTAINER" None (Some 10%Z) eq_refl))).
  - exact (proj2 (proj2 (merge_container_entry ∅ (doc (Present None)) _ "A"
                           "A_CONTAINER" None (Some 10%Z) eq_refl))).
Defined.

Lemma batch_allocate_grows (className : string) (latest : Migration)
    (ms : list Migration) (i : nat) (old : Migration) :
  last ms = Some latest ->
  ms !! i = Some old ->
  exists new, batch_allocate className latest ms !! i = Some new
              /\ grown_from old new.
Proof.
  intros Hlast Hi. apply last_Some in Hlast as [init ->].
  rewrite batch_allocate_shape.
  assert (Hsame : grown_from old old).
  { split; [reflexivity|]. exists []. symmetry. apply app_nil_r. }
  destruct (decide (i < length init)%nat) as [Hin|Hout].
  - exists old. split; [|exact Hsame].
    rewrite lookup_app_l in Hi by assumption.
    destruct (length (classes_of latest) <? 3)%nat;
      rewrite lookup_app_l by assumption; exact Hi.
  - rewrite lookup_app_r in Hi by lia.
    destruct (i - length init)%nat eqn:E; [|destruct n; discriminate Hi].
    injection Hi as <-.
    destruct (length (classes_of latest) <? 3)%nat.
    + eexists. split.
      * rewrite lookup_app_r by lia. rewrite E. reflexivity.
      * split; [reflexivity|]. rewrite classes_of_some. eauto.
    + exists latest. split; [|exact Hsame].
      rewrite lookup_app_r by lia. rewrite E. reflexivity.
Qed.

(** X13. What a merge keeps of these parts of the descriptor: name, entry
    point, compatibility date and observability stay as they are; the flags
    stay in their order, followed by nodejs_compat when it was missing;
    every migration stays at its place with its tag and with its classes in
    front of any class it gains, and at most one migration is added.
    (Comments, and the further keys of a container entry or binding that is
    replaced, are not kept by the code and are not covered here.) *)
Theorem merge_keeps_fields (fs : filesystem) (doc doc' : WranglerConfig)
    (className bindingName : string) (df : option string) (mi : option Z) :
  merge_document fs doc className bindingName df mi = Ok doc' ->
  (w_name doc' = w_name doc /\ w_main doc' = w_main doc
   /\ compatibility_date doc' = compatibility_date doc
   /\ observability doc' = observability doc)
  /\ (exists added, flags_of doc' = flags_of doc ++ added
                    /\ (added = [] \/ added = ["nodejs_compat"]))
  /\ In "nodejs_compat" (flags_of doc')
  /\ (length (migrations_of doc) <= length (migrations_of doc')
      <= length (migrations_of doc) + 1)%nat
  /\ (forall i old,
         migrations_of doc !! i = Some old ->
         exists new, migrations_of doc' !! i = Some new
                     /\ grown_from old new).
Proof.
  intros Hd. apply merge_document_parts in Hd as (ms' & Hm & ->).
  change (migrations_of (merged_document doc className bindingName df mi ms'))
    with ms'.
  change (flags_of (merged_document doc className bindingName df mi ms'))
    with (with_baseline_flag (flags_of doc)).
  split; [repeat split|]. unfold with_baseline_flag.
  split; [|split].
  - destruct (inb "nodejs_compat" (flags_of doc)).
    + exists []. split; [symmetry; apply app_nil_r|left; reflexivity].
    + eexists. split; [reflexivity|right; reflexivity].
  - destruct (inb "nodejs_compat" (flags_of doc)) eqn:E.
    + apply inb_In. exact E.
    + apply in_or_app. right. left. reflexivity.
  - apply merge_migrations_cases in Hm as [->|(latest & Hlast & ->)].
    + split; [lia|]. intros i old Hi. exists old. split; [exact Hi|].
      split; [reflexivity|]. exists []. symmetry. apply app_nil_r.
    + split; [|intros i old Hi; exact (batch_allocate_grows _ _ _ _ _ Hlast Hi)].
      unfold batch_allocate.
      destruct (length (classes_of latest) <? 3)%nat;
        rewrite ?length_insert, ?length_app; simpl; lia.
Qed.

Lemma merge_keeps_fields_witness :
  exists doc',
    merge_document ∅
      (document_with [ {| new_sqlite_classes := Some ["A"]; tag := "v1" |} ])
      "B" "B_CONTAINER" (Some "./Dockerfile") (Some 10%Z) = Ok doc'
    /\ In "nodejs_compat" (flags_of doc').
Proof.
  eexists. split; [reflexivity|].
  apply (proj1 (proj2 (proj2
           (merge_keeps_fields ∅
              (document_with
                 [ {| new_sqlite_classes := Some ["A"]; tag := "v1" |} ])
              _ "B" "B_CONTAINER" (Some "./Dockerfile") (Some 10%Z)
              eq_refl)))).
Defined.

(** ** Unique class names *)

Lemma unique_from_least (existing : list string) (baseName : string)
    (fuel : nat) :
  forall (className : string) (counter : nat),
  exists n,
    (n <= fuel)%nat
    /\ unique_from fuel existing baseName className counter
       = match n with
         | O => className
         | S m => baseName +:+ pretty (counter + m)%nat
         end
    /\ (forall j, (j < n)%nat ->
                  inb (match j with
                       | O => className
                       | S m => baseName +:+ pretty (counter + m)%nat
                       end) existing = true)
    /\ ((n < fuel)%nat ->
        inb (unique_from fuel existing baseName className counter) existing
        = false).
Proof.
  induction fuel as [|fuel IH]; intros className counter.
  - exists 0%nat. split; [lia|]. split; [reflexivity|].
    split; intros; lia.
  - simpl. destruct (inb className existing) eqn:E.
    + destruct (IH (baseName +:+ pretty counter) (S counter))
        as (n & Hn & Hres & Hbefore & Hfree).
      exists (S n). split; [lia|]. split; [|split].
      * rewrite Hres. destruct n as [|m].
        -- replace (counter + 0)%nat with counter by lia. reflexivity.
        -- replace (S counter + m)%nat with (counter + S m)%nat by lia.
           reflexivity.
      * intros [|j] Hj; [exact E|].
        specialize (Hbefore j ltac:(lia)). destruct j as [|m].
        -- replace (counter + 0)%nat with counter by lia. exact Hbefore.
        -- replace (counter + S m)%nat with (S counter + m)%nat by lia.
           exact Hbefore.
      * intros Hlt. apply Hfree. lia.
    + exists 0%nat. split; [lia|]. split; [reflexivity|].
      split; [intros j Hj; lia|]. intros _. exact E.
Qed.

(** X14. [generateUniqueClassName] returns the first name, among the base
    name and the base name followed by 1, 2, ..., that no class of the source
    stub and no container of the descriptor bears: the name is free, every
    earlier candidate is taken, and the base name itself is returned when it
    is free. *)
Theorem unique_class_name (fs : filesystem) (cwd baseName : string) :
  exists n,
    generateUniqueClassName fs cwd baseName = candidate baseName n
    /\ inb (candidate baseName n) (existingClasses fs cwd) = false
    /\ (forall j, (j < n)%nat ->
                  inb (candidate baseName j) (existingClasses fs cwd) = true)
    /\ (n <= length (existingClasses fs cwd))%nat.
Proof.
  unfold generateUniqueClassName. cbv zeta.
  set (existing := existingClasses fs cwd).
  destruct (unique_from_least existing baseName (S (length existing))
              baseName 1) as (n & Hn & Hres & Hbefore & _).
  assert (Hcand : forall j, match j with
                            | O => baseName
                            | S m => baseName +:+ pretty (1 + m)%nat
                            end = candidate baseName j)
    by (intros [|m]; reflexivity).
  rewrite Hcand in Hres.
  pose proof (unique_from_fresh existing baseName) as Hfresh.
  rewrite Hres in Hfresh.
  exists n. split; [exact Hres|]. split; [exact Hfresh|].
  split.
  - intros j Hj. rewrite <- Hcand. apply Hbefore. exact Hj.
  - destruct (decide (n <= length existing)%nat) as [|Hgt]; [assumption|].
    assert (n = S (length existing)) by lia. subst n. exfalso.
    assert (Hlen : (length (map (candidate baseName)
                               (seq 0 (S (length existing))))
                    <= length existing)%nat).
    { apply List.NoDup_incl_length.
      - apply Finite.Injective_map_NoDup; [|apply seq_NoDup].
        intros [|i] [|j] H; simpl in H; try reflexivity.
        + symmetry in H. exfalso. exact (numbered_ne_base _ _ H).
        + exfalso. exact (numbered_ne_base _ _ H).
        + apply String.app_inj in H. exact (pretty_nat_inj _ _ H).
      - intros x Hx. apply in_map_iff in Hx as (j & <- & Hj).
        apply in_seq in Hj. apply inb_In. rewrite <- Hcand.
        apply Hbefore. lia. }
    rewrite length_map, length_seq in Hlen. lia.
Qed.

(** ** Numbers *)

Lemma digit_value_char (d : N) :
  (d < 10)%N -> JsNumber.digit_value 10 (pretty_N_char d) = Some (Z.of_N d)
                /\ JsString.is_digit (pretty_N_char d) = true.
Proof.
  intros Hd.
  assert (d = 0 \/ d = 1 \/ d = 2 \/ d = 3 \/ d = 4 \/ d = 5 \/ d = 6
          \/ d = 7 \/ d = 8 \/ d = 9)%N as H by lia.
  repeat (destruct H as [->|H]; [split; reflexivity|]). subst.
  split; reflexivity.
Qed.

Lemma parse_digits_go (x : N) :
  forall s,
    JsNumber.parse_digits 10 (pretty_N_go x s) None
    = JsNumber.parse_digits 10 s
        (if (x =? 0)%N then None else Some (Z.of_N x)).
Proof.
  induction (N.lt_wf_0 x) as [x _ IH]; intros s.
  destruct (N.eqb_spec x 0) as [->|Hx].
  - rewrite pretty_N_go_0. reflexivity.
  - rewrite pretty_N_go_step by lia.
    rewrite IH by (apply N.div_lt; lia).
    cbn [JsNumber.parse_digits].
    destruct (digit_value_char (x `mod` 10)) as [-> _];
      [apply N.mod_lt; lia|].
    f_equal. f_equal.
    pose proof (N.div_mod x 10 ltac:(lia)) as Hdm.
    remember (x `div` 10)%N as q. remember (x `mod` 10)%N as r.
    destruct (N.eqb_spec q 0) as [E|E]; simpl; lia.
Qed.

Lemma all_digits_go (x : N) :
  forall s, all_digits s = true -> all_digits (pretty_N_go x s) = true.
Proof.
  induction (N.lt_wf_0 x) as [x _ IH]; intros s Hs.
  destruct (N.eqb_spec x 0) as [->|Hx].
  - rewrite pretty_N_go_0. exact Hs.
  - rewrite pretty_N_go_step by lia. apply IH; [apply N.div_lt; lia|].
    cbn [all_digits].
    destruct (digit_value_char (x `mod` 10)) as [_ ->];
      [apply N.mod_lt; lia|]. exact Hs.
Qed.

Lemma pretty_N_digits (n : N) :
  all_digits (pretty n) = true
  /\ pretty n <> EmptyString
  /\ JsNumber.parse_digits 10 (pretty n) None = Some (Z.of_N n).
Proof.
  split; [|split].
  - unfold pretty, pretty_N.
    destruct (decide (n = 0%N)); [reflexivity|].
    apply all_digits_go. reflexivity.
  - unfold pretty, pretty_N.
    destruct (decide (n = 0%N)); [discriminate|].
    rewrite pretty_N_go_step by lia. apply pretty_N_go_nonempty.
    discriminate.
  - unfold pretty, pretty_N.
    destruct (decide (n = 0%N)) as [->|E]; [reflexivity|].
    rewrite parse_digits_go. cbn [JsNumber.parse_digits].
    destruct (N.eqb_spec n 0); [contradiction|reflexivity].
Qed.

Lemma pretty_nat_digits (n : nat) :
  all_digits (pretty n) = true
  /\ pretty n <> EmptyString
  /\ JsNumber.parse_digits 10 (pretty n) None = Some (Z.of_nat n).
Proof.
  destruct (pretty_N_digits (N.of_nat n)) as (H1 & H2 & H3).
  change (pretty n) with (pretty (N.of_nat n)).
  rewrite H3, nat_N_Z. auto.
Qed.

Lemma digit_value_digit (c : ascii) :
  JsString.is_digit c = true -> exists d, JsNumber.digit_value 10 c = Some d.
Proof.
  intros Hc. unfold JsNumber.digit_value. rewrite Hc. cbn [mbind option_bind].
  unfold JsString.is_digit in Hc. apply andb_true_iff in Hc as [H1 H2].
  apply Nat.leb_le in H1, H2.
  destruct (Z.ltb_spec (Z.of_nat (nat_of_ascii c) - 48) 10); [eauto|lia].
Qed.

Lemma digit_value_ends (c : ascii) :
  JsString.is_digit c = false -> JsNumber.digit_value 10 c = None.
Proof.
  intros Hc. unfold JsNumber.digit_value. rewrite Hc.
  destruct (JsString.is_lower c) eqn:Hl.
  - cbn [mbind option_bind]. unfold JsString.is_lower in Hl.
    apply andb_true_iff in Hl as [H1 _]. apply Nat.leb_le in H1.
    destruct (Z.ltb_spec (Z.of_nat (nat_of_ascii c) - 87) 10);
      [lia|reflexivity].
  - destruct (JsString.is_upper c) eqn:Hu; [|reflexivity].
    cbn [mbind option_bind]. unfold JsString.is_upper in Hu.
    apply andb_true_iff in Hu as [H1 _]. apply Nat.leb_le in H1.
    destruct (Z.ltb_spec (Z.of_nat (nat_of_ascii c) - 55) 10);
      [lia|reflexivity].
Qed.

Lemma parse_digits_stops (s rest : string) :
  all_digits s = true -> after_number rest = true ->
  forall acc,
    JsNumber.parse_digits 10 (s +:+ rest) acc
    = JsNumber.parse_digits 10 s acc.
Proof.
  intros Hs Hrest. induction s as [|c s IH]; intros acc.
  - destruct rest as [|c r]; [reflexivity|].
    change (EmptyString +:+ String c r) with (String c r).
    change (JsNumber.parse_digits 10 (String c r) acc)
      with (match JsNumber.digit_value 10 c with
            | Some d =>
                JsNumber.parse_digits 10 r (Some (default 0 acc * 10 + d))%Z
            | None => acc
            end).
    rewrite digit_value_ends; [reflexivity|].
    unfold after_number, ends_number in Hrest.
    destruct (JsString.is_digit c); [discriminate Hrest|reflexivity].
  - cbn [all_digits] in Hs. apply andb_true_iff in Hs as [Hc Hs].
    change (String c s +:+ rest) with (String c (s +:+ rest)).
    change (JsNumber.parse_digits 10 (String c (s +:+ rest)) acc)
      with (match JsNumber.digit_value 10 c with
            | Some d =>
                JsNumber.parse_digits 10 (s +:+ rest)
                  (Some (default 0 acc * 10 + d))%Z
            | None => acc
            end).
    change (JsNumber.parse_digits 10 (String c s) acc)
      with (match JsNumber.digit_value 10 c with
            | Some d =>
                JsNumber.parse_digits 10 s (Some (default 0 acc * 10 + d))%Z
            | None => acc
            end).
    destruct (digit_value_digit c Hc) as [d ->]. apply IH. exact Hs.
Qed.

Lemma is_digit_cases (c : ascii) :
  JsString.is_digit c = true ->
  JsString.is_space c = false /\ c <> "-"%char /\ c <> "+"%char
  /\ c <> "x"%char /\ c <> "X"%char.
Proof.
  destruct c as [[] [] [] [] [] [] [] []]; intros Hc;
    try discriminate Hc; repeat split; (reflexivity || discriminate).
Qed.

Lemma no_hex_prefix (c : ascii) (t : string) :
  match t with
  | String d _ => d <> "x"%char /\ d <> "X"%char
  | EmptyString => True
  end ->
  String.prefix "0x" (String c t) || String.prefix "0X" (String c t) = false.
Proof.
  intros Ht. apply orb_false_iff. split.
  - destruct (String.prefix "0x" (String c t)) eqn:E; [|reflexivity].
    apply prefix_correct in E. destruct t as [|d t]; simpl in E;
      [discriminate E|]. injection E as _ E. destruct Ht. congruence.
  - destruct (String.prefix "0X" (String c t)) eqn:E; [|reflexivity].
    apply prefix_correct in E. destruct t as [|d t]; simpl in E;
      [discriminate E|]. injection E as _ E. destruct Ht. congruence.
Qed.

(** [parseInt] on decimal digits followed by something that ends the
    number reads the digits in base ten. *)
Lemma parseInt_decimal (s rest : string) :
  s <> EmptyString -> all_digits s = true -> after_number rest = true ->
  JsNumber.parseInt (s +:+ rest)
  = match JsNumber.parse_digits 10 s None with
    | Some v => JsNumber.to_number v
    | None => JsNumber.NaN
    end.
Proof.
  intros Hne Hs Hrest. destruct s as [|c s]; [contradiction|].
  cbn [all_digits] in Hs. apply andb_true_iff in Hs as [Hc Hs].
  destruct (is_digit_cases c Hc) as (Hsp & Hm & Hp & Hx & HX).
  unfold JsNumber.parseInt.
  change (String c s +:+ rest) with (String c (s +:+ rest)).
  cbn [JsString.trimStart]. rewrite Hsp.
  assert (Hsign : (match String c (s +:+ rest) with
                   | String "-" t => ((-1)%Z, t)
                   | String "+" t => (1%Z, t)
                   | _ => (1%Z, String c (s +:+ rest))
                   end) = (1%Z, String c (s +:+ rest))).
  { destruct c as [[] [] [] [] [] [] [] []]; try reflexivity;
      contradiction. }
  rewrite Hsign.
  assert (Hhex : String.prefix "0x" (String c (s +:+ rest))
                 || String.prefix "0X" (String c (s +:+ rest)) = false).
  { apply no_hex_prefix. destruct s as [|c2 s].
    - destruct rest as [|c2 r]; [exact I|].
      change (EmptyString +:+ String c2 r) with (String c2 r). cbv iota.
      unfold after_number, ends_number in Hrest.
      apply andb_true_iff in Hrest as [Hrest HnX].
      apply andb_true_iff in Hrest as [_ Hnx].
      apply negb_true_iff in Hnx, HnX.
      apply Ascii.eqb_neq in Hnx, HnX. split; assumption.
    - cbn [all_digits] in Hs. apply andb_true_iff in Hs as [Hc2 _].
      destruct (is_digit_cases c2 Hc2) as (_ & _ & _ & Hx2 & HX2).
      change (String c2 s +:+ rest) with (String c2 (s +:+ rest)). cbv iota.
      split; assumption. }
  rewrite Hhex.
  change (String c (s +:+ rest)) with (String c s +:+ rest).
  rewrite parse_digits_stops;
    [|cbn [all_digits]; rewrite Hc, Hs; reflexivity|exact Hrest].
  destruct (JsNumber.parse_digits 10 (String c s) None) as [v|];
    [|reflexivity].
  f_equal. lia.
Qed.

Lemma to_number_exact (z : Z) :
  (Z.abs z <= 2 ^ 53)%Z -> JsNumber.to_number z = JsNumber.Finite z.
Proof.
  intros H. unfold JsNumber.to_number.
  destruct (Z.leb_spec (Z.abs z) (2 ^ 53)); [reflexivity|lia].
Qed.

Lemma to_number_not_NaN (z : Z) : JsNumber.to_number z <> JsNumber.NaN.
Proof.
  unfold JsNumber.to_number.
  destruct (Z.abs z <=? 2 ^ 53)%Z; [discriminate|].
  destruct (JsNumber.of_Z z); discriminate.
Qed.

(** X15. [parseInt] reads the decimal digits of a natural number as the
    double nearest to that number, also when other text follows them (as in
    8080/tcp), as long as that text does not start with a digit or with the
    letter x.  Up to 2^53 the double is the number itself, so that what was
    printed is read back; above, digits are lost (9007199254740993 reads as
    9007199254740992). *)
Theorem parseInt_reads_decimal (n : N) (rest : string) :
  after_number rest = true ->
  JsNumber.parseInt (pretty n +:+ rest) = JsNumber.to_number (Z.of_N n)
  /\ ((n <= 2 ^ 53)%N ->
      JsNumber.parseInt (pretty n +:+ rest) = JsNumber.Finite (Z.of_N n)).
Proof.
  intros Hrest. destruct (pretty_N_digits n) as (Hd & Hne & Hv).
  rewrite parseInt_decimal, Hv by assumption. split; [reflexivity|].
  intros Hn. apply to_number_exact.
  rewrite Z.abs_eq by lia. change (2 ^ 53)%Z with (Z.of_N (2 ^ 53)). lia.
Qed.

Lemma parseInt_reads_decimal_witness :
  JsNumber.parseInt (pretty 443%N +:+ "/tcp") = JsNumber.Finite 443
  /\ JsNumber.parseInt (pretty 9007199254740993%N +:+ "/tcp")
     = JsNumber.Finite 9007199254740992.
Proof.
  split.
  - apply (proj2 (parseInt_reads_decimal 443 "/tcp" eq_refl)).
    vm_compute. discriminate.
  - rewrite (proj1 (parseInt_reads_decimal 9007199254740993 "/tcp" eq_refl)).
    vm_compute. reflexivity.
Defined.

(** ** The port of a build file *)

Lemma find_expose_skip (before rest : list string) :
  forallb (fun l => negb (is_expose_line l)) before = true ->
  Dockerfile.find_expose (before ++ rest) = Dockerfile.find_expose rest.
Proof.
  induction before as [|l before IH]; intros H; [reflexivity|].
  cbn [forallb] in H. apply andb_true_iff in H as [Hl Hb].
  apply negb_true_iff in Hl. unfold is_expose_line in Hl.
  change ((l :: before) ++ rest) with (l :: (before ++ rest)).
  cbn [Dockerfile.find_expose]. rewrite Hl. apply IH. exact Hb.
Qed.

Lemma split_first_field (s sfx : string) :
  all_digits s = true -> after_number sfx = true ->
  exists sfx1,
    nth 0 (JsString.split " " (s +:+ sfx)) EmptyString = s +:+ sfx1
    /\ after_number sfx1 = true.
Proof.
  intros Hs Hsfx. induction s as [|c s IH].
  - change (EmptyString +:+ sfx) with sfx. destruct sfx as [|c r].
    + exists EmptyString. split; reflexivity.
    + cbn [JsString.split]. destruct (Ascii.eqb c " ") eqn:E.
      * exists EmptyString. split; reflexivity.
      * destruct (JsString.split " " r) as [|x xs];
          eexists; (split; [reflexivity|exact Hsfx]).
  - cbn [all_digits] in Hs. apply andb_true_iff in Hs as [Hc Hs].
    destruct (IH Hs) as (sfx1 & Hnth & Hafter).
    destruct (is_digit_cases c Hc) as (Hsp & _).
    assert (E : Ascii.eqb c " " = false).
    { destruct (Ascii.eqb_spec c " ") as [->|]; [discriminate Hsp|].
      reflexivity. }
    change (String c s +:+ sfx) with (String c (s +:+ sfx)).
    cbn [JsString.split]. rewrite E.
    destruct (JsString.split " " (s +:+ sfx)) as [|x xs].
    + exists sfx1. cbn [nth] in *.
      change (String c s +:+ sfx1) with (String c (s +:+ sfx1)).
      rewrite <- Hnth. split; [reflexivity|exact Hafter].
    + exists sfx1. cbn [nth] in *. rewrite Hnth.
      split; [reflexivity|exact Hafter].
Qed.

Lemma expose_field (t : string) :
  nth 1 (JsString.split " " ("EXPOSE " +:+ t)) EmptyString
  = nth 0 (JsString.split " " t) EmptyString.
Proof.
  change ("EXPOSE " +:+ t)
    with (String "E" (String "X" (String "P" (String "O" (String "S"
            (String "E" (String " " t))))))).
  cbn [JsString.split Ascii.eqb Bool.eqb].
  destruct (JsString.split " " t); reflexivity.
Qed.

(** X16. The port scan of a build file answers 8080 when the file cannot be
    read as text and when no line, trimmed and in upper case, starts with
    EXPOSE and a space; when the first line that does reads EXPOSE n, in
    either case and with or without indentation, it answers the double
    nearest to n, which up to 2^53 is n itself, also when a protocol follows
    the number as in 8080/tcp, and later lines are not looked at. *)
Theorem analyzeDockerfile_port (fs : filesystem) (p : string) :
  ((forall content, fs !! p <> Some (Text content)) ->
   Dockerfile.analyzeDockerfile fs p = 8080%Z)
  /\ (forall content,
         fs !! p = Some (Text content) ->
         forallb (fun l => negb (is_expose_line l))
                 (JsString.split "010" content) = true ->
         Dockerfile.analyzeDockerfile fs p = 8080%Z)
  /\ (forall content before line rest (n : N) sfx,
         fs !! p = Some (Text content) ->
         JsString.split "010" content = before ++ line :: rest ->
         forallb (fun l => negb (is_expose_line l)) before = true ->
         JsString.toUpperCase (JsString.trim line)
         = "EXPOSE " +:+ pretty n +:+ sfx ->
         after_number sfx = true ->
         Dockerfile.analyzeDockerfile fs p = JsNumber.to_number (Z.of_N n)
         /\ ((n <= 2 ^ 53)%N ->
             Dockerfile.analyzeDockerfile fs p = Z.of_N n)).
Proof.
  unfold Dockerfile.analyzeDockerfile, readFile. split; [|split].
  - intros Hno. destruct (fs !! p) as [[|c| | | |]|]; try reflexivity.
    exfalso. exact (Hno c eq_refl).
  - intros content -> Hnone.
    rewrite <- (app_nil_r (JsString.split "010" content)).
    rewrite find_expose_skip by exact Hnone. reflexivity.
  - intros content before line rest n sfx -> Hsplit Hbefore Hline Hsfx.
    rewrite Hsplit, find_expose_skip by exact Hbefore.
    cbn [Dockerfile.find_expose]. rewrite Hline.
    assert (Hstart : JsString.startsWith ("EXPOSE " +:+ pretty n +:+ sfx)
                                         "EXPOSE " = true)
      by (apply prefix_correct; destruct (pretty n +:+ sfx); reflexivity).
    rewrite Hstart, expose_field.
    destruct (pretty_N_digits n) as (Hd & Hne & Hv).
    destruct (split_first_field (pretty n) sfx Hd Hsfx)
      as (sfx1 & -> & Hafter).
    rewrite parseInt_decimal, Hv by assumption.
    assert (Hport : default (JsNumber.Finite 8080)
                      match JsNumber.to_number (Z.of_N n) with
                      | JsNumber.NaN => Dockerfile.find_expose rest
                      | exposedPort => Some exposedPort
                      end = JsNumber.to_number (Z.of_N n)).
    { pose proof (to_number_not_NaN (Z.of_N n)) as Hnan.
      destruct (JsNumber.to_number (Z.of_N n)); [contradiction| |];
        reflexivity. }
    split; [exact Hport|]. intros Hn. rewrite Hport.
    apply to_number_exact. rewrite Z.abs_eq by lia.
    change (2 ^ 53)%Z with (Z.of_N (2 ^ 53)). lia.
Qed.

Lemma analyzeDockerfile_port_witness :
  Dockerfile.analyzeDockerfile
    (<["/app/Dockerfile" :=
         Text ("FROM node:20" +:+ nl +:+ "  expose 443/tcp  " +:+ nl
               +:+ "EXPOSE 80")]> ∅)
    "/app/Dockerfile" = 443%Z.
Proof.
  refine (proj2 (proj2 (proj2 (analyzeDockerfile_port _ "/app/Dockerfile"))
                   ("FROM node:20" +:+ nl +:+ "  expose 443/tcp  " +:+ nl
                    +:+ "EXPOSE 80")
                   ["FROM node:20"] "  expose 443/tcp  " ["EXPOSE 80"] 443%N
                   "/TCP" _ _ _ _ _) _);
    vm_compute; (reflexivity || discriminate).
Defined.

(** ** The dependency manifest *)

Lemma assoc_app {A} (k : string) (l1 l2 : list (string * A)) :
  assoc k (l1 ++ l2) = override (assoc k l1) (assoc k l2).
Proof.
  induction l1 as [|[k' v] l1 IH]; simpl; [reflexivity|].
  destruct (String.eqb k k'); [reflexivity|exact IH].
Qed.

Lemma assoc_None_filter {A} (k : string) (f : string * A -> bool)
    (l : list (string * A)) :
  assoc k l = None -> assoc k (List.filter f l) = None.
Proof.
  induction l as [|[k' v] l IH]; simpl; [reflexivity|].
  destruct (String.eqb k k') eqn:E; [discriminate|]. intros H.
  destruct (f (k', v)); simpl; rewrite ?E; apply IH; exact H.
Qed.

(** Looking a key up in the spread of [a] and [b]: [b] wins. *)
Lemma assoc_spread (k : string) (a b : list (string * string)) :
  assoc k (spread a b) = override (assoc k b) (assoc k a).
Proof.
  unfold spread. rewrite assoc_app.
  induction a as [|[k' v] a IH].
  - cbn [map assoc override].
    replace (List.filter _ b) with b; [destruct (assoc k b); reflexivity|].
    symmetry. apply forallb_filter_id. apply forallb_forall.
    intros x _. reflexivity.
  - cbn [map assoc fst snd]. destruct (String.eqb_spec k k') as [->|Hne].
    + destruct (assoc k' b); reflexivity.
    + destruct (assoc k
                  (map (fun kv => (kv.1, default kv.2 (assoc kv.1 b))) a))
        as [v1|] eqn:E1.
      * cbn [override] in IH |- *. exact IH.
      * cbn [override] in IH |- *. rewrite <- IH.
        clear IH E1. induction b as [|[kb vb] b IHb]; [reflexivity|].
        cbn [List.filter assoc fst].
        destruct (String.eqb_spec kb k') as [->|Hkb].
        -- cbn. destruct (bool_decide (is_Some (assoc k' a)));
             cbn [negb assoc]; destruct (String.eqb_spec k k');
             try contradiction; exact IHb.
        -- destruct (bool_decide (is_Some (assoc kb a))); cbn [negb assoc];
             destruct (String.eqb k kb); try reflexivity; exact IHb.
Qed.

Lemma assoc_In {A} (k : string) (v : A) (l : list (string * A)) :
  List.NoDup (keys l) -> In (k, v) l -> assoc k l = Some v.
Proof.
  induction l as [|[k' v'] l IH]; simpl; [tauto|].
  intros Hnd [Heq|Hin].
  - injection Heq as -> ->. rewrite String.eqb_refl. reflexivity.
  - inversion Hnd as [|? ? Hnotin Hnd']; subst.
    destruct (String.eqb_spec k k') as [->|_].
    + exfalso. apply Hnotin. change k' with (fst (k', v)).
      apply in_map. exact Hin.
    + apply IH; assumption.
Qed.

Lemma assoc_Some_In {A} (k : string) (v : A) (l : list (string * A)) :
  assoc k l = Some v -> In (k, v) l.
Proof.
  induction l as [|[k' v'] l IH]; simpl; [discriminate|].
  destruct (String.eqb_spec k k') as [->|_].
  - intros [= ->]. left. reflexivity.
  - intros H. right. apply IH, H.
Qed.

Lemma filter_nil {A} (f : A -> bool) (l : list A) :
  (forall x, In x l -> f x = false) -> List.filter f l = [].
Proof.
  induction l as [|x l IH]; intros H; [reflexivity|].
  cbn [List.filter]. rewrite (H x) by (left; reflexivity).
  apply IH. intros y Hy. apply H. right. exact Hy.
Qed.

(** The keys of the first object keep their places; the new keys of the
    second follow in its order. *)
Lemma keys_spread (a b : list (string * string)) :
  keys (spread a b)
  = keys a
    ++ keys (List.filter
               (fun kv => negb (bool_decide (is_Some (assoc kv.1 a)))) b).
Proof.
  unfold spread, keys. rewrite map_app, map_map. reflexivity.
Qed.

(** Spreading the same object in once more changes nothing. *)
Lemma spread_twice (a b : list (string * string)) :
  List.NoDup (keys b) -> spread (spread a b) b = spread a b.
Proof.
  intros Hnd.
  assert (Hlast :
            List.filter
              (fun kv => negb (bool_decide (is_Some (assoc kv.1 (spread a b)))))
              b = []).
  { assert (Hall : forall kv, In kv b ->
                negb (bool_decide (is_Some (assoc kv.1 (spread a b)))) = false).
    { intros [k v] Hin. cbn [fst].
      rewrite assoc_spread, (assoc_In k v b Hnd Hin). reflexivity. }
    apply filter_nil, Hall. }
  unfold spread at 1. rewrite Hlast, app_nil_r.
  unfold spread. rewrite map_app. f_equal.
  - rewrite map_map. apply map_ext. intros [k v]. cbn [fst snd].
    destruct (assoc k b); reflexivity.
  - rewrite <- (map_id (List.filter _ b)) at 2. apply map_ext_in.
    intros [k v] Hin. cbn [fst snd]. apply filter_In in Hin as [Hin _].
    rewrite (assoc_In k v b Hnd Hin). reflexivity.
Qed.

(** X17. Merging into a manifest that parses rewrites that one file: name,
    description and privacy flag stay; in each of the three maps every
    required entry ends up with the required value, also where the
    manifest had its own (an existing deploy script is replaced), and every
    other entry keeps its value; merging a second time changes nothing. *)
Theorem manifest_merge (fs : filesystem) (packageJsonPath projectName : string)
    (existing : PackageJson) :
  fs !! packageJsonPath = Some (PackageDoc existing) ->
  let required := generatePackageJson projectName in
  exists merged,
    mergePackageJsonDependencies fs packageJsonPath projectName
    = <[packageJsonPath := PackageDoc merged]> fs
    /\ pkg_name merged = pkg_name existing
    /\ pkg_description merged = pkg_description existing
    /\ pkg_private merged = pkg_private existing
    /\ merged_entries (pkg_dependencies required) (pkg_dependencies existing)
                      (pkg_dependencies merged)
    /\ merged_entries (pkg_devDependencies required)
                      (pkg_devDependencies existing)
                      (pkg_devDependencies merged)
    /\ merged_entries (pkg_scripts required) (pkg_scripts existing)
                      (pkg_scripts merged)
    /\ assoc "deploy" (pkg_scripts merged) = Some "wrangler deploy"
    /\ mergePackageJsonDependencies
         (<[packageJsonPath := PackageDoc merged]> fs) packageJsonPath
         projectName
       = <[packageJsonPath := PackageDoc merged]> fs.
Proof.
  intros Hfile required. eexists. split.
  { unfold mergePackageJsonDependencies. rewrite Hfile. reflexivity. }
  cbn [pkg_name pkg_description pkg_private pkg_dependencies
       pkg_devDependencies pkg_scripts].
  repeat (split; [first [reflexivity | intros k; apply assoc_spread]|]).
  split.
  { rewrite assoc_spread. reflexivity. }
  unfold mergePackageJsonDependencies. rewrite lookup_insert_eq.
  cbn [pkg_name pkg_description pkg_private pkg_dependencies
       pkg_devDependencies pkg_scripts].
  rewrite insert_insert_eq.
  rewrite !spread_twice; [reflexivity| | |];
    apply NoDup_ListNoDup;
    apply (bool_decide_unpack _); vm_compute; reflexivity.
Qed.

Lemma manifest_merge_witness :
  assoc "deploy"
    (match mergePackageJsonDependencies
             (<["/app/package.json" :=
                  PackageDoc
                    {| pkg_name := Some "shop"; pkg_description := None;
                       pkg_private := None;
                       pkg_scripts := [("test", "jest");
                                       ("deploy", "make deploy")];
                       pkg_devDependencies := [("typescript", "4.9.5")];
                       pkg_dependencies := [("express", "4.18.2")] |}]> ∅)
             "/app/package.json" "web" !! "/app/package.json" with
     | Some (PackageDoc m) => pkg_scripts m
     | _ => []
     end) = Some "wrangler deploy".
Proof.
  destruct (manifest_merge
              (<["/app/package.json" :=
                   PackageDoc
                     {| pkg_name := Some "shop"; pkg_description := None;
                        pkg_private := None;
                        pkg_scripts := [("test", "jest");
                                        ("deploy", "make deploy")];
                        pkg_devDependencies := [("typescript", "4.9.5")];
                        pkg_dependencies := [("express", "4.18.2")] |}]> ∅)
              "/app/package.json" "web"
              {| pkg_name := Some "shop"; pkg_description := None;
                 pkg_private := None;
                 pkg_scripts := [("test", "jest");
                                 ("deploy", "make deploy")];
                 pkg_devDependencies := [("typescript", "4.9.5")];
                 pkg_dependencies := [("express", "4.18.2")] |}
              (lookup_insert_eq _ _ _))
    as (m & -> & _ & _ & _ & _ & _ & _ & Hdeploy & _).
  rewrite lookup_insert_eq. exact Hdeploy.
Defined.

(** ** The worker source *)

Lemma prefix_append (p s : string) : String.prefix p (p +:+ s) = true.
Proof.
  induction p as [|c p IH]; simpl; [destruct s; reflexivity|].
  destruct (ascii_dec c c) as [_|Hne]; [exact IH|contradiction].
Qed.

Lemma prefix_append_l (p s t : string) :
  String.prefix p s = true -> String.prefix p (s +:+ t) = true.
Proof.
  revert s. induction p as [|c p IH]; intros s; simpl.
  - intros _. destruct (s +:+ t); reflexivity.
  - destruct s as [|c' s]; [discriminate|]. simpl.
    destruct (ascii_dec c c'); [apply IH|discriminate].
Qed.

Lemma includes_prefix (s p : string) :
  String.prefix p s = true -> JsString.includes s p = true.
Proof. intros H. destruct s; simpl in *; rewrite H; reflexivity. Qed.

Lemma includes_append_r (a s p : string) :
  JsString.includes s p = true -> JsString.includes (a +:+ s) p = true.
Proof.
  intros H. induction a as [|c a IH]; [exact H|].
  change (String c a +:+ s) with (String c (a +:+ s)).
  cbn [JsString.includes]. rewrite IH. apply orb_true_r.
Qed.

Lemma includes_append_l (s b p : string) :
  JsString.includes s p = true -> JsString.includes (s +:+ b) p = true.
Proof.
  induction s as [|c s IH].
  - cbn [JsString.includes]. rewrite orb_false_r. intros H.
    apply includes_prefix. apply (prefix_append_l p EmptyString b H).
  - change (String c s +:+ b) with (String c (s +:+ b)).
    cbn [JsString.includes]. intros H.
    apply orb_true_iff in H as [H|H].
    + apply (prefix_append_l _ _ b) in H.
      change (String c s +:+ b) with (String c (s +:+ b)) in H.
      rewrite H. reflexivity.
    + rewrite (IH H). apply orb_true_r.
Qed.


Lemma join_cons (sep x : string) (xs : list string) :
  xs <> [] -> JsString.join sep (x :: xs) = x +:+ sep +:+ JsString.join sep xs.
Proof. destruct xs; [contradiction|reflexivity]. Qed.

Lemma includes_join (sep p x : string) (parts : list string) :
  In x parts -> JsString.includes x p = true ->
  JsString.includes (JsString.join sep parts) p = true.
Proof.
  intros Hin Hx. induction parts as [|y parts IH]; [destruct Hin|].
  destruct parts as [|z parts].
  - destruct Hin as [->|[]]. exact Hx.
  - rewrite join_cons by discriminate. destruct Hin as [->|Hin].
    + apply includes_append_l, Hx.
    + apply includes_append_r, includes_append_r, IH, Hin.
Qed.







(** ** Running the command again *)

(** Merging into the descriptor that was generated for the same class
    gives that descriptor back. *)
Lemma merge_document_generated (fs : filesystem)
    (today pn cn bn : string) (df : option string) (mi : option Z) :
  merge_document fs (generateWranglerConfig today pn cn bn df mi) cn bn df mi
  = Ok (generateWranglerConfig today pn cn bn df mi).
Proof.
  unfold merge_document.
  rewrite merge_migrations_present.
  2:{ cbn. rewrite String.eqb_refl. reflexivity. }
  unfold generateWranglerConfig, upsert, mbind, completion_bind.
  cbn [containers durable_objects bindings compatibility_flags mbind
       option_bind w_name w_main compatibility_date observability
       migrations default Datatypes.id findIndex c_image c_class_name
       b_class_name].
  rewrite String.eqb_refl, orb_true_r. reflexivity.
Qed.

Section FreshProject.
Variables (today d img pn cn bn : string) (mi : option Z).

Lemma fresh_project_cfignore :
  fresh_project today d img pn cn bn mi !! path_join d ".cfignore"
  = Some (Text cfignore).
Proof. apply lookup_insert_eq. Qed.

Lemma fresh_project_package :
  fresh_project today d img pn cn bn mi !! path_join d "package.json"
  = Some (PackageDoc (generatePackageJson pn)).
Proof.
  unfold fresh_project.
  rewrite !lookup_insert_ne by path_ne. apply lookup_insert_eq.
Qed.

Lemma fresh_project_tsconfig :
  fresh_project today d img pn cn bn mi !! path_join d "tsconfig.json"
  = Some TsConfigDoc.
Proof.
  unfold fresh_project.
  rewrite !lookup_insert_ne by path_ne. apply lookup_insert_eq.
Qed.

Lemma fresh_project_wrangler :
  fresh_project today d img pn cn bn mi !! path_join d "wrangler.jsonc"
  = Some (ConfigDoc (generateWranglerConfig today pn cn bn
                       (Some "./Dockerfile.generated") mi)).
Proof.
  unfold fresh_project.
  rewrite !lookup_insert_ne by path_ne. apply lookup_insert_eq.
Qed.

Lemma fresh_project_worker :
  fresh_project today d img pn cn bn mi
    !! path_join (path_join d "src") "index.ts"
  = Some (Text (generateWorkerCode cn bn 8080)).
Proof.
  unfold fresh_project.
  rewrite !lookup_insert_ne by path_ne. apply lookup_insert_eq.
Qed.

Lemma fresh_project_src :
  fresh_project today d img pn cn bn mi !! path_join d "src" = Some Dir.
Proof.
  unfold fresh_project.
  rewrite !lookup_insert_ne by path_ne. apply lookup_insert_eq.
Qed.

Lemma fresh_project_dockerfile :
  fresh_project today d img pn cn bn mi !! path_join d "Dockerfile.generated"
  = Some (Text ("FROM " +:+ img +:+ nl +:+ "EXPOSE 8080")).
Proof.
  unfold fresh_project.
  rewrite !lookup_insert_ne by path_ne. apply lookup_insert_eq.
Qed.

(** None of the names detection and configuration loading look for is
    among them. *)
Lemma fresh_project_other (n : string) :
  In n (dockerfile_names ++ compose_names
        ++ [".docker"; ".env"; "manifest.json"; "cf.config.json";
            "cf.config.js"; ".cfrc.json"]) ->
  fresh_project today d img pn cn bn mi !! path_join d n = None.
Proof.
  intros Hin. unfold fresh_project.
  cbn in Hin.
  repeat (destruct Hin as [<-|Hin]; [absent|]). destruct Hin.
Qed.

Lemma fresh_project_first_existing (names : list string) :
  (forall n, In n names ->
             fresh_project today d img pn cn bn mi !! path_join d n = None) ->
  first_existing (fresh_project today d img pn cn bn mi) d names = None.
Proof.
  intros H. unfold first_existing.
  induction names as [|n names IH]; [reflexivity|].
  cbn [List.find]. rewrite pathExists_None by (apply H; left; reflexivity).
  apply IH. intros m Hm. apply H. right. exact Hm.
Qed.

(** Detection sees the image argument and nothing else. *)
Lemma fresh_project_detect (this : Detector) (arg : string)
    (rest : list string) (c : ConfigOverrides) :
  looks_like_image arg = true ->
  ContainerDetector_detect this (fresh_project today d img pn cn bn mi)
    {| cwd := d; args := arg :: rest; config := c |}
  = Ok (Some {| detector := this; confidence := 0.95;
                indicators := ["Explicit image reference: " +:+ arg];
                metadata := {| image := Some arg;
                               dockerfilePath := None |} |}).
Proof.
  intros Himg.
  unfold ContainerDetector_detect, detect_arg, detect_dockerfile,
    detect_compose, detect_docker_dir, detect_env, detect_manifest.
  cbn [args cwd]. rewrite Himg.
  fold dockerfile_names. fold compose_names.
  rewrite !fresh_project_first_existing
    by (intros n Hn; apply fresh_project_other; cbn in Hn |- *; tauto).
  rewrite !pathExists_None
    by (apply fresh_project_other; cbn; tauto).
  reflexivity.
Qed.

Lemma fresh_project_loadConfig :
  loadConfig (fresh_project today d img pn cn bn mi) d = no_overrides.
Proof.
  unfold loadConfig, loadConfig_from.
  rewrite !fresh_project_other by (cbn; tauto). reflexivity.
Qed.

(** The class of the first run is found again by its build file. *)
Lemma fresh_project_className (ctx : Ctx) (opts : Opts) (img' pn' : string) :
  cwd ctx = d -> JsString.truthy (Some img') = true ->
  resolve_className (fresh_project today d img pn cn bn mi) ctx opts
                    (Some img') None pn' = cn.
Proof.
  intros Hd Himg. unfold resolve_className, findExistingContainer.
  rewrite Hd, (pathExists_Some _ _ _ fresh_project_wrangler).
  unfold readConfig. rewrite fresh_project_wrangler.
  cbn [negb containers generateWranglerConfig]. rewrite Himg.
  reflexivity.
Qed.

Lemma generateWorkerCode_exports (port : Z) :
  JsString.includes (generateWorkerCode cn bn port) (export_of cn) = true.
Proof.
  unfold generateWorkerCode.
  apply (includes_join _ _ (export_of cn +:+ " extends Container<Env> {")).
  - right. right. right. left. unfold export_of. rewrite append_assoc.
    reflexivity.
  - apply includes_append_l, includes_prefix.
    rewrite <- (append_empty_r (export_of cn)) at 2. apply prefix_append.
Qed.

End FreshProject.

(** Another image puts its name into the generated build file only. *)
Lemma fresh_project_retarget (today d img img' pn cn bn : string)
    (mi : option Z) :
  <[ path_join d "Dockerfile.generated" :=
       Text ("FROM " +:+ img' +:+ nl +:+ "EXPOSE 8080") ]>
    (fresh_project today d img pn cn bn mi)
  = fresh_project today d img' pn cn bn mi.
Proof.
  unfold fresh_project.
  repeat (rewrite (insert_insert_ne _ (path_join d "Dockerfile.generated"))
            by path_ne).
  rewrite insert_insert_eq. reflexivity.
Qed.

(** Scaffolding an image into the project under the class it has rewrites
    the generated build file and leaves every other file as it was,
    whatever the project name and the date are now. *)
Lemma scaffold_files_again (today today' d img img' pn pn' cn bn : string)
    (mi : option Z) (ctx : Ctx) (opts : Opts) :
  cwd ctx = d -> JsString.truthy (Some img') = true ->
  scaffold_files today' ctx opts (Some img') None pn' cn bn mi
                 (fresh_project today d img pn cn bn mi)
  = (fresh_project today d img' pn cn bn mi,
     Ok {| projectName := pn'; className := cn; bindingName := bn |}).
Proof.
  intros Hd Himg.
  unfold scaffold_files, scaffold_dockerfile, scaffold_worker,
    scaffold_wrangler, scaffold_companions.
  rewrite Himg, Hd.
  unfold mbind, FsM_bind, mret, FsM_ret, step, get_fs.
  cbn [negb andb JsString.truthy default].
  unfold Datatypes.id.
  unfold writeFile at 1. rewrite fresh_project_dockerfile.
  rewrite fresh_project_retarget.
  unfold ensureDir. rewrite fresh_project_src.
  rewrite (pathExists_Some _ _ _
             (fresh_project_worker today d img' pn cn bn mi)).
  unfold updateWorkerCode, readFile.
  rewrite fresh_project_worker.
  fold (export_of cn). rewrite generateWorkerCode_exports.
  rewrite (pathExists_Some _ _ _
             (fresh_project_wrangler today d img' pn cn bn mi)).
  unfold mergeWranglerConfig, readConfig.
  rewrite fresh_project_wrangler.
  unfold mbind, completion_bind.
  rewrite merge_document_generated.
  rewrite (insert_id _ _ _ (fresh_project_wrangler today d img' pn cn bn mi)).
  rewrite (pathExists_Some _ _ _
             (fresh_project_tsconfig today d img' pn cn bn mi)).
  rewrite (pathExists_Some _ _ _
             (fresh_project_package today d img' pn cn bn mi)).
  unfold mergePackageJsonDependencies.
  rewrite fresh_project_package.
  change (<[ path_join d "package.json" := ?x ]> ?m) with
    (<[ path_join d "package.json" :=
          PackageDoc (generatePackageJson pn) ]> m).
  rewrite (insert_id _ _ _ (fresh_project_package today d img' pn cn bn mi)).
  rewrite (pathExists_Some _ _ _
             (fresh_project_cfignore today d img' pn cn bn mi)).
  reflexivity.
Qed.

Lemma assign_no_overrides (opts : Opts) : assign opts no_overrides = opts.
Proof. destruct opts. reflexivity. Qed.

Lemma looks_like_image_nonempty (arg : string) :
  looks_like_image arg = true -> JsString.truthy (Some arg) = true.
Proof. destruct arg; [discriminate|reflexivity]. Qed.

(** Scaffolding the image [img'] into the project of a first run for
    [img]: the files change only when the run goes ahead, and then only
    the generated build file. *)
Lemma scaffold_fresh_project (today today' d img img' : string)
    (opts : Opts) (det : Detection) (o : oracle) :
  let pn := resolve_projectName (image_ctx d img) opts (Some img) in
  let cn := resolve_className ∅ (image_ctx d img) opts (Some img) None pn in
  let fs1 := fresh_project today d img pn cn (bindingName_of cn)
                           (resolve_maxInstances opts) in
  JsString.truthy (Some img') = true ->
  metadata det = {| image := Some img'; dockerfilePath := None |} ->
  (run o (ContainerDetector_scaffold today' fs1 (image_ctx d img') opts det)).1
  = if goes_ahead opts o
    then fresh_project today d img' pn cn (bindingName_of cn)
                       (resolve_maxInstances opts)
    else fs1.
Proof.
  intros pn cn fs1 Himg Hmeta. subst fs1.
  set (fs1 := fresh_project today d img pn cn (bindingName_of cn)
                            (resolve_maxInstances opts)).
  set (pn' := resolve_projectName (image_ctx d img') opts (Some img')).
  assert (Hcn : resolve_className fs1 (image_ctx d img') opts (Some img')
                                  None pn' = cn).
  { apply fresh_project_className; [reflexivity|exact Himg]. }
  assert (Hfiles :
            scaffold_files today' (image_ctx d img') opts (Some img') None pn'
                           cn (bindingName_of cn) (resolve_maxInstances opts)
                           fs1
            = (fresh_project today d img' pn cn (bindingName_of cn)
                             (resolve_maxInstances opts),
               Ok {| projectName := pn'; className := cn;
                     bindingName := bindingName_of cn |})).
  { apply scaffold_files_again; [reflexivity|exact Himg]. }
  unfold ContainerDetector_scaffold. rewrite Hmeta.
  cbn [image dockerfilePath]. cbv zeta.
  change (resolve_projectName (image_ctx d img') opts (Some img')) with pn'.
  rewrite Hcn, Hfiles.
  change (cwd (image_ctx d img')) with d.
  rewrite (pathExists_Some fs1 _ _
             (fresh_project_worker today d img pn cn (bindingName_of cn)
                (resolve_maxInstances opts))).
  unfold goes_ahead. cbn [orb andb].
  destruct (opt_force opts); [reflexivity|].
  destruct (opt_noPrompt opts); [reflexivity|].
  cbn [negb andb orb run]. destruct (answer_confirm o _); reflexivity.
Qed.

(** What the two runs leave behind. *)
Lemma two_runs (today today' d img img' : string) (opts0 : Opts)
    (o o' : oracle) :
  looks_like_image img = true -> looks_like_image img' = true ->
  let pn := resolve_projectName (image_ctx d img) opts0 (Some img) in
  let cn := resolve_className ∅ (image_ctx d img) opts0 (Some img) None pn in
  let project i :=
    fresh_project today d i pn cn (bindingName_of cn)
                  (resolve_maxInstances opts0) in
  first_run today d (Some img) opts0 o
  = (if opt_detect opts0 || opt_plan opts0 then ∅ else project img)
  /\ second_run today today' d (Some img) (Some img') opts0 o o'
     = (if opt_detect opts0 || opt_plan opts0 then ∅
        else if goes_ahead opts0 o' then project img' else project img).
Proof.
  intros Hlooks Hlooks' pn cn project.
  assert (Himg := looks_like_image_nonempty img Hlooks).
  assert (Himg' := looks_like_image_nonempty img' Hlooks').
  assert (Htarget : forall i, JsString.truthy (Some i) = true ->
                              target_args (Some i) = [i]).
  { intros [|a t] H; [discriminate H|reflexivity]. }
  assert (Hctx0 : forall i, JsString.truthy (Some i) = true ->
                            action_ctx d ∅ (Some i) = image_ctx d i).
  { intros i H. unfold action_ctx, loadContext, loadConfig, loadConfig_from.
    rewrite (Htarget i H), !lookup_empty. reflexivity. }
  assert (Hctx1 : action_ctx d (project img) (Some img') = image_ctx d img').
  { unfold action_ctx, loadContext. rewrite (Htarget img' Himg').
    unfold project. rewrite fresh_project_loadConfig. reflexivity. }
  assert (Hopts : forall fs i,
             action_ctx d fs (Some i) = image_ctx d i ->
             action_opts d fs (Some i) opts0 = opts0).
  { intros fs i H. unfold action_opts. rewrite H. apply assign_no_overrides. }
  assert (Hfirst :
            first_run today d (Some img) opts0 o
            = if opt_detect opts0 || opt_plan opts0 then ∅ else project img).
  { unfold first_run.
    rewrite main_outcome, (Hopts _ _ (Hctx0 img Himg)), (Hctx0 img Himg).
    unfold detect. cbn [d_class new_ContainerDetector].
    unfold image_ctx at 1.
    rewrite (detect_empty_directory _ _ _ _ _ Hlooks).
    unfold detected_outcome.
    destruct (opt_detect opts0); [reflexivity|].
    destruct (opt_plan opts0); [reflexivity|].
    cbn [orb]. unfold scaffold. cbn [detector d_class new_ContainerDetector].
    unfold ContainerDetector_scaffold. cbn [metadata image dockerfilePath].
    change (cwd (image_ctx d img)) with d.
    rewrite !pathExists_empty. cbn [orb andb run]. fold pn. fold cn.
    rewrite (scaffold_files_empty today _ opts0 img pn cn (bindingName_of cn)
               (resolve_maxInstances opts0) Himg).
    change (cwd (image_ctx d img)) with d. fold (project img).
    destruct (opt_ship opts0); [|reflexivity].
    destruct (run o (deploy new_ContainerDetector)) as [[|]|e]; reflexivity. }
  split; [exact Hfirst|].
  unfold second_run. rewrite Hfirst.
  destruct (opt_detect opts0 || opt_plan opts0) eqn:Hdry.
  - rewrite main_outcome, (Hopts _ _ (Hctx0 img' Himg')), (Hctx0 img' Himg').
    unfold detect. cbn [d_class new_ContainerDetector].
    unfold image_ctx. rewrite (detect_empty_directory _ _ _ _ _ Hlooks').
    unfold detected_outcome.
    destruct (opt_detect opts0); [reflexivity|].
    destruct (opt_plan opts0); [reflexivity|discriminate Hdry].
  - rewrite main_outcome, (Hopts _ _ Hctx1), Hctx1.
    unfold detect. cbn [d_class new_ContainerDetector].
    unfold image_ctx at 1, project at 1.
    rewrite (fresh_project_detect _ _ _ _ _ _ _ _ _ _ _ Hlooks').
    unfold detected_outcome.
    apply orb_false_iff in Hdry as [-> ->].
    unfold scaffold. cbn [detector d_class new_ContainerDetector].
    match goal with
    | |- context [ContainerDetector_scaffold _ _ _ _ ?det] =>
        assert (Hfiles := scaffold_fresh_project today today' d img img'
                            opts0 det o' Himg' eq_refl)
    end.
    cbv zeta in Hfiles. fold pn cn in Hfiles.
    fold (project img) (project img') in Hfiles.
    fold (image_ctx d img').
    destruct (run o' (ContainerDetector_scaffold today' (project img)
                        (image_ctx d img') opts0 _))
      as [fs' [[r|]|e]]; cbn [fst] in Hfiles; subst fs'; try reflexivity.
    destruct (opt_ship opts0); [|reflexivity].
    destruct (run o' (deploy new_ContainerDetector)) as [[|]|e]; reflexivity.
Qed.

(** X19. Running the command a second time with the same image argument
    and options in the directory the first run started empty leaves every
    file as the first run left it, whatever the date and whatever is
    answered to the confirmation or happens to the deploy: the class is
    found again, the worker and the descriptor are recognised as holding
    it, and the manifest merge reproduces the manifest. *)
Theorem rerun_changes_nothing (today today' d img : string) (opts0 : Opts)
    (o o' : oracle) :
  looks_like_image img = true ->
  second_run today today' d (Some img) (Some img) opts0 o o'
  = first_run today d (Some img) opts0 o.
Proof.
  intros Hlooks.
  destruct (two_runs today today' d img img opts0 o o' Hlooks Hlooks)
    as [-> ->].
  destruct (opt_detect opts0 || opt_plan opts0); [reflexivity|].
  destruct (goes_ahead opts0 o'); reflexivity.
Qed.

Lemma rerun_changes_nothing_witness :
  second_run "2025-01-01" "2025-06-30" "/app" (Some "nginx:alpine")
             (Some "nginx:alpine") default_opts refusing refusing
  = first_run "2025-01-01" "/app" (Some "nginx:alpine") default_opts refusing.
Proof.
  apply (rerun_changes_nothing "2025-01-01" "2025-06-30" "/app"
           "nginx:alpine" default_opts refusing refusing).
  vm_compute. reflexivity.
Defined.

(** X20. A second image does not become a second container.  Run in the
    project a first run made for one image, the command finds the class of
    that image by the name of the generated build file, which all remote
    images share, and reuses it: when the run goes ahead the generated build
    file names the new image in place of the old one and every other file,
    the descriptor with its one container and its name included, stays as
    the first image left it. *)
Theorem second_image_takes_over (today today' d img img' : string)
    (opts0 : Opts) (o o' : oracle) :
  looks_like_image img = true -> looks_like_image img' = true ->
  opt_detect opts0 || opt_plan opts0 = false ->
  goes_ahead opts0 o' = true ->
  let first := first_run today d (Some img) opts0 o in
  let second := second_run today today' d (Some img) (Some img') opts0 o o' in
  second
  = <[ path_join d "Dockerfile.generated" :=
         Text ("FROM " +:+ img' +:+ nl +:+ "EXPOSE 8080") ]> first
  /\ (forall p, p <> path_join d "Dockerfile.generated" ->
                second !! p = first !! p)
  /\ exists doc c,
       second !! path_join d "wrangler.jsonc" = Some (ConfigDoc doc)
       /\ containers doc = Some [c]
       /\ c_class_name c
          = resolve_className ∅ (image_ctx d img) opts0 (Some img) None
              (resolve_projectName (image_ctx d img) opts0 (Some img))
       /\ w_name doc
          = Some (resolve_projectName (image_ctx d img) opts0 (Some img)).
Proof.
  intros Hlooks Hlooks' Hdry Hgo first second. subst first second.
  destruct (two_runs today today' d img img' opts0 o o' Hlooks Hlooks')
    as [-> ->].
  rewrite Hdry, Hgo.
  assert (Hsecond := fresh_project_retarget today d img img'
                       (resolve_projectName (image_ctx d img) opts0 (Some img))
                       (resolve_className ∅ (image_ctx d img) opts0 (Some img)
                          None (resolve_projectName (image_ctx d img) opts0
                                  (Some img)))
                       (bindingName_of
                          (resolve_className ∅ (image_ctx d img) opts0
                             (Some img) None
                             (resolve_projectName (image_ctx d img) opts0
                                (Some img))))
                       (resolve_maxInstances opts0)).
  split; [symmetry; exact Hsecond|].
  split.
  { intros p Hp. rewrite <- Hsecond. apply lookup_insert_ne. congruence. }
  eexists _, _. split; [apply fresh_project_wrangler|].
  split; [reflexivity|]. split; reflexivity.
Qed.

Lemma second_image_takes_over_witness :
  second_run "2025-01-01" "2025-06-30" "/app" (Some "nginx:alpine")
             (Some "redis:7") default_opts refusing
             {| answer_confirm := fun _ => true;
                answer_select := fun _ => first_choice;
                answer_spawn := fun _ _ => 0%Z |}
  = <[ "/app/Dockerfile.generated" :=
         Text ("FROM redis:7" +:+ nl +:+ "EXPOSE 8080") ]>
      (first_run "2025-01-01" "/app" (Some "nginx:alpine") default_opts
                 refusing).
Proof.
  apply (second_image_takes_over "2025-01-01" "2025-06-30" "/app"
           "nginx:alpine" "redis:7" default_opts refusing
           {| answer_confirm := fun _ => true;
              answer_select := fun _ => first_choice;
              answer_spawn := fun _ _ => 0%Z |});
    vm_compute; reflexivity.
Defined.

(** ** A local build file *)

Lemma drop_append (a b : string) :
  JsString.drop (String.length a) (a +:+ b) = b.
Proof. induction a as [|c a IH]; [reflexivity|exact IH]. Qed.

(** A path below a directory, relative to it, is its tail. *)
Lemma relative_join (d x : string) : Path.relative d (path_join d x) = x.
Proof.
  unfold Path.relative, Path.join. rewrite <- append_assoc.
  rewrite prefix_append.
  replace (String.length d + 1)%nat with (String.length (d +:+ "/")).
  - apply drop_append.
  - induction d as [|c d IH]; [reflexivity|].
    change (S (String.length (d +:+ "/")) = S (String.length d + 1)).
    rewrite IH. reflexivity.
Qed.

Lemma path_join_nonempty (d x : string) :
  exists a t, path_join d x = String a t.
Proof. destruct d as [|c d]; eexists _, _; reflexivity. Qed.

(** With a build file in the detection result the image plays no part:
    nothing is generated, the build file is referred to relative to the
    directory, and the port is the one its scan gives. *)
Lemma scaffold_dockerfile_local (ctx : Ctx) (image : option string)
    (df : string) (fs : filesystem) :
  JsString.startsWith df "." = false ->
  scaffold_dockerfile ctx image (Some (path_join (cwd ctx) df)) fs
  = (fs, Ok (Some ("./" +:+ df),
             Dockerfile.analyzeDockerfile fs (path_join (cwd ctx) df))).
Proof.
  intros Hdot.
  assert (Hrel := relative_join (cwd ctx) df).
  destruct (path_join_nonempty (cwd ctx) df) as (a & t & Hp).
  rewrite Hp in *. unfold scaffold_dockerfile.
  cbn [JsString.truthy negb]. rewrite andb_false_r.
  unfold mbind, FsM_bind, mret, FsM_ret, get_fs.
  rewrite Hrel, Hdot. reflexivity.
Qed.

Lemma scaffold_files_local (today : string) (ctx : Ctx) (opts : Opts)
    (image : option string) (df content pn cn bn : string) (mi : option Z) :
  In df dockerfile_names ->
  scaffold_files today ctx opts image (Some (path_join (cwd ctx) df))
                 pn cn bn mi (build_file_only (cwd ctx) df content)
  = (local_project today (cwd ctx) df content pn cn bn mi,
     Ok {| projectName := pn; className := cn; bindingName := bn |}).
Proof.
  intros Hin. unfold scaffold_files.
  unfold mbind at 1. unfold FsM_bind at 1.
  rewrite scaffold_dockerfile_local
    by (destruct Hin as [<-|[<-|[<-|[]]]]; reflexivity).
  unfold scaffold_worker, scaffold_wrangler, scaffold_companions.
  unfold mbind, FsM_bind, mret, FsM_ret, step, get_fs.
  unfold local_project, build_file_only. cbv zeta.
  destruct Hin as [<-|[<-|[<-|[]]]];
    ( rewrite ensureDir_absent by absent;
      rewrite (pathExists_None _ _) by absent;
      rewrite writeFile_absent by absent;
      rewrite (pathExists_None _ _) by absent;
      rewrite writeFile_absent by absent;
      rewrite (pathExists_None _ _) by absent;
      rewrite writeFile_absent by absent;
      rewrite (pathExists_None _ _) by absent;
      rewrite writeFile_absent by absent;
      rewrite (pathExists_None _ _) by absent;
      rewrite writeFile_absent by absent;
      reflexivity ).
Qed.

Lemma first_existing_build_file (d df content : string) :
  In df dockerfile_names ->
  first_existing (build_file_only d df content) d dockerfile_names = Some df.
Proof.
  intros Hin. unfold first_existing, dockerfile_names, build_file_only.
  destruct Hin as [<-|[<-|[<-|[]]]]; cbn [List.find];
    rewrite ?(pathExists_None _ _) by absent;
    rewrite (pathExists_Some _ _ _ (lookup_insert_eq _ _ _)); reflexivity.
Qed.

Lemma build_file_only_other (d df content n : string) :
  In df dockerfile_names ->
  In n (compose_names
        ++ [".docker"; ".env"; "manifest.json"; "wrangler.jsonc";
            "Dockerfile.generated"]) ->
  build_file_only d df content !! path_join d n = None.
Proof.
  intros Hdf Hn. unfold build_file_only. cbn in Hn.
  destruct Hdf as [<-|[<-|[<-|[]]]];
    repeat (destruct Hn as [<-|Hn]; [absent|]); destruct Hn.
Qed.

(** X21. In a directory that holds nothing but a build file under one of
    the three names detection knows, a run without argument detects it
    with confidence 0.9 and scaffolds from it: no build file is generated
    and the given one is left alone, the worker is written with the port
    the scan of the build file gives, the descriptor refers to the build
    file relative to the directory, and without a name override the project
    is named after the directory. *)
Theorem build_file_scenario (today d df content : string) (opts : Opts) :
  In df dockerfile_names ->
  let fs := build_file_only d df content in
  let port := Dockerfile.analyzeDockerfile fs (path_join d df) in
  exists det fs' r doc,
    detect new_ContainerDetector fs (plain_ctx d) opts = Ok (Some det)
    /\ confidence det = 0.9%Q
    /\ metadata det
       = {| image := None; dockerfilePath := Some (path_join d df) |}
    /\ scaffold (detector det) today fs (plain_ctx d) opts det
       = Done (fs', Ok (Some r))
    /\ fs' !! path_join d "Dockerfile.generated" = None
    /\ fs' !! path_join d df = Some (Text content)
    /\ fs' !! path_join (path_join d "src") "index.ts"
       = Some (Text (generateWorkerCode (className r) (bindingName r) port))
    /\ fs' !! path_join d "wrangler.jsonc" = Some (ConfigDoc doc)
    /\ containers doc
       = Some [ {| c_class_name := className r;
                   c_image := Some ("./" +:+ df);
                   c_max_instances := resolve_maxInstances opts;
                   c_instance_type := "basic" |} ]
    /\ (JsString.truthy (opt_name opts) = false ->
        projectName r = Path.basename d).
Proof.
  intros Hin fs port.
  set (pn := resolve_projectName (plain_ctx d) opts None).
  set (cn := resolve_className fs (plain_ctx d) opts None
               (Some (path_join d df)) pn).
  set (det := {| detector := new_ContainerDetector; confidence := 0.9;
                 indicators := ["Found " +:+ df];
                 metadata := {| image := None;
                                dockerfilePath := Some (path_join d df) |} |}).
  exists det, (local_project today d df content pn cn (bindingName_of cn)
                 (resolve_maxInstances opts)),
    {| projectName := pn; className := cn;
       bindingName := bindingName_of cn |},
    (generateWranglerConfig today pn cn (bindingName_of cn)
       (Some ("./" +:+ df)) (resolve_maxInstances opts)).
  split.
  { unfold detect. cbn [d_class new_ContainerDetector].
    unfold ContainerDetector_detect, detect_arg, detect_dockerfile,
      detect_compose, detect_docker_dir, detect_env, detect_manifest.
    cbn [args cwd plain_ctx]. fold dockerfile_names. fold compose_names.
    unfold fs. rewrite (first_existing_build_file d df content Hin).
    assert (Hcompose : first_existing (build_file_only d df content) d
                         compose_names = None).
    { unfold first_existing, compose_names. cbn [List.find].
      rewrite !pathExists_None
        by (apply build_file_only_other; [exact Hin|cbn; tauto]).
      reflexivity. }
    rewrite Hcompose.
    rewrite !pathExists_None
      by (apply build_file_only_other; [exact Hin|cbn; tauto]).
    reflexivity. }
  split; [reflexivity|]. split; [reflexivity|].
  split.
  { unfold scaffold. cbn [detector det d_class new_ContainerDetector].
    unfold ContainerDetector_scaffold, det.
    cbn [metadata image dockerfilePath]. cbv zeta.
    fold pn. fold cn. change (cwd (plain_ctx d)) with d.
    assert (Hworker : pathExists fs (path_join (path_join d "src") "index.ts")
                      = false).
    { apply pathExists_None. unfold fs, build_file_only.
      destruct Hin as [<-|[<-|[<-|[]]]]; absent. }
    assert (Hwrangler : pathExists fs (path_join d "wrangler.jsonc") = false).
    { apply pathExists_None, build_file_only_other; [exact Hin|cbn; tauto]. }
    rewrite Hworker, Hwrangler. cbn [orb andb].
    assert (Hfiles := scaffold_files_local today (plain_ctx d) opts None df
                        content pn cn (bindingName_of cn)
                        (resolve_maxInstances opts) Hin).
    change (cwd (plain_ctx d)) with d in Hfiles. fold fs in Hfiles.
    rewrite Hfiles. reflexivity. }
  split.
  { unfold local_project, build_file_only.
    destruct Hin as [<-|[<-|[<-|[]]]]; absent. }
  split.
  { unfold local_project, build_file_only.
    destruct Hin as [<-|[<-|[<-|[]]]];
      rewrite !lookup_insert_ne by path_ne; apply lookup_insert_eq. }
  split.
  { unfold local_project.
    rewrite !lookup_insert_ne by path_ne. apply lookup_insert_eq. }
  split.
  { unfold local_project.
    rewrite !lookup_insert_ne by path_ne. apply lookup_insert_eq. }
  split; [reflexivity|].
  intros Hname. cbn [projectName]. unfold pn, resolve_projectName.
  destruct (opt_name opts) as [[|a t]|]; try discriminate Hname; reflexivity.
Qed.

Lemma build_file_scenario_witness :
  exists det fs' r,
    detect new_ContainerDetector
      (build_file_only "/srv/shop" "Containerfile"
         ("FROM node:20" +:+ nl +:+ "EXPOSE 9000"))
      (plain_ctx "/srv/shop") default_opts = Ok (Some det)
    /\ scaffold (detector det) "2025-01-01"
         (build_file_only "/srv/shop" "Containerfile"
            ("FROM node:20" +:+ nl +:+ "EXPOSE 9000"))
         (plain_ctx "/srv/shop") default_opts det
       = Done (fs', Ok (Some r))
    /\ fs' !! "/srv/shop/Dockerfile.generated" = None
    /\ fs' !! "/srv/shop/src/index.ts"
       = Some (Text (generateWorkerCode (className r) (bindingName r) 9000)).
Proof.
  destruct (build_file_scenario "2025-01-01" "/srv/shop" "Containerfile"
              ("FROM node:20" +:+ nl +:+ "EXPOSE 9000") default_opts)
    as (det & fs' & r & doc & Hdet & _ & _ & Hsc & Hgen & _ & Hworker & _).
  - right. left. reflexivity.
  - exists det, fs', r. repeat split; assumption.
Defined.

(** ** A descriptor without migrations *)

Lemma descriptor_only_other (d n : string) (doc : WranglerConfig) :
  In n (dockerfile_names ++ compose_names
        ++ [".docker"; ".env"; "manifest.json"; "cf.config.json";
            "cf.config.js"; ".cfrc.json"; "Dockerfile.generated"; "src";
            "tsconfig.json"; "package.json"; ".cfignore"]) ->
  descriptor_only d doc !! path_join d n = None.
Proof.
  intros Hn. unfold descriptor_only. cbn in Hn.
  repeat (destruct Hn as [<-|Hn]; [absent|]). destruct Hn.
Qed.

Lemma descriptor_only_detect (this : Detector) (d arg : string)
    (doc : WranglerConfig) (rest : list string) (c : ConfigOverrides) :
  looks_like_image arg = true ->
  ContainerDetector_detect this (descriptor_only d doc)
    {| cwd := d; args := arg :: rest; config := c |}
  = Ok (Some {| detector := this; confidence := 0.95;
                indicators := ["Explicit image reference: " +:+ arg];
                metadata := {| image := Some arg;
                               dockerfilePath := None |} |}).
Proof.
  intros Himg.
  unfold ContainerDetector_detect, detect_arg, detect_dockerfile,
    detect_compose, detect_docker_dir, detect_env, detect_manifest,
    first_existing.
  cbn [args cwd List.find]. rewrite Himg.
  rewrite !pathExists_None by (apply descriptor_only_other; cbn; tauto).
  reflexivity.
Qed.

(** X22. A project whose descriptor has no migration yet cannot be
    scaffolded, and the failed run is not without effect.  In a directory
    that holds only such a descriptor, a run for an image that goes ahead
    writes the generated build file, the source directory and the worker,
    then fails in the merge: it ends with the config code, the descriptor is
    as it was, and the type declarations, the manifest and the ignore file
    are not written. *)
Theorem failed_merge_leaves_files (today d img : string)
    (doc : WranglerConfig) (opts0 : Opts) (o : oracle) :
  looks_like_image img = true ->
  migrations_of doc = [] ->
  opt_detect opts0 || opt_plan opts0 = false ->
  goes_ahead opts0 o = true ->
  let fs := descriptor_only d doc in
  let out := run o (main today d fs (Some img) opts0) in
  exit_code out = EXIT_CODES.CONFIG
  /\ (exists cn,
        files out
        = <[ path_join (path_join d "src") "index.ts" :=
               Text (generateWorkerCode cn (bindingName_of cn) 8080) ]>
            (<[ path_join d "src" := Dir ]>
               (<[ path_join d "Dockerfile.generated" :=
                     Text ("FROM " +:+ img +:+ nl +:+ "EXPOSE 8080") ]> fs)))
  /\ files out !! path_join d "wrangler.jsonc" = Some (ConfigDoc doc)
  /\ files out !! path_join d "tsconfig.json" = None
  /\ files out !! path_join d "package.json" = None
  /\ files out !! path_join d ".cfignore" = None.
Proof.
  intros Hlooks Hnone Hdry Hgo fs out.
  assert (Himg := looks_like_image_nonempty img Hlooks).
  assert (Hctx : action_ctx d fs (Some img) = image_ctx d img).
  { unfold action_ctx, loadContext, loadConfig, loadConfig_from.
    unfold fs.
    rewrite !descriptor_only_other by (cbn; tauto).
    destruct img; [discriminate Himg|reflexivity]. }
  assert (Hopts : action_opts d fs (Some img) opts0 = opts0).
  { unfold action_opts. rewrite Hctx. apply assign_no_overrides. }
  set (pn := resolve_projectName (image_ctx d img) opts0 (Some img)).
  set (cn := resolve_className fs (image_ctx d img) opts0 (Some img) None pn).
  set (fs' := <[ path_join (path_join d "src") "index.ts" :=
                   Text (generateWorkerCode cn (bindingName_of cn) 8080) ]>
                (<[ path_join d "src" := Dir ]>
                   (<[ path_join d "Dockerfile.generated" :=
                         Text ("FROM " +:+ img +:+ nl +:+ "EXPOSE 8080") ]>
                      fs))).
  assert (Hwrangler : forall m : filesystem,
             m = fs' -> m !! path_join d "wrangler.jsonc"
                        = Some (ConfigDoc doc)).
  { intros m ->. unfold fs', fs, descriptor_only.
    rewrite !lookup_insert_ne by path_ne. apply lookup_insert_eq. }
  assert (Hfiles :
            scaffold_files today (image_ctx d img) opts0 (Some img) None pn cn
                           (bindingName_of cn) (resolve_maxInstances opts0) fs
            = (fs', Throw (ReferenceError "opts"))).
  { unfold scaffold_files, scaffold_dockerfile, scaffold_worker,
      scaffold_wrangler.
    rewrite Himg. change (cwd (image_ctx d img)) with d.
    unfold mbind, FsM_bind, mret, FsM_ret, step, get_fs.
    cbn [negb andb JsString.truthy default]. unfold Datatypes.id.
    unfold fs, descriptor_only.
    rewrite writeFile_absent by absent.
    rewrite ensureDir_absent by absent.
    rewrite (pathExists_None _ _) by absent.
    rewrite writeFile_absent by absent.
    fold (descriptor_only d doc). fold fs. fold fs'.
    rewrite (pathExists_Some _ _ _ (Hwrangler fs' eq_refl)).
    rewrite (mergeWranglerConfig_throw fs' _ _ _ _ _ doc
               (ReferenceError "opts") (Hwrangler fs' eq_refl)).
    - reflexivity.
    - unfold migrations_at. rewrite (Hwrangler fs' eq_refl).
      fold (migrations_of doc). rewrite Hnone.
      apply merge_migrations_empty. }
  assert (Hout : out = {| files := fs'; exit_code := EXIT_CODES.CONFIG |}).
  { unfold out. rewrite main_outcome, Hopts, Hctx.
    unfold detect. cbn [d_class new_ContainerDetector].
    unfold image_ctx at 1, fs at 1.
    rewrite (descriptor_only_detect _ _ _ _ _ _ Hlooks).
    fold (image_ctx d img). fold fs.
    unfold detected_outcome.
    apply orb_false_iff in Hdry as [-> ->].
    unfold scaffold. cbn [detector d_class new_ContainerDetector].
    unfold ContainerDetector_scaffold.
    cbn [metadata image dockerfilePath]. cbv zeta.
    fold pn. fold cn. rewrite Hfiles.
    change (cwd (image_ctx d img)) with d.
    assert (Hexists : pathExists fs (path_join d "wrangler.jsonc") = true).
    { apply (pathExists_Some _ _ (ConfigDoc doc)). apply lookup_insert_eq. }
    rewrite Hexists, orb_true_r.
    unfold goes_ahead in Hgo.
    destruct (opt_force opts0); [reflexivity|].
    destruct (opt_noPrompt opts0); [reflexivity|].
    cbn [orb] in Hgo. cbn [negb andb run]. rewrite Hgo. reflexivity. }
  rewrite Hout. cbn [files exit_code].
  split; [reflexivity|]. split; [exists cn; reflexivity|].
  split; [apply Hwrangler; reflexivity|].
  unfold fs', fs, descriptor_only. repeat split; absent.
Qed.

Lemma failed_merge_leaves_files_witness :
  exit_code
    (run refusing
       (main "2025-01-01" "/app" (descriptor_only "/app" empty_document)
             (Some "nginx:alpine")
             {| opt_ship := false; opt_plan := false; opt_detect := false;
                opt_type := None; opt_name := None; opt_class := None;
                opt_maxInstances := Some "10"; opt_migrationTag := None;
                opt_noPrompt := true; opt_force := false;
                opt_verbose := false |}))
  = EXIT_CODES.CONFIG.
Proof.
  apply (failed_merge_leaves_files "2025-01-01" "/app" "nginx:alpine"
           empty_document
           {| opt_ship := false; opt_plan := false; opt_detect := false;
              opt_type := None; opt_name := None; opt_class := None;
              opt_maxInstances := Some "10"; opt_migrationTag := None;
              opt_noPrompt := true; opt_force := false;
              opt_verbose := false |} refusing);
    vm_compute; reflexivity.
Defined.

(** ** Names derived from an image *)








(** ** The end of the process *)

Lemma run_process_bind {A B} (w : world) (k : A -> prog B) (p : prog A) :
  run_process w (prog_bind k p)
  = match run_process w p with
    | Ends a => run_process w (k a)
    | Dies => Dies
    end.
Proof.
  induction p as [a|m f IH|m cs f IH|c a f IH]; simpl; auto.
  destruct (child w c a); auto.
Qed.

(** A process that is not ended by the error ends as under [run]. *)
Lemma run_process_ends {A} (w : world) (p : prog A) :
  run_process w p = Dies \/ run_process w p = Ends (run (closing w) p).
Proof.
  induction p as [a|m f IH|m cs f IH|c a f IH]; simpl; auto.
  destruct (child w c a) eqn:E; auto.
Qed.

Lemma scaffold_ends (w : world) (this : Detector) (today : string)
    (fs : filesystem) (ctx : Ctx) (opts : Opts) (detection : Detection) :
  run_process w (scaffold this today fs ctx opts detection)
  = Ends (run (closing w) (scaffold this today fs ctx opts detection)).
Proof.
  unfold scaffold. destruct (d_class this); [reflexivity|].
  unfold ContainerDetector_scaffold. cbv zeta.
  match goal with |- context [if ?b then _ else _] => destruct b end;
    [|reflexivity].
  simpl. destruct (confirms w _); reflexivity.
Qed.

Lemma deploy_process (w : world) :
  run_process w (deploy new_ContainerDetector)
  = if deploy_dies w then Dies
    else Ends (run (closing w) (deploy new_ContainerDetector)).
Proof.
  unfold deploy_dies. simpl.
  destruct (child w "npm" ["install"]) as [code|]; [|reflexivity].
  destruct (code =? 0)%Z; simpl; [|reflexivity].
  destruct (child w "npx" ["wrangler"; "types"]) as [typesCode|];
    [|reflexivity].
  simpl. destruct (child w "npx" ["wrangler"; "deploy"]); reflexivity.
Qed.

Lemma detect_detector (this : Detector) (fs : filesystem) (ctx : Ctx)
    (d : Detection) :
  ContainerDetector_detect this fs ctx = Ok (Some d) -> detector d = this.
Proof.
  unfold ContainerDetector_detect. cbv zeta.
  destruct (detect_env fs ctx _) as [st5|e]; cbn [mbind completion_bind];
    [|intros H; discriminate H].
  destruct (Qeqb0 _); intros H; [discriminate H|].
  injection H as <-. reflexivity.
Qed.

(** From a detection result on, the process is ended by the error exactly
    when the run gets as far as [deploy] and a child cannot be started. *)
Lemma run_detected_process (w : world) (today : string) (fs : filesystem)
    (ctx : Ctx) (opts : Opts) (result : Detection) :
  detector result = new_ContainerDetector ->
  run_process w (run_detected today fs ctx opts result)
  = if reaches_deploy w today fs ctx opts result && deploy_dies w then Dies
    else Ends (run (closing w) (run_detected today fs ctx opts result)).
Proof.
  intros Hdet. unfold reaches_deploy, run_detected.
  destruct (opt_detect opts); [reflexivity|].
  destruct (opt_plan opts); [reflexivity|].
  unfold mbind, prog_mbind. rewrite run_process_bind, run_bind, scaffold_ends.
  destruct (run (closing w) (scaffold (detector result) today fs ctx opts
                               result)) as [fs' [[r|]|e]];
    try reflexivity.
  cbn [negb andb scaffolded snd].
  destruct (opt_ship opts); [|reflexivity].
  rewrite run_process_bind, run_bind, Hdet, deploy_process.
  destruct (deploy_dies w); [reflexivity|].
  destruct (run (closing w) (deploy new_ContainerDetector)) as [[|]|e];
    reflexivity.
Qed.

Lemma main_process (today d : string) (fs : filesystem)
    (target : option string) (opts0 : Opts) (w : world) :
  let ctx := action_ctx d fs target in
  let opts := action_opts d fs target opts0 in
  run_process w (main today d fs target opts0)
  = if (match detect new_ContainerDetector fs ctx opts with
        | Ok (Some result) => reaches_deploy w today fs ctx opts result
        | _ => false
        end) && deploy_dies w
    then Dies
    else Ends (run (closing w) (main today d fs target opts0)).
Proof.
  intros ctx opts. unfold main. cbv zeta.
  change (loadContext fs d (target_args target)) with ctx.
  change (assign opts0 (config ctx)) with opts.
  destruct (forcedDetector [new_ContainerDetector] opts) as [forced|] eqn:Hf.
  - apply forcedDetector_container in Hf as ->.
    destruct (detect new_ContainerDetector fs ctx opts) as [[result|]|e] eqn:E;
      try reflexivity.
    apply run_detected_process. exact (detect_detector _ _ _ _ E).
  - unfold autoDetect, collect.
    destruct (detect new_ContainerDetector fs ctx opts) as [[result|]|e] eqn:E;
      try reflexivity.
    simpl. apply run_detected_process. exact (detect_detector _ _ _ _ E).
Qed.

Lemma main_exit_code (today d : string) (fs : filesystem)
    (target : option string) (opts0 : Opts) (o : oracle) :
  In (exit_code (run o (main today d fs target opts0)))
     [EXIT_CODES.SUCCESS; EXIT_CODES.PARTIAL; EXIT_CODES.USAGE;
      EXIT_CODES.CONFIG].
Proof.
  pose proof (main_outcome today d fs target opts0 o) as H.
  cbv zeta in H. rewrite H. clear H.
  set (ctx := action_ctx d fs target).
  set (opts := action_opts d fs target opts0).
  unfold detected_outcome.
  destruct (detect new_ContainerDetector fs ctx opts) as [[result|]|e].
  - destruct (opt_detect opts), (opt_plan opts),
      (run o (scaffold (detector result) today fs ctx opts result))
        as [fs' [[r|]|e]],
      (opt_ship opts), (run o (deploy (detector result))) as [[|]|e'];
      cbn; tauto.
  - destruct (forcedDetector [new_ContainerDetector] opts); cbn; tauto.
  - cbn. tauto.
Qed.

(** X24. How the process of the action ends when child processes may fail
    to start.  It is ended by the unhandled error exactly when the run gets
    as far as the deploy (a result was detected, neither detection nor plan
    output was asked for, scaffolding returned its result and shipping was
    asked for) and one of the child processes that the deploy starts cannot
    be started.  In every other case the action ends as it does when child
    processes close, with one of the four exit codes. *)
Theorem action_process_end (today d : string) (fs : filesystem)
    (target : option string) (opts0 : Opts) (w : world) :
  let ctx := action_ctx d fs target in
  let opts := action_opts d fs target opts0 in
  let action := main today d fs target opts0 in
  let deploying :=
    match detect new_ContainerDetector fs ctx opts with
    | Ok (Some result) => reaches_deploy w today fs ctx opts result
    | _ => false
    end in
  (run_process w action = Dies <->
   deploying = true /\ deploy_dies w = true)
  /\ (run_process w action <> Dies ->
      run_process w action = Ends (run (closing w) action)
      /\ In (exit_code (run (closing w) action))
            [EXIT_CODES.SUCCESS; EXIT_CODES.PARTIAL; EXIT_CODES.USAGE;
             EXIT_CODES.CONFIG])
  /\ (opt_ship opts = false ->
      run_process w action = Ends (run (closing w) action)).
Proof.
  intros ctx opts action deploying. subst action.
  rewrite main_process. fold ctx opts deploying.
  split; [|split].
  - destruct deploying, (deploy_dies w); cbn; split;
      try (intros H; discriminate H); try (intros [H1 H2]; discriminate);
      auto.
  - intros H. split; [|apply main_exit_code].
    destruct (deploying && deploy_dies w); [contradiction|reflexivity].
  - intros Hship.
    assert (Hd : deploying = false).
    { subst deploying.
      destruct (detect new_ContainerDetector fs ctx opts) as [[result|]|e];
        try reflexivity.
      unfold reaches_deploy. rewrite Hship. apply andb_false_r. }
    rewrite Hd. reflexivity.
Qed.

Lemma action_process_end_witness :
  let shipping :=
    {| opt_ship := true; opt_plan := false; opt_detect := false;
       opt_type := None; opt_name := None; opt_class := None;
       opt_maxInstances := Some "10"; opt_migrationTag := None;
       opt_noPrompt := false; opt_force := false; opt_verbose := false |} in
  run_process without_npx
    (main "2025-01-01" "/app" ∅ (Some "nginx:alpine") shipping) = Dies
  /\ run_process without_npx
       (main "2025-01-01" "/app" ∅ (Some "nginx:alpine") default_opts)
     = Ends (run (closing without_npx)
               (main "2025-01-01" "/app" ∅ (Some "nginx:alpine")
                  default_opts)).
Proof.
  intros shipping. split.
  - apply (proj1 (action_process_end "2025-01-01" "/app" ∅
                    (Some "nginx:alpine") shipping without_npx)).
    split; vm_compute; reflexivity.
  - apply (proj2 (proj2 (action_process_end "2025-01-01" "/app" ∅
                           (Some "nginx:alpine") default_opts without_npx))).
    reflexivity.
Defined.
